(** * The TensorRT execution provider sample, embedded in Rocq

    Source: [samples/tensorRTEp/tensorrt_execution_provider.cc].

    The provider is written against three external interfaces: the ONNX
    Runtime C API, the CUDA runtime and TensorRT.  None of them is part of
    the repository, so the calls that cross one of these borders and act
    on the outside (copy, allocate, bind, build, enqueue, lock, capture)
    are recorded, in program order, in a list of [Call]s, and every
    answer that comes back is read from an explicit environment record.
    Objects the provider configures (layers, builder configuration,
    optimization profiles) are records holding what was set on them.
    Destructor calls at scope exit are not recorded.  The control flow
    between the calls is the one of the source, statement by statement;
    the parts of the source that are commented out are not embedded,
    because they are not compiled.

    Part I holds the definitions, Part II the theorems. *)

From Stdlib Require Import ZArith Lia Ascii String.
From stdpp Require Import base option list gmap strings pretty fin_maps.

Local Open Scope string_scope.
Local Open Scope list_scope.
Local Open Scope Z_scope.

#[local] Set Warnings "-clear-no-such-hyp".

(* ===================================================================== *)
(** * Part I.  Definitions                                               *)
(* ===================================================================== *)

(** ** Statuses, addresses and outcomes *)

(** [OrtErrorCode]: the two codes the file passes to [CreateStatus]. *)
Inductive OrtErrorCode := ORT_FAIL | ORT_EP_FAIL.

(** An [OrtStatusPtr] is either [nullptr] (success) or a status object
    made by [api->CreateStatus(code, msg)]. *)
Inductive OrtStatusPtr :=
| nullptr
| CreateStatus (code : OrtErrorCode) (msg : string).

Definition is_failure (st : OrtStatusPtr) : bool :=
  match st with nullptr => false | CreateStatus _ _ => true end.

Definition GetErrorMessage (st : OrtStatusPtr) : string :=
  match st with nullptr => "" | CreateStatus _ msg => msg end.

(** Device and host addresses; [0] is the null pointer. *)
Definition Addr := Z.
Definition null : Addr := 0.

(** How a C++ function body can end.  [Undefined] stands for behaviour the
    language does not define (indexing a [std::vector] out of range,
    dereferencing a null pointer); [Aborts] for the [abort()] of
    [CUDA_RETURN_IF_ERROR]; [Throws] for a C++ exception that leaves the
    function. *)
Inductive Outcome (A : Type) : Type :=
| Returns (a : A)
| Throws (what : string)
| Aborts
| Undefined.
Arguments Returns {A} a.
Arguments Throws {A} what.
Arguments Aborts {A}.
Arguments Undefined {A}.

(** A computation over a world [W]: the world is kept on every outcome, so
    the calls made before an abnormal end stay observable. *)
Definition M (W A : Type) : Type := W -> Outcome A * W.

#[global] Instance M_ret {W} : MRet (M W) := fun A a w => (Returns a, w).

#[global] Instance M_bind {W} : MBind (M W) := fun A B k m w =>
  match m w with
  | (Returns a, w') => k a w'
  | (Throws s, w') => (Throws s, w')
  | (Aborts, w') => (Aborts, w')
  | (Undefined, w') => (Undefined, w')
  end.

Definition undefined {W A} : M W A := fun w => (Undefined, w).
Definition abort {W A} : M W A := fun w => (Aborts, w).
Definition throw {W A} (what : string) : M W A := fun w => (Throws what, w).
Definition gets {W A} (f : W -> A) : M W A := fun w => (Returns (f w), w).
Definition modify {W} (f : W -> W) : M W unit := fun w => (Returns tt, f w).

(** [v[i]] on a [std::vector]: undefined out of range. *)
Definition at_ {W A} (v : list A) (i : nat) : M W A :=
  match v !! i with
  | Some x => mret x
  | None => undefined
  end.

(** ** Integers of the source *)

Definition INT_MAX : Z := 2147483647.
Definition INT_MIN : Z := -2147483648.
Definition SIZE_MAX : Z := 18446744073709551615.

(** [static_cast<int32_t>(v)] of a 64-bit value: reduction modulo 2^32
    into the signed range. *)
Definition to_int32 (v : Z) : Z := (v + 2147483648) mod 4294967296 - 2147483648.

(** Arithmetic on [size_t]: 64 bits, unsigned, wrapping. *)
Definition to_size_t (v : Z) : Z := v mod 18446744073709551616.

(** ** The external calls *)

Inductive cudaMemcpyKind :=
| cudaMemcpyHostToDevice
| cudaMemcpyDeviceToHost
| cudaMemcpyDeviceToDevice.

(** What [setTensorAddress] is given: a device address, or the address of
    the first element of one of the two host vectors of shape values. *)
Inductive Binding :=
| DeviceAddress (p : Addr)
| ShapeValues32 (name : string)
| ShapeValues64 (name : string).

(** The calls into CUDA, TensorRT, ONNX Runtime and the C library that the
    embedded functions make, with their arguments.  The last two groups
    are the calls the specification speaks about for the compute
    function: the provider mutex and the CUDA graph object. *)
Inductive Call :=
(* CUDA runtime and libc *)
| cudaMemcpyAsync (dst src : Addr) (count : Z) (kind : cudaMemcpyKind) (stream : Addr)
| cudaMemcpy (dst src : Addr) (count : Z) (kind : cudaMemcpyKind)
| cudaStreamSynchronize (stream : Addr)
| memcpy (dst src : Addr) (count : Z)
(* OrtAllocator and kernel context *)
| Alloc (bytes : Z)
| Free (p : Addr)
| CreateMemoryInfo
| KernelContext_GetAllocator
| KernelContext_GetGPUComputeStream
| KernelContext_GetOutput (index : Z) (shape : list Z)
(* nvinfer1::IExecutionContext *)
| setTensorAddress (name : string) (b : Binding)
| setInputShape (name : string) (dims : list Z)
| setOutputAllocator (name : string)
| setDeviceMemory (p : Addr)
| enqueueV3 (stream : Addr)
(* builder, parser, runtime *)
| GetTensorrtLogger (verbose_log : bool)
| createInferBuilder
| createNetworkV2 (network_flags : Z)
| createBuilderConfig
| createParser
| parse (model_path : string)
| createOptimizationProfile
| addOptimizationProfile (index : nat)
| buildSerializedNetwork
| deserializeCudaEngine
(* refit *)
| filesystem_exists (path : string)
| createInferRefitter
| createParserRefitter
| refitFromFile (path : string)
| refitCudaEngine
| serialize
| ofstream_write (path : string)
(* std::lock_guard on the provider mutex *)
| mutex_lock
| mutex_unlock
(* cuda::Impl_Cast<int32_t, int64_t> *)
| Impl_Cast_int32_int64 (stream src dst : Addr) (count : Z)
(* CUDA graph capture *)
| cuda_graph_SetStream (stream : Addr)
| CaptureBegin (annotation_id : Z)
| CaptureEnd (annotation_id : Z)
| ReplayGraph (annotation_id : Z).

#[global] Instance cudaMemcpyKind_eq_dec : EqDecision cudaMemcpyKind.
Proof. solve_decision. Defined.
#[global] Instance Binding_eq_dec : EqDecision Binding.
Proof. solve_decision. Defined.
#[global] Instance Call_eq_dec : EqDecision Call.
Proof. solve_decision. Defined.

(** ** The provider shell: [GetCapability] and [CopyTensor] *)

(** The cells the out-parameters [cnt] and [indexed_sub_graph] of
    [GetCapability] point to. *)
Record CapabilityOut := {
  cnt_cell : Z;
  indexed_sub_graph_cell : Addr
}.

(** [OrtExecutionProvider::GetCapability]: the lambda has an empty body. *)
Definition GetCapability {Provider Graph : Type}
    (this_ : Provider) (graph : Graph) (out : CapabilityOut) : CapabilityOut :=
  out.

(** The enumerations are declared in the C API headers; only the values
    the source names are told apart. *)
Inductive OrtMemoryInfoDeviceType :=
| OrtMemoryInfoDeviceType_CPU
| OrtMemoryInfoDeviceType_GPU
| OrtMemoryInfoDeviceType_other.

Inductive OrtMemoryType :=
| OrtMemoryType_Default
| OrtMemoryType_CUDA_PINNED
| OrtMemoryType_other.

#[global] Instance OrtMemoryInfoDeviceType_eq_dec : EqDecision OrtMemoryInfoDeviceType.
Proof. solve_decision. Defined.
#[global] Instance OrtMemoryType_eq_dec : EqDecision OrtMemoryType.
Proof. solve_decision. Defined.

(** [OrtExecutionProvider::CanCopy]. *)
Definition CanCopy (source_device_type : OrtMemoryInfoDeviceType) (source_mem_type : OrtMemoryType)
    (target_device_type : OrtMemoryInfoDeviceType) (target_mem_type : OrtMemoryType) : bool :=
  bool_decide (source_device_type = OrtMemoryInfoDeviceType_GPU)
  || bool_decide (source_mem_type = OrtMemoryType_CUDA_PINNED)
  || bool_decide (target_device_type = OrtMemoryInfoDeviceType_GPU)
  || bool_decide (target_mem_type = OrtMemoryType_CUDA_PINNED).

(** [OrtExecutionProvider::CopyTensor].  The results of the CUDA calls are
    dropped by the source, so the function is the status it returns and
    the calls it makes. *)
Definition CopyTensor (src : Addr) (source_device_type : OrtMemoryInfoDeviceType)
    (source_mem_type : OrtMemoryType) (dst : Addr)
    (target_device_type : OrtMemoryInfoDeviceType) (count : Z) (stream : Addr)
    : OrtStatusPtr * list Call :=
  if bool_decide (source_device_type = OrtMemoryInfoDeviceType_GPU)
     && bool_decide (target_device_type = OrtMemoryInfoDeviceType_GPU) then
    (nullptr,
     if bool_decide (src <> dst) then
       if bool_decide (stream <> null)
       then [cudaMemcpyAsync dst src count cudaMemcpyDeviceToDevice stream]
       else [cudaMemcpy dst src count cudaMemcpyDeviceToDevice]
     else [])
  else if bool_decide (source_device_type = OrtMemoryInfoDeviceType_CPU)
          && bool_decide (target_device_type = OrtMemoryInfoDeviceType_GPU) then
    (nullptr,
     if bool_decide (stream <> null)
     then [cudaMemcpyAsync dst src count cudaMemcpyHostToDevice stream]
     else [cudaMemcpy dst src count cudaMemcpyHostToDevice; cudaStreamSynchronize null])
  else if bool_decide (source_device_type = OrtMemoryInfoDeviceType_GPU)
          && bool_decide (target_device_type = OrtMemoryInfoDeviceType_CPU) then
    (nullptr,
     if bool_decide (stream <> null)
     then [cudaMemcpyAsync dst src count cudaMemcpyDeviceToHost stream]
     else [cudaMemcpy dst src count cudaMemcpyDeviceToHost; cudaStreamSynchronize null])
  else
    (nullptr,
     (if bool_decide (stream <> null)
         && bool_decide (source_mem_type = OrtMemoryType_CUDA_PINNED)
      then [cudaStreamSynchronize stream] else [])
     ++ [memcpy dst src count]).

(** ** [RefitEngine] *)

(** [std::filesystem::path::append] on POSIX paths: an absolute right
    operand replaces the path; otherwise a separator is added when the
    left operand has a file name (is not empty and does not end with a
    separator) and the right operand is appended. *)
Definition is_absolute (p : string) : bool :=
  match p with
  | String c _ => bool_decide (c = "/"%char)
  | EmptyString => false
  end.

Fixpoint has_filename (p : string) : bool :=
  match p with
  | EmptyString => false
  | String c EmptyString => negb (bool_decide (c = "/"%char))
  | String _ rest => has_filename rest
  end.

Definition path_append (p q : string) : string :=
  if is_absolute q then q
  else if has_filename p then p +:+ "/" +:+ q
  else p +:+ q.

(** The file system and the refitter, as [RefitEngine] sees them. *)
Record RefitEnv := {
  exists_ : string -> bool;
  refitFromFile_result : string -> bool;
  refitCudaEngine_result : bool
}.

Section Refit.
(** The preprocessor constant and the three helpers of
    [tensorrt_execution_provider_utils.h], which is not part of the
    sources at hand. *)
Variable NV_TENSORRT_MAJOR : Z.
Variable IsAbsolutePath : string -> bool.
Variable IsRelativePathToParentPath : string -> bool.
Variable GetWeightRefittedEnginePath : string -> string.

(** [TensorrtExecutionProvider::RefitEngine].  [trt_engine] is taken to
    point to an engine and the two refitter factories to return
    objects: the source dereferences all three unchecked. *)
Definition RefitEngine (env : RefitEnv)
    (onnx_model_filename onnx_model_folder_path weight_stripped_engine_cath_path : string)
    (path_check serialize_refitted_engine detailed_build_log : bool)
    : OrtStatusPtr * list Call :=
  if bool_decide (NV_TENSORRT_MAJOR >= 10) then
    let onnx_model_path := path_append onnx_model_folder_path onnx_model_filename in
    if path_check && IsAbsolutePath onnx_model_path then
      (CreateStatus ORT_EP_FAIL
         ("For security purpose, the ONNX model path should be set with "
          +:+ "a relative path, but it is an absolute path: " +:+ onnx_model_path),
       [])
    else if path_check && IsRelativePathToParentPath onnx_model_path then
      (CreateStatus ORT_EP_FAIL
         ("The ONNX model path has '..'. For security purpose, it's not "
          +:+ "allowed to point outside the directory."),
       [])
    else if negb (exists_ env onnx_model_path) then
      (CreateStatus ORT_EP_FAIL
         ("The ONNX model " +:+ onnx_model_path +:+ " does not exist."),
       [filesystem_exists onnx_model_path])
    else
      let refit_calls :=
        [filesystem_exists onnx_model_path;
         GetTensorrtLogger detailed_build_log;
         createInferRefitter;
         createParserRefitter;
         refitFromFile onnx_model_path] in
      if negb (refitFromFile_result env onnx_model_path) then
        (CreateStatus ORT_EP_FAIL
           ("TensorRT EP's IParserRefitter could not refit deserialized weight-stripped engine with weights contained in: "
            +:+ onnx_model_path),
         refit_calls)
      else if refitCudaEngine_result env then
        (nullptr,
         refit_calls ++ [refitCudaEngine] ++
         (if serialize_refitted_engine
          then [serialize;
                ofstream_write (GetWeightRefittedEnginePath weight_stripped_engine_cath_path)]
          else []))
      else
        (CreateStatus ORT_EP_FAIL
           ("TensorRT EP's IRefitter could not refit deserialized weight-stripped engine with weights contained in: "
            +:+ onnx_model_path),
         refit_calls ++ [refitCudaEngine])
  else
    (CreateStatus ORT_EP_FAIL
       "TensorRT EP's IParserRefitter can only be used on TRT 10.0 onwards.",
     []).
End Refit.

(** Modelled from the spec: [IsAbsolutePath] and
    [IsRelativePathToParentPath] are declared in
    [tensorrt_execution_provider_utils.h], which is missing; the
    specification asks that the path "must be relative" and has "no [..]
    components".  Used only to run [RefitEngine] on concrete paths. *)
Definition IsAbsolutePath_spec (path_string : string) : bool := is_absolute path_string.

Fixpoint components_from (cur : string) (p : string) : list string :=
  match p with
  | EmptyString => [cur]
  | String c rest =>
      if bool_decide (c = "/"%char) then cur :: components_from "" rest
      else components_from (cur +:+ String c "") rest
  end.

Definition IsRelativePathToParentPath_spec (path_string : string) : bool :=
  bool_decide (".." ∈ components_from "" path_string).

(** ** TensorRT objects of the compile step *)

(** [nvinfer1::DataType], [LayerType] and [ElementWiseOperation]: the
    values the source names, and one more for all the others. *)
Inductive DataType := kFLOAT | kHALF | kINT8 | kINT32 | DataType_other.

Inductive ElementWiseOperation := kSUM | kPROD | kPOW | ElementWiseOperation_other.

(** An element-wise layer carries its operation, the one
    [static_cast<IElementWiseLayer*>(layer)->getOperation()] reads. *)
Inductive LayerType :=
| kELEMENTWISE (getOperation : ElementWiseOperation)
| kREDUCE
| LayerType_other.

#[global] Instance DataType_eq_dec : EqDecision DataType.
Proof. solve_decision. Defined.
#[global] Instance ElementWiseOperation_eq_dec : EqDecision ElementWiseOperation.
Proof. solve_decision. Defined.
#[global] Instance LayerType_eq_dec : EqDecision LayerType.
Proof. solve_decision. Defined.

(** [nvinfer1::ILayer]: its type, and what [setPrecision] and
    [setOutputType(0, _)] have last been given ([None]: never called). *)
Record ILayer := {
  getType : LayerType;
  precision : option DataType;
  output_type : option DataType
}.

#[global] Instance ILayer_eq_dec : EqDecision ILayer.
Proof. solve_decision. Defined.

Definition setPrecision (t : DataType) (l : ILayer) : ILayer :=
  {| getType := getType l; precision := Some t; output_type := output_type l |}.

Definition setOutputType (t : DataType) (l : ILayer) : ILayer :=
  {| getType := getType l; precision := precision l; output_type := Some t |}.

(** [nvinfer1::ITensor] of a network input; [getDimensions] is the list
    [d[0..nbDims-1]]. *)
Record ITensor := {
  getName : string;
  getDimensions : list Z;
  isShapeTensor : bool
}.

Record INetworkDefinition := {
  layers : list ILayer;
  inputs : list ITensor;
  getNbOutputs : Z
}.

Definition getNbLayers (n : INetworkDefinition) : Z := Z.of_nat (length (layers n)).

Inductive OptProfileSelector := kMIN | kOPT | kMAX.

(** An optimization profile is what has been set on it, oldest first. *)
Inductive ProfileSetting :=
| setShapeValues (input_name : string) (select : OptProfileSelector) (values : list Z)
| setDimensions (input_name : string) (select : OptProfileSelector) (dims : list Z).

Abbreviation IOptimizationProfile := (list ProfileSetting).

Inductive BuilderFlag :=
| kFP16 | kINT8_flag | kGPU_FALLBACK | kSPARSE_WEIGHTS | kENABLE_TACTIC_HEURISTIC.

Inductive NetworkDefinitionCreationFlag := kEXPLICIT_BATCH | kSTRONGLY_TYPED.

Inductive DeviceType := kGPU | kDLA.

(** [nvinfer1::IBuilderConfig]: the settings the source writes. *)
Record IBuilderConfig := {
  workspace_limit : Z;
  flags : Z;
  optimization_profiles : list IOptimizationProfile;
  default_device_type : DeviceType;
  DLACore : Z
}.

(** ** Shape-range stores *)

(** [unordered_map<string, vector<vector<int64_t>>>]: per input name, per
    profile, the shape values. *)
Abbreviation ProfileShapes := (gmap string (list (list Z))).

(** [ShapeRangesMap]: per input name, per dimension index, per profile,
    the values pushed so far. *)
Abbreviation ShapeRangesMap := (gmap string (gmap nat (list (list Z)))).

(** ** The FP16 layer-norm guard (lines 683-696) *)

Definition is_pow_then_reduce (layer next_layer : ILayer) : bool :=
  match getType layer, getType next_layer with
  | kELEMENTWISE op, kREDUCE => bool_decide (op = kPOW)
  | _, _ => false
  end.

Definition pin_fp32 (l : ILayer) : ILayer := setOutputType kFLOAT (setPrecision kFLOAT l).

(** One turn of the loop body at index [idx]. *)
Definition force_fp32_at (ls : list ILayer) (idx : nat) : list ILayer :=
  match ls !! idx, ls !! S idx with
  | Some layer, Some next_layer =>
      if is_pow_then_reduce layer next_layer
      then <[S idx := pin_fp32 next_layer]> (<[idx := pin_fp32 layer]> ls)
      else ls
  | _, _ => ls
  end.

(** [for (auto idx = 1; idx < trt_network->getNbLayers() - 1; ++idx)]:
    the indices 1, ..., getNbLayers() - 2. *)
Definition layer_norm_indices (n : Z) : list nat := seq 1 (Z.to_nat (n - 1 - 1)).

Definition force_layer_norm_fp32 (net : INetworkDefinition) : INetworkDefinition :=
  {| layers := foldl force_fp32_at (layers net) (layer_norm_indices (getNbLayers net));
     inputs := inputs net;
     getNbOutputs := getNbOutputs net |}.

(** ** [ApplyProfileShapesFromProviderOptions] *)

(** The two objects the function writes. *)
Record Profiles := {
  trt_profiles : list IOptimizationProfile;
  input_explicit_shape_ranges : ShapeRangesMap
}.

(** [for (x : xs) body(x)], collecting what the turns produce. *)
Fixpoint for_each {W A B} (xs : list A) (body : A -> M W B) : M W (list B) :=
  match xs with
  | [] => mret []
  | x :: rest => y ← body x; ys ← for_each rest body; mret (y :: ys)
  end.

(** [shapes[input_name][i][j]].  For a missing name [operator[]] makes an
    empty vector, so element [i] does not exist. *)
Definition shape_value {W} (shapes : ProfileShapes) (input_name : string) (i j : nat) : M W Z :=
  match shapes !! input_name with
  | Some per_profile => v ← at_ per_profile i; at_ v j
  | None => undefined
  end.

(** The block that records one (min, max, opt) triple under
    [(input_name, j)] for profile [i]: a missing entry for [j] is first
    made a vector of [trt_profiles.size()] empty vectors. *)
Definition record_triple (input_name : string) (j i : nat) (min_value max_value opt_value : Z)
    : M Profiles unit :=
  fun w =>
    let ranges := input_explicit_shape_ranges w in
    let inner := default ∅ (ranges !! input_name) in
    let profile_vector := default (replicate (length (trt_profiles w)) []) (inner !! j) in
    match profile_vector !! i with
    | Some so_far =>
        (Returns tt,
         {| trt_profiles := trt_profiles w;
            input_explicit_shape_ranges :=
              <[input_name :=
                  <[j := <[i := so_far ++ [min_value; max_value; opt_value]]> profile_vector]> inner]>
                ranges |})
    | None => (Undefined, w)
    end.

(** [trt_profile->set...] on profile [i], three times. *)
Definition configure_profile (i : nat) (settings : list ProfileSetting) : M Profiles unit :=
  fun w =>
    match trt_profiles w !! i with
    | Some p =>
        (Returns tt,
         {| trt_profiles := <[i := p ++ settings]> (trt_profiles w);
            input_explicit_shape_ranges := input_explicit_shape_ranges w |})
    | None => (Undefined, w)
    end.

Section ApplyProfileShapes.
Variable input : ITensor.
Variables profile_min_shapes profile_max_shapes profile_opt_shapes : ProfileShapes.

Let input_name := getName input.

(** One turn of the inner loops: read the three values, record them,
    hand back their 32-bit casts. *)
Definition read_triple (i j : nat) : M Profiles (Z * Z * Z) :=
  min_value ← shape_value profile_min_shapes input_name i j;
  max_value ← shape_value profile_max_shapes input_name i j;
  opt_value ← shape_value profile_opt_shapes input_name i j;
  record_triple input_name j i min_value max_value opt_value;;
  mret (to_int32 min_value, to_int32 max_value, to_int32 opt_value).

(** The body of [for (size_t i = 0; i < trt_profiles.size(); i++)]. *)
Definition apply_profile (i : nat) : M Profiles unit :=
  let dims := getDimensions input in
  let nb_dims := length dims in
  if isShapeTensor input then
    (* shape tensor *)
    shape_size ←
      (if bool_decide (nb_dims = 0%nat) then mret 1%nat
       else match profile_min_shapes !! input_name with
            | Some per_profile => v ← at_ per_profile i; mret (length v)
            | None => undefined
            end);
    shapes ← for_each (seq 0 shape_size) (read_triple i);
    (* [&shapes_min[0]] needs a first element *)
    (if bool_decide (shape_size = 0%nat) then undefined else mret tt);;
    configure_profile i
      [setShapeValues input_name kMIN (shapes.*1.*1);
       setShapeValues input_name kMAX (shapes.*1.*2);
       setShapeValues input_name kOPT (shapes.*2)]
  else
    (* execution tensor *)
    ds ← for_each (seq 0 nb_dims) (fun j =>
            d ← at_ dims j;
            if bool_decide (d = -1) then read_triple i j
            else mret (d, d, d));
    configure_profile i
      [setDimensions input_name kMIN (ds.*1.*1);
       setDimensions input_name kMAX (ds.*1.*2);
       setDimensions input_name kOPT (ds.*2)].

Definition ApplyProfileShapesFromProviderOptions : M Profiles bool :=
  fun w =>
    if bool_decide (length (trt_profiles w) = 0%nat) then (Returns false, w)
    else if bool_decide (profile_min_shapes !! input_name = None) then (Returns false, w)
    else
      let w1 :=
        {| trt_profiles := trt_profiles w;
           input_explicit_shape_ranges :=
             match input_explicit_shape_ranges w !! input_name with
             | None => <[input_name := ∅]> (input_explicit_shape_ranges w)
             | Some _ => input_explicit_shape_ranges w
             end |} in
      (for_each (seq 0 (length (trt_profiles w))) apply_profile;; mret true) w1.
End ApplyProfileShapes.

(** ** Engines, allocators and the provider object *)

Inductive TensorIOMode := kNONE | kINPUT | kOUTPUT.

#[global] Instance TensorIOMode_eq_dec : EqDecision TensorIOMode.
Proof. solve_decision. Defined.

(** [nvinfer1::ICudaEngine], by the answers it gives. *)
Record ICudaEngine := {
  getIOTensorNames : list string;
  getTensorIOMode : string -> TensorIOMode;
  isShapeInferenceIO : string -> bool;
  engine_getTensorShape : string -> list Z;
  getDeviceMemorySize : Z
}.

(** [OutputAllocator], the [IOutputAllocator] of a data-dependent output
    (declared in the provider's header): the buffer of its last
    [reallocateOutput] and the shape of its last [notifyShape]. *)
Record OutputAllocator := {
  getBuffer : Addr;
  getOutputShape : list Z
}.

Abbreviation DDSOutputAllocatorMap := (gmap string OutputAllocator).

(** The members that no embedded function writes. *)
Record ProviderSettings := {
  detailed_build_log_ : bool;
  layer_norm_fp32_fallback_ : bool;
  max_workspace_size_ : Z;
  model_path_ : string;
  profile_min_shapes_ : ProfileShapes;
  profile_max_shapes_ : ProfileShapes;
  profile_opt_shapes_ : ProfileShapes;
  int8_calibration_cache_available_ : bool;
  int8_calibration_cache_name_ : string;
  int8_use_native_tensorrt_calibration_table_ : bool;
  cache_path_ : string;
  sparsity_enable_ : bool;
  build_heuristics_enable_ : bool;
  builder_optimization_level_ : Z;
  context_memory_sharing_enable_ : bool;
  cuda_graph_enable_ : bool;
  sync_stream_after_enqueue_ : bool;
  device_id_ : Z
}.

(** [TensorrtExecutionProvider]: the settings and the members that are
    written.  [builder_] tells whether [GetBuilder] has made the builder;
    [alloc_] is null until the first compute call fetches it. *)
Record TensorrtExecutionProvider := {
  settings : ProviderSettings;
  builder_ : bool;
  fp16_enable_ : bool;
  int8_enable_ : bool;
  dla_enable_ : bool;
  dla_core_ : Z;
  engines_ : gmap string ICudaEngine;
  max_ctx_mem_size_ : Z;
  alloc_ : Addr;
  dds_output_allocator_maps_ : gmap string DDSOutputAllocatorMap
}.

(** ** [CreateNodeComputeInfoFromGraph] *)

(** What the builder, the parser and the platform answer. *)
Record BuildEnv := {
  node_name : string;                       (* OrtNode_GetName(fused_node) *)
  parsed_network : INetworkDefinition;      (* the network after parse() *)
  createBuilderConfig_result : IBuilderConfig;
  platformHasFastFp16 : bool;
  platformHasFastInt8 : bool;
  getNbDLACores : Z;
  ReadDynamicRange_result : string -> bool
}.

(** The locals of the loop over the network inputs. *)
Record Scan := {
  scan_profiles : Profiles;
  input_implicit_shape_ranges : ShapeRangesMap;
  has_dynamic_shape : bool;
  apply_explicit_profile : bool
}.

(** The provider and the locals when the function is left. *)
Record CompileFrame := {
  provider : TensorrtExecutionProvider;
  calls : list Call;
  trt_network : INetworkDefinition;
  trt_config : IBuilderConfig;
  scan : Scan;
  trt_node_name_with_precision : string
}.

Definition sentinel : list (list Z) := [[INT_MAX; INT_MIN; INT_MIN]].

(** [input_implicit_shape_ranges[input_name][j] = profile_vector]. *)
Definition seed (input_name : string) (j : nat) (w : Scan) : Scan :=
  {| scan_profiles := scan_profiles w;
     input_implicit_shape_ranges :=
       <[input_name := <[j := sentinel]> (default ∅ (input_implicit_shape_ranges w !! input_name))]>
         (input_implicit_shape_ranges w);
     has_dynamic_shape := true;
     apply_explicit_profile := apply_explicit_profile w |}.

Definition set_apply_explicit_profile (b : bool) (w : Scan) : Scan :=
  {| scan_profiles := scan_profiles w;
     input_implicit_shape_ranges := input_implicit_shape_ranges w;
     has_dynamic_shape := has_dynamic_shape w;
     apply_explicit_profile := b |}.

(** Run a computation on the profiles inside the scan state. *)
Definition on_profiles {A} (m : M Profiles A) : M Scan A :=
  fun w =>
    let '(o, p) := m (scan_profiles w) in
    (o, {| scan_profiles := p;
           input_implicit_shape_ranges := input_implicit_shape_ranges w;
           has_dynamic_shape := has_dynamic_shape w;
           apply_explicit_profile := apply_explicit_profile w |}).

(** [trt_profiles.push_back(trt_builder->createOptimizationProfile())]. *)
Definition push_back_profile (w : Scan) : Scan :=
  {| scan_profiles :=
       {| trt_profiles := trt_profiles (scan_profiles w) ++ [[]];
          input_explicit_shape_ranges := input_explicit_shape_ranges (scan_profiles w) |};
     input_implicit_shape_ranges := input_implicit_shape_ranges w;
     has_dynamic_shape := has_dynamic_shape w;
     apply_explicit_profile := apply_explicit_profile w |}.

(** The dynamic dimensions of an execution tensor, in loop order. *)
Definition dynamic_dims (dims : list Z) : list nat :=
  filter (fun j => dims !! j = Some (-1)) (seq 0 (length dims)).

(** The body of "Iterate all input tensors to check dynamic shape". *)
Definition scan_input (has_explicit_profile : bool)
    (profile_min_shapes profile_max_shapes profile_opt_shapes : ProfileShapes)
    (input : ITensor) : M Scan unit :=
  (if has_explicit_profile then
     b ← on_profiles (ApplyProfileShapesFromProviderOptions input
                        profile_min_shapes profile_max_shapes profile_opt_shapes);
     modify (set_apply_explicit_profile b)
   else mret tt);;
  applied ← gets apply_explicit_profile;
  if negb applied then
    (if isShapeTensor input then modify (seed (getName input) 0)
     else modify (fun w => foldl (fun w j => seed (getName input) j w) w
                             (dynamic_dims (getDimensions input))));;
    modify (set_apply_explicit_profile false)
  else mret tt.

(** The text after "Following input(s) has no associated shape profiles
    provided: ": the first name, then each further name after a comma. *)
Fixpoint enumerate_rest (names : list string) : string :=
  match names with
  | [] => ""
  | n :: rest => "," +:+ n +:+ enumerate_rest rest
  end.

Definition enumerate (names : list string) : string :=
  match names with
  | [] => ""
  | n :: rest => n +:+ enumerate_rest rest
  end.

Definition newline : string := String "010"%char "".

Definition missing_profiles_message (names : list string) : string :=
  "User needs to provide all the dynamic shape inputs with associated profiles if they want to explicitly set profiles through provider options."
  +:+ newline
  +:+ "Please note that main graph could be partitioned into TRT/CUDA/CPU subgraphs, in this case, user also needs to provide shape profiles for the TRT subgraph's input if it's dynamic shape input."
  +:+ newline
  +:+ "Following input(s) has no associated shape profiles provided: "
  +:+ enumerate names.

(** [has_explicit_profile]: the three maps of profile shapes are all
    non-empty. *)
Definition has_explicit_profile (s : ProviderSettings) : bool :=
  negb (bool_decide (profile_min_shapes_ s = ∅))
  && negb (bool_decide (profile_max_shapes_ s = ∅))
  && negb (bool_decide (profile_opt_shapes_ s = ∅)).

Section Compile.
(** Preprocessor constants, enumerator values of the TensorRT headers,
    two helpers of the missing utilities header, and the order in
    which an [unordered_map] hands out its keys. *)
Variables NV_TENSORRT_MAJOR NV_TENSORRT_MINOR : Z.
Variable BuilderFlag_bit : BuilderFlag -> Z.
Variable NetworkDefinitionCreationFlag_bit : NetworkDefinitionCreationFlag -> Z.
Variable GetNumProfiles : ProfileShapes -> Z.
Variable GetCachePath : string -> string -> string.
Variable iteration_order : ShapeRangesMap -> list string.

Definition with_flags (f : Z) (c : IBuilderConfig) : IBuilderConfig :=
  {| workspace_limit := workspace_limit c;
     flags := f;
     optimization_profiles := optimization_profiles c;
     default_device_type := default_device_type c;
     DLACore := DLACore c |}.

Definition setFlags (mask : Z) (c : IBuilderConfig) : IBuilderConfig := with_flags mask c.

Definition setFlag (f : BuilderFlag) (c : IBuilderConfig) : IBuilderConfig :=
  with_flags (Z.lor (flags c) (Z.shiftl 1 (BuilderFlag_bit f))) c.

Definition setMemoryPoolLimit_kWORKSPACE (size : Z) (c : IBuilderConfig) : IBuilderConfig :=
  {| workspace_limit := size;
     flags := flags c;
     optimization_profiles := optimization_profiles c;
     default_device_type := default_device_type c;
     DLACore := DLACore c |}.

Definition addOptimizationProfiles (ps : list IOptimizationProfile) (c : IBuilderConfig)
    : IBuilderConfig :=
  {| workspace_limit := workspace_limit c;
     flags := flags c;
     optimization_profiles := optimization_profiles c ++ ps;
     default_device_type := default_device_type c;
     DLACore := DLACore c |}.

Definition use_DLA (core : Z) (c : IBuilderConfig) : IBuilderConfig :=
  {| workspace_limit := workspace_limit c;
     flags := flags c;
     optimization_profiles := optimization_profiles c;
     default_device_type := kDLA;
     DLACore := core |}.

Definition with_precision (this_ : TensorrtExecutionProvider)
    (fp16 int8 dla : bool) (core : Z) : TensorrtExecutionProvider :=
  {| settings := settings this_;
     builder_ := true;
     fp16_enable_ := fp16;
     int8_enable_ := int8;
     dla_enable_ := dla;
     dla_core_ := core;
     engines_ := engines_ this_;
     max_ctx_mem_size_ := max_ctx_mem_size_ this_;
     alloc_ := alloc_ this_;
     dds_output_allocator_maps_ := dds_output_allocator_maps_ this_ |}.

(** From "Check platform availability for low precision" to the end of
    the function (lines 832-915 and 1847). *)
Definition set_precision_and_device (env : BuildEnv) (this_ : TensorrtExecutionProvider)
    (cs : list Call) (net : INetworkDefinition) (cfg : IBuilderConfig) (sc : Scan)
    : Outcome OrtStatusPtr * CompileFrame :=
  let s := settings this_ in
  let fp16 := fp16_enable_ this_ && platformHasFastFp16 env in
  let int8 := int8_enable_ this_ && platformHasFastInt8 env in
  let calibration_cache_path := GetCachePath (cache_path_ s) (int8_calibration_cache_name_ s) in
  if int8 && int8_calibration_cache_available_ s
     && negb (ReadDynamicRange_result env calibration_cache_path) then
    (Throws ("Failed to read INT8 calibration table " +:+ calibration_cache_path),
     {| provider := with_precision this_ fp16 int8 (dla_enable_ this_) (dla_core_ this_);
        calls := cs; trt_network := net; trt_config := cfg; scan := sc;
        trt_node_name_with_precision := "" |})
  else
    (* Set precision flags *)
    let '(cfg1, name1) :=
      if fp16 && int8 then
        (setFlags (Z.lor (Z.shiftl 1 (BuilderFlag_bit kFP16))
                         (Z.shiftl 1 (BuilderFlag_bit kINT8_flag))) cfg,
         node_name env +:+ "_fp16_int8")
      else if fp16 then (setFlag kFP16 cfg, node_name env +:+ "_fp16")
      else if int8 then (setFlag kINT8_flag cfg, node_name env +:+ "_int8")
      else (cfg, node_name env) in
    (* Set DLA *)
    let '(cfg2, name2, dla, core) :=
      if (fp16 || int8) && (dla_enable_ this_ && bool_decide (dla_core_ this_ >= 0)) then
        if bool_decide (getNbDLACores env = 0) then
          (cfg1, name1, false, dla_core_ this_)
        else
          let core := if bool_decide (dla_core_ this_ >= getNbDLACores env)
                      then 0 else dla_core_ this_ in
          (use_DLA core (setFlag kGPU_FALLBACK cfg1),
           name1 +:+ "_dlacore" +:+ pretty core, dla_enable_ this_, core)
      else (cfg1, name1, dla_enable_ this_, dla_core_ this_) in
    (* enable sparse weights *)
    let cfg3 := if sparsity_enable_ s then setFlag kSPARSE_WEIGHTS cfg2 else cfg2 in
    let cfg4 :=
      if bool_decide (NV_TENSORRT_MAJOR = 8) && bool_decide (NV_TENSORRT_MINOR = 5)
         && build_heuristics_enable_ s
      then setFlag kENABLE_TACTIC_HEURISTIC cfg3 else cfg3 in
    (Returns nullptr,
     {| provider := with_precision this_ fp16 int8 dla core;
        calls := cs; trt_network := net; trt_config := cfg4; scan := sc;
        trt_node_name_with_precision := name2 |}).

(** The number of profiles made by
    [for (int i = 0; i < num_profiles; i++) trt_profiles.push_back(...)]. *)
Definition num_profiles (s : ProviderSettings) : nat :=
  if has_explicit_profile s then Z.to_nat (GetNumProfiles (profile_min_shapes_ s)) else 0%nat.

(** [TensorrtExecutionProvider::CreateNodeComputeInfoFromGraph], the
    part of it that is compiled.  The factories of the builder are taken
    to return objects; [input_map], [output_map] and
    [node_compute_funcs] are not read by the compiled part. *)
Definition CreateNodeComputeInfoFromGraph (env : BuildEnv) (this_ : TensorrtExecutionProvider)
    : Outcome OrtStatusPtr * CompileFrame :=
  let s := settings this_ in
  let network_flags :=
    Z.lor
      (Z.lor 0
         (if bool_decide (NV_TENSORRT_MAJOR > 8) then
            if fp16_enable_ this_ || int8_enable_ this_ then 0
            else Z.shiftl 1 (NetworkDefinitionCreationFlag_bit kSTRONGLY_TYPED)
          else 0))
      (Z.shiftl 1 (NetworkDefinitionCreationFlag_bit kEXPLICIT_BATCH)) in
  let cs0 :=
    [GetTensorrtLogger (detailed_build_log_ s)]
    ++ (if builder_ this_ then [] else [createInferBuilder])
    ++ [createNetworkV2 network_flags; createBuilderConfig; createParser;
        parse (model_path_ s)] in
  let cfg0 := setMemoryPoolLimit_kWORKSPACE (max_workspace_size_ s)
                (createBuilderConfig_result env) in
  (* Force Pow + Reduce ops in layer norm to run in FP32 to avoid overflow *)
  let net :=
    if fp16_enable_ this_ && layer_norm_fp32_fallback_ s
    then force_layer_norm_fp32 (parsed_network env)
    else parsed_network env in
  let has_explicit_profile := has_explicit_profile s in
  let num_profiles := num_profiles s in
  let cs1 := cs0 ++ replicate num_profiles createOptimizationProfile in
  let sc0 :=
    {| scan_profiles := {| trt_profiles := replicate num_profiles [];
                           input_explicit_shape_ranges := ∅ |};
       input_implicit_shape_ranges := ∅;
       has_dynamic_shape := false;
       apply_explicit_profile := false |} in
  let stopped (o : Outcome OrtStatusPtr) (cs : list Call) (cfg : IBuilderConfig) (sc : Scan) :=
    (o, {| provider := with_precision this_ (fp16_enable_ this_) (int8_enable_ this_)
                         (dla_enable_ this_) (dla_core_ this_);
           calls := cs; trt_network := net; trt_config := cfg; scan := sc;
           trt_node_name_with_precision := "" |}) in
  (* Iterate all input tensors to check dynamic shape *)
  match for_each (inputs net)
          (scan_input has_explicit_profile (profile_min_shapes_ s)
             (profile_max_shapes_ s) (profile_opt_shapes_ s)) sc0 with
  | (Returns _, sc) =>
      if has_explicit_profile then
        if has_dynamic_shape sc then
          stopped (Returns (CreateStatus ORT_EP_FAIL
                     (missing_profiles_message
                        (iteration_order (input_implicit_shape_ranges sc)))))
                  cs1 cfg0 sc
        else
          let ps := trt_profiles (scan_profiles sc) in
          set_precision_and_device env this_
            (cs1 ++ imap (fun k _ => addOptimizationProfile k) ps) net
            (addOptimizationProfiles ps cfg0) sc
      else if has_dynamic_shape sc then
        set_precision_and_device env this_ (cs1 ++ [createOptimizationProfile]) net cfg0
          (push_back_profile sc)
      else set_precision_and_device env this_ cs1 net cfg0 sc
  | (Throws what, sc) => stopped (Throws what) cs1 cfg0 sc
  | (Aborts, sc) => stopped Aborts cs1 cfg0 sc
  | (Undefined, sc) => stopped Undefined cs1 cfg0 sc
  end.
End Compile.

(** ** Tensors and the kernel context *)

(** [ONNXTensorElementDataType], by its values in the C API header. *)
Definition ONNX_TENSOR_ELEMENT_DATA_TYPE_UNDEFINED : Z := 0.
Definition ONNX_TENSOR_ELEMENT_DATA_TYPE_FLOAT : Z := 1.
Definition ONNX_TENSOR_ELEMENT_DATA_TYPE_UINT8 : Z := 2.
Definition ONNX_TENSOR_ELEMENT_DATA_TYPE_INT8 : Z := 3.
Definition ONNX_TENSOR_ELEMENT_DATA_TYPE_UINT16 : Z := 4.
Definition ONNX_TENSOR_ELEMENT_DATA_TYPE_INT16 : Z := 5.
Definition ONNX_TENSOR_ELEMENT_DATA_TYPE_INT32 : Z := 6.
Definition ONNX_TENSOR_ELEMENT_DATA_TYPE_INT64 : Z := 7.
Definition ONNX_TENSOR_ELEMENT_DATA_TYPE_STRING : Z := 8.
Definition ONNX_TENSOR_ELEMENT_DATA_TYPE_BOOL : Z := 9.
Definition ONNX_TENSOR_ELEMENT_DATA_TYPE_FLOAT16 : Z := 10.
Definition ONNX_TENSOR_ELEMENT_DATA_TYPE_DOUBLE : Z := 11.

(** [GetElementCount], as the comment in the source states it: the
    product of the dimensions, 1 for no dimension, and -1 (as a [size_t])
    when a dimension is negative. *)
Definition GetElementCount (shape : list Z) : Z :=
  if bool_decide (Exists (fun d => d < 0) shape) then SIZE_MAX
  else foldr Z.mul 1 shape.

(** An [Ort::ConstValue] or [Ort::UnownedValue] holding a tensor. *)
Record Tensor := {
  GetElementType : Z;
  GetShape : list Z;
  GetTensorData : Addr
}.

(** The environment of one call of the compute function.  The C++
    wrappers of the kernel context and of its tensors ([ctx.GetInput],
    [ctx.GetOutput], [GetTensorTypeAndShapeInfo], [GetTensorData],
    [GetTensorMutableData]) are declared in a header outside the
    sources; they report a failure by throwing.  The environment holds
    their answers, so the model covers the runs in which they answer,
    and says nothing about a run in which one of them throws. *)
Record RunEnv := {
  GetInput : Z -> Tensor;                              (* ctx.GetInput(index) *)
  GetOutput_data : Z -> list Z -> Addr;                (* data of ctx.GetOutput(index, shape) *)
  GetOutput_type : Z -> Z;
  stream : Addr;                                       (* KernelContext_GetGPUComputeStream *)
  GetGPUComputeStream_status : OrtStatusPtr;
  GetAllocator_result : Addr;                          (* KernelContext_GetAllocator *)
  GetAllocator_status : OrtStatusPtr;
  make_unique_result : Z -> Addr;                      (* std::make_unique<T[]>(n).get() *)
  Alloc_result : nat -> Z -> Addr;                     (* the k-th Alloc, of a size *)
  cuda_succeeds : Call -> bool;                        (* is the result cudaSuccess? *)
  device_read : Addr -> nat -> list Z;                 (* values a device-to-host copy brings *)
  context_getTensorShape : string -> list Z;           (* trt_context->getTensorShape *)
  setInputShape_result : string -> list Z -> bool;
  setTensorAddress_result : string -> Binding -> bool;
  enqueueV3_result : bool;
  enqueueV3_notifies : string -> OutputAllocator -> OutputAllocator;
  IsGraphCaptureAllowed : bool;
  IsGraphCaptured : Z -> bool
}.

(** The locals of the compute function that the binding helpers share by
    reference, the members they reach, and the calls made so far. *)
Record RunWorld := {
  made : list Call;
  allocations : nat;
  shape_tensor_values : gmap string (list Z);
  shape_tensor_values_int64 : gmap string (list Z);
  scratch_buffers : list Addr;
  buffers : gmap string Addr;
  output_tensors : gmap nat Tensor;
  output_dim_sizes : gmap nat Z;
  dds_output_allocator_map : DDSOutputAllocatorMap;
  max_context_mem_size : Z;
  allocator : Addr
}.

(** The world after one more call. *)
Definition after_call (c : Call) (w : RunWorld) : RunWorld :=
  {| made := made w ++ [c]; allocations := allocations w;
     shape_tensor_values := shape_tensor_values w;
     shape_tensor_values_int64 := shape_tensor_values_int64 w;
     scratch_buffers := scratch_buffers w; buffers := buffers w;
     output_tensors := output_tensors w; output_dim_sizes := output_dim_sizes w;
     dds_output_allocator_map := dds_output_allocator_map w;
     max_context_mem_size := max_context_mem_size w; allocator := allocator w |}.

Definition call (c : Call) : M RunWorld unit := modify (after_call c).

(** [CUDA_RETURN_IF_ERROR(c)]: make the call, [abort()] on an error. *)
Definition CUDA_RETURN_IF_ERROR (env : RunEnv) (c : Call) : M RunWorld unit :=
  call c;; if cuda_succeeds env c then mret tt else abort.

(** [MakeUniquePtrFromOrtAllocator<void>(alloc, bytes)]. *)
Definition MakeUniquePtrFromOrtAllocator (env : RunEnv) (bytes : Z) : M RunWorld Addr :=
  k ← gets allocations;
  call (Alloc bytes);;
  modify (fun w =>
    {| made := made w; allocations := S (allocations w);
       shape_tensor_values := shape_tensor_values w;
       shape_tensor_values_int64 := shape_tensor_values_int64 w;
       scratch_buffers := scratch_buffers w; buffers := buffers w;
       output_tensors := output_tensors w; output_dim_sizes := output_dim_sizes w;
       dds_output_allocator_map := dds_output_allocator_map w;
       max_context_mem_size := max_context_mem_size w; allocator := allocator w |});;
  mret (Alloc_result env k bytes).

(** [scratch_buffers.push_back(MakeUniquePtrFromOrtAllocator<void>(alloc, bytes))]
    followed by [scratch_buffers.back().get()]. *)
Definition push_scratch (env : RunEnv) (bytes : Z) : M RunWorld Addr :=
  p ← MakeUniquePtrFromOrtAllocator env bytes;
  modify (fun w =>
    {| made := made w; allocations := allocations w;
       shape_tensor_values := shape_tensor_values w;
       shape_tensor_values_int64 := shape_tensor_values_int64 w;
       scratch_buffers := scratch_buffers w ++ [p]; buffers := buffers w;
       output_tensors := output_tensors w; output_dim_sizes := output_dim_sizes w;
       dds_output_allocator_map := dds_output_allocator_map w;
       max_context_mem_size := max_context_mem_size w; allocator := allocator w |});;
  mret p.

Definition set_shape_tensor_values (name : string) (v : list Z) : M RunWorld unit :=
  modify (fun w =>
    {| made := made w; allocations := allocations w;
       shape_tensor_values := <[name := v]> (shape_tensor_values w);
       shape_tensor_values_int64 := shape_tensor_values_int64 w;
       scratch_buffers := scratch_buffers w; buffers := buffers w;
       output_tensors := output_tensors w; output_dim_sizes := output_dim_sizes w;
       dds_output_allocator_map := dds_output_allocator_map w;
       max_context_mem_size := max_context_mem_size w; allocator := allocator w |}).

Definition set_shape_tensor_values_int64 (name : string) (v : list Z) : M RunWorld unit :=
  modify (fun w =>
    {| made := made w; allocations := allocations w;
       shape_tensor_values := shape_tensor_values w;
       shape_tensor_values_int64 := <[name := v]> (shape_tensor_values_int64 w);
       scratch_buffers := scratch_buffers w; buffers := buffers w;
       output_tensors := output_tensors w; output_dim_sizes := output_dim_sizes w;
       dds_output_allocator_map := dds_output_allocator_map w;
       max_context_mem_size := max_context_mem_size w; allocator := allocator w |}).

Definition set_buffer (name : string) (p : Addr) : M RunWorld unit :=
  modify (fun w =>
    {| made := made w; allocations := allocations w;
       shape_tensor_values := shape_tensor_values w;
       shape_tensor_values_int64 := shape_tensor_values_int64 w;
       scratch_buffers := scratch_buffers w; buffers := <[name := p]> (buffers w);
       output_tensors := output_tensors w; output_dim_sizes := output_dim_sizes w;
       dds_output_allocator_map := dds_output_allocator_map w;
       max_context_mem_size := max_context_mem_size w; allocator := allocator w |}).

Definition set_output_tensor (i : nat) (t : Tensor) : M RunWorld unit :=
  modify (fun w =>
    {| made := made w; allocations := allocations w;
       shape_tensor_values := shape_tensor_values w;
       shape_tensor_values_int64 := shape_tensor_values_int64 w;
       scratch_buffers := scratch_buffers w; buffers := buffers w;
       output_tensors := <[i := t]> (output_tensors w); output_dim_sizes := output_dim_sizes w;
       dds_output_allocator_map := dds_output_allocator_map w;
       max_context_mem_size := max_context_mem_size w; allocator := allocator w |}).

Definition set_output_dim_size (i : nat) (n : Z) : M RunWorld unit :=
  modify (fun w =>
    {| made := made w; allocations := allocations w;
       shape_tensor_values := shape_tensor_values w;
       shape_tensor_values_int64 := shape_tensor_values_int64 w;
       scratch_buffers := scratch_buffers w; buffers := buffers w;
       output_tensors := output_tensors w; output_dim_sizes := <[i := n]> (output_dim_sizes w);
       dds_output_allocator_map := dds_output_allocator_map w;
       max_context_mem_size := max_context_mem_size w; allocator := allocator w |}).

Definition set_dds_output_allocator_map (m : DDSOutputAllocatorMap) : M RunWorld unit :=
  modify (fun w =>
    {| made := made w; allocations := allocations w;
       shape_tensor_values := shape_tensor_values w;
       shape_tensor_values_int64 := shape_tensor_values_int64 w;
       scratch_buffers := scratch_buffers w; buffers := buffers w;
       output_tensors := output_tensors w; output_dim_sizes := output_dim_sizes w;
       dds_output_allocator_map := m;
       max_context_mem_size := max_context_mem_size w; allocator := allocator w |}).

Definition set_max_context_mem_size (n : Z) : M RunWorld unit :=
  modify (fun w =>
    {| made := made w; allocations := allocations w;
       shape_tensor_values := shape_tensor_values w;
       shape_tensor_values_int64 := shape_tensor_values_int64 w;
       scratch_buffers := scratch_buffers w; buffers := buffers w;
       output_tensors := output_tensors w; output_dim_sizes := output_dim_sizes w;
       dds_output_allocator_map := dds_output_allocator_map w;
       max_context_mem_size := n; allocator := allocator w |}).

Definition set_allocator (p : Addr) : M RunWorld unit :=
  modify (fun w =>
    {| made := made w; allocations := allocations w;
       shape_tensor_values := shape_tensor_values w;
       shape_tensor_values_int64 := shape_tensor_values_int64 w;
       scratch_buffers := scratch_buffers w; buffers := buffers w;
       output_tensors := output_tensors w; output_dim_sizes := output_dim_sizes w;
       dds_output_allocator_map := dds_output_allocator_map w;
       max_context_mem_size := max_context_mem_size w; allocator := p |}).

(** ** The binding helpers *)

Section Binding.
Variable NV_TENSORRT_MAJOR : Z.
Variable env : RunEnv.

(** The types with a [CASE_GET_INPUT_TENSOR] label in [BindContextInput]:
    the two cast labels for int64 below version 10 and for double are
    commented out, as is the macro they name. *)
Definition has_input_case (tensor_type : Z) : bool :=
  bool_decide (tensor_type = ONNX_TENSOR_ELEMENT_DATA_TYPE_FLOAT)
  || bool_decide (tensor_type = ONNX_TENSOR_ELEMENT_DATA_TYPE_FLOAT16)
  || bool_decide (tensor_type = ONNX_TENSOR_ELEMENT_DATA_TYPE_BOOL)
  || bool_decide (tensor_type = ONNX_TENSOR_ELEMENT_DATA_TYPE_INT8)
  || bool_decide (tensor_type = ONNX_TENSOR_ELEMENT_DATA_TYPE_UINT8)
  || bool_decide (tensor_type = ONNX_TENSOR_ELEMENT_DATA_TYPE_INT32)
  || (bool_decide (NV_TENSORRT_MAJOR >= 10)
      && bool_decide (tensor_type = ONNX_TENSOR_ELEMENT_DATA_TYPE_INT64)).

(** [CASE_GET_INPUT_TENSOR]: the tensor's own data, or a dummy byte for
    an empty tensor. *)
Definition CASE_GET_INPUT_TENSOR (input_tensor : Tensor) (elem_cnt : Z) : M RunWorld Addr :=
  let input_tensor_ptr := GetTensorData input_tensor in
  if bool_decide (input_tensor_ptr <> null) && bool_decide (elem_cnt > 0)
  then mret input_tensor_ptr
  else push_scratch env 1.

(** [GetShapeOfShapeTensor<T>] and the copy into the host vector. *)
Definition GetShapeOfShapeTensor (input_tensor : Tensor) (shape_size : Z) (sizeof_T : Z)
    : M RunWorld (list Z) :=
  CUDA_RETURN_IF_ERROR env
    (cudaMemcpyAsync (make_unique_result env shape_size) (GetTensorData input_tensor)
       (shape_size * sizeof_T)
       cudaMemcpyDeviceToHost (stream env));;
  CUDA_RETURN_IF_ERROR env (cudaStreamSynchronize (stream env));;
  mret (resize (Z.to_nat shape_size) 0
          (device_read env (GetTensorData input_tensor) (Z.to_nat shape_size))).

(** The two labels of the shape-tensor switch differ in the element
    size, the host vector and the binding. *)
Definition bind_shape_tensor (input_name : string) (input_tensor : Tensor) (shape_size : Z)
    (sizeof_T : Z) (values : RunWorld -> gmap string (list Z))
    (set_values : string -> list Z -> M RunWorld unit) (b : Binding)
    : M RunWorld OrtStatusPtr :=
  present ← gets (fun w => values w !! input_name);
  (* get shape tensor value if not present *)
  v ← match present with
      | Some v => mret v
      | None =>
          if bool_decide (shape_size < 0) then throw "std::bad_array_new_length"
          else
            v ← GetShapeOfShapeTensor input_tensor shape_size sizeof_T;
            set_values input_name v;;
            mret v
      end;
  (* [&values[input_name][0]] needs a first element *)
  (if bool_decide (v = []) then undefined else mret tt);;
  call (setTensorAddress input_name b);;
  if negb (setTensorAddress_result env input_name b) then
    mret (CreateStatus ORT_EP_FAIL
            ("TensorRT EP failed to call nvinfer1::IExecutionContext::setTensorAddress() for shape input '"
             +:+ input_name +:+ "'"))
  else mret nullptr.

(** [BindContextInput]. *)
Definition BindContextInput (trt_engine : ICudaEngine) (input_name : string) (input_index : Z)
    : M RunWorld OrtStatusPtr :=
  let input_tensor := GetInput env input_index in
  let tensor_shapes := GetShape input_tensor in
  let tensor_type := GetElementType input_tensor in
  let elem_cnt := GetElementCount tensor_shapes in
  if isShapeInferenceIO trt_engine input_name then
    (* Bind "shape tensor" input buffer *)
    shape_size ←
      (if bool_decide (length (engine_getTensorShape trt_engine input_name) = 0%nat)
       then mret 1
       else d ← at_ tensor_shapes 0; mret (to_int32 d));
    if bool_decide (tensor_type = ONNX_TENSOR_ELEMENT_DATA_TYPE_INT32) then
      bind_shape_tensor input_name input_tensor shape_size 4
        shape_tensor_values set_shape_tensor_values (ShapeValues32 input_name)
    else if bool_decide (tensor_type = ONNX_TENSOR_ELEMENT_DATA_TYPE_INT64) then
      bind_shape_tensor input_name input_tensor shape_size 8
        shape_tensor_values_int64 set_shape_tensor_values_int64 (ShapeValues64 input_name)
    else
      mret (CreateStatus ORT_EP_FAIL
              ("The data type of shape tensor should be INT32 or INT64. Please check the data type of "
               +:+ input_name))
  else
    (* Set shape for input tensor which is execution tensor *)
    let nb_dims := length (context_getTensorShape env input_name) in
    dims ← for_each (seq 0 nb_dims) (fun j => d ← at_ tensor_shapes j; mret (to_int32 d));
    call (setInputShape input_name dims);;
    if negb (setInputShape_result env input_name dims) then
      mret (CreateStatus ORT_EP_FAIL
              ("TensorRT EP failed to call nvinfer1::IExecutionContext::setInputShape() for input '"
               +:+ input_name +:+ "'"))
    else
      (* Bind "execution tensor" input buffer *)
      if has_input_case tensor_type then
        data ← CASE_GET_INPUT_TENSOR input_tensor elem_cnt;
        call (setTensorAddress input_name (DeviceAddress data));;
        mret nullptr
      else
        mret (CreateStatus ORT_EP_FAIL
                ("TensorRT EP input onnx tensor data type: " +:+ pretty tensor_type
                 +:+ " not supported.")).

(** The labels of the switch in [BindContextOutput]: plain ones, and the
    two that allocate a buffer of the transport type. *)
Definition has_output_case (output_type : Z) : bool := has_input_case output_type.

Definition has_cast_output_case (output_type : Z) : bool :=
  (negb (bool_decide (NV_TENSORRT_MAJOR >= 10))
   && bool_decide (output_type = ONNX_TENSOR_ELEMENT_DATA_TYPE_INT64))
  || bool_decide (output_type = ONNX_TENSOR_ELEMENT_DATA_TYPE_DOUBLE).

(** The shape loop of [BindContextOutput]: stops at the first -1, the
    later entries of [output_shapes] keep their initial 0. *)
Fixpoint output_shapes_of (dims : list Z) : bool * list Z :=
  match dims with
  | [] => (false, [])
  | d :: rest =>
      if bool_decide (d = -1) then (true, replicate (length dims) 0)
      else let '(is_DDS, shapes) := output_shapes_of rest in (is_DDS, d :: shapes)
  end.

(** [BindContextOutput]. *)
Definition BindContextOutput (output_name : string) (output_index output_type : Z) (i : nat)
    : M RunWorld OrtStatusPtr :=
  let dims := context_getTensorShape env output_name in
  let '(is_DDS, output_shapes) := output_shapes_of dims in
  dds ← gets dds_output_allocator_map;
  let known_DDS := bool_decide (is_Some (dds !! output_name)) in
  if is_DDS || known_DDS then
    (if negb known_DDS then
       call (setOutputAllocator output_name);;
       set_dds_output_allocator_map
         (<[output_name := {| getBuffer := null; getOutputShape := [] |}]> dds)
     else mret tt);;
    mret nullptr
  else
    call (KernelContext_GetOutput output_index output_shapes);;
    let output_tensor :=
      {| GetElementType := GetOutput_type env output_index;
         GetShape := output_shapes;
         GetTensorData := GetOutput_data env output_index output_shapes |} in
    set_output_tensor i output_tensor;;
    let elem_cnt := GetElementCount output_shapes in
    let output_tensor_ptr := GetTensorData output_tensor in
    let usable := bool_decide (output_tensor_ptr <> null) && bool_decide (elem_cnt > 0) in
    bound ←
      (if has_output_case output_type then
         (if usable then set_buffer output_name output_tensor_ptr
          else p ← push_scratch env 1; set_buffer output_name p);;
         mret true
       else if has_cast_output_case output_type then
         (if usable then
            (* [elem_cnt * sizeof(DstT)], a product of two [size_t] *)
            p ← push_scratch env (to_size_t (elem_cnt * 4));
            set_buffer output_name p;;
            set_output_dim_size i (to_int32 elem_cnt)
          else
            p ← push_scratch env 1;
            set_buffer output_name p;;
            set_output_dim_size i 1);;
         mret true
       else mret false);
    if bound : bool then
      p ← gets (fun w => default null (buffers w !! output_name));
      call (setTensorAddress output_name (DeviceAddress p));;
      mret nullptr
    else
      mret (CreateStatus ORT_EP_FAIL
              ("TensorRT EP output tensor data type: " +:+ pretty output_type
               +:+ " not supported.")).

(** The types with a [CASE_COPY_TENSOR] label in [BindKernelOutput],
    with [sizeof(DstT)]; the two [CASE_CAST_TENSOR] labels are commented
    out, as is the macro. *)
Definition copy_case_size (output_type : Z) : option Z :=
  if bool_decide (output_type = ONNX_TENSOR_ELEMENT_DATA_TYPE_FLOAT) then Some 4
  else if bool_decide (output_type = ONNX_TENSOR_ELEMENT_DATA_TYPE_FLOAT16) then Some 2
  else if bool_decide (output_type = ONNX_TENSOR_ELEMENT_DATA_TYPE_BOOL) then Some 1
  else if bool_decide (output_type = ONNX_TENSOR_ELEMENT_DATA_TYPE_INT8) then Some 1
  else if bool_decide (output_type = ONNX_TENSOR_ELEMENT_DATA_TYPE_UINT8) then Some 1
  else if bool_decide (output_type = ONNX_TENSOR_ELEMENT_DATA_TYPE_INT32) then Some 4
  else if bool_decide (NV_TENSORRT_MAJOR >= 10)
          && bool_decide (output_type = ONNX_TENSOR_ELEMENT_DATA_TYPE_INT64) then Some 8
  else None.

(** [BindKernelOutput].  [allocator_map[output_name].get()] is null for
    a name that is not in the map, and is dereferenced at once. *)
Definition BindKernelOutput (allocator_map : DDSOutputAllocatorMap) (output_name : string)
    (output_index output_type : Z) : M RunWorld OrtStatusPtr :=
  match allocator_map !! output_name with
  | None => undefined
  | Some allocator =>
      let shape := getOutputShape allocator in
      call (KernelContext_GetOutput output_index shape);;
      let output_tensor_ptr := GetOutput_data env output_index shape in
      let elem_cnt := GetElementCount shape in
      match copy_case_size output_type with
      | Some sizeof_DstT =>
          (if bool_decide (output_tensor_ptr <> null) && bool_decide (elem_cnt > 0) then
             CUDA_RETURN_IF_ERROR env
               (cudaMemcpyAsync output_tensor_ptr (getBuffer allocator)
                  (to_size_t (elem_cnt * sizeof_DstT)) cudaMemcpyDeviceToDevice
                  (stream env))
           else mret tt);;
          mret nullptr
      | None =>
          mret (CreateStatus ORT_EP_FAIL
                  ("TensorRT EP output tensor data type: " +:+ pretty output_type
                   +:+ " not supported."))
      end
  end.
End Binding.

(** ** The compute function of [CreateNodeComputeInfoFromPrecompiledEngine] *)

(** [TensorrtShortFuncState], without the callbacks of the host: the
    engine slot may hold no engine, and the two [..._info] vectors are
    indexed unchecked.  The execution context is taken to be there; its
    answers are in the environment. *)
Record TensorrtShortFuncState := {
  fused_node_name : string;
  engine : option ICudaEngine;
  input_info : list (gmap string Z);
  output_info : list (gmap string Z);
  context_memory_sharing_enable : bool
}.

(** [Ort::ThrowOnError]. *)
Definition ThrowOnError {W} (st : OrtStatusPtr) : M W unit :=
  match st with
  | nullptr => mret tt
  | CreateStatus _ msg => throw msg
  end.

(** A loop whose body may return from the function with a status: the
    first turn that yields a failure ends the loop with it. *)
Fixpoint for_each_or_return {W A} (xs : list A) (body : A -> M W OrtStatusPtr)
    : M W OrtStatusPtr :=
  match xs with
  | [] => mret nullptr
  | x :: rest =>
      st ← body x;
      if is_failure st then mret st else for_each_or_return rest body
  end.

(** [status != nullptr ? api->CreateStatus(code, api->GetErrorMessage(status)) : go on]. *)
Definition rewrap (code : OrtErrorCode) (st : OrtStatusPtr) : OrtStatusPtr :=
  if is_failure st then CreateStatus code (GetErrorMessage st) else nullptr.

(** The world a compute call starts from: the locals are empty, the
    members are those of the provider. *)
Definition initial_world (this_ : TensorrtExecutionProvider) (trt_state : TensorrtShortFuncState)
    : RunWorld :=
  {| made := []; allocations := 0;
     shape_tensor_values := ∅; shape_tensor_values_int64 := ∅;
     scratch_buffers := []; buffers := ∅; output_tensors := ∅; output_dim_sizes := ∅;
     dds_output_allocator_map :=
       default ∅ (dds_output_allocator_maps_ this_ !! fused_node_name trt_state);
     max_context_mem_size := max_ctx_mem_size_ this_;
     allocator := alloc_ this_ |}.

Section ComputeFunc.
Variable NV_TENSORRT_MAJOR : Z.
Variable env : RunEnv.
Variable this_ : TensorrtExecutionProvider.
Variable trt_state : TensorrtShortFuncState.

(** "Assign TRT output back to ORT output", the body of the last loop. *)
Definition assign_output (output_indexes output_types : gmap string Z)
    (io : nat * string) : M RunWorld OrtStatusPtr :=
  let '(i, output_name) := io in
  let output_type := default 0 (output_types !! output_name) in
  dds ← gets dds_output_allocator_map;
  if bool_decide (is_Some (dds !! output_name)) then
    let output_index := default 0 (output_indexes !! output_name) in
    st ← BindKernelOutput NV_TENSORRT_MAJOR env dds output_name output_index output_type;
    mret (rewrap ORT_FAIL st)
  else
    output_tensor ← gets (fun w => output_tensors w !! i);
    (if bool_decide (NV_TENSORRT_MAJOR < 10)
        && bool_decide (output_type = ONNX_TENSOR_ELEMENT_DATA_TYPE_INT64) then
       let output_tensor_ptr := from_option GetTensorData null output_tensor in
       if bool_decide (output_tensor_ptr <> null) then
         src ← gets (fun w => default null (buffers w !! output_name));
         n ← gets (fun w => default 0 (output_dim_sizes w !! i));
         call (Impl_Cast_int32_int64 (stream env) src output_tensor_ptr n)
       else mret tt
     else mret tt);;
    (* [if (output_type == ONNX_TENSOR_ELEMENT_DATA_TYPE_DOUBLE) { }]: empty *)
    mret nullptr.

(** The part of the body after the bindings are made. *)
Definition launch (trt_engine : ICudaEngine) (output_binding_names : list string)
    (output_indexes output_types : gmap string Z) : M RunWorld OrtStatusPtr :=
  (* Set execution context memory *)
  (if context_memory_sharing_enable trt_state then
     let mem_size := getDeviceMemorySize trt_engine in
     m ← gets max_context_mem_size;
     (if bool_decide (mem_size > m) then set_max_context_mem_size mem_size else mret tt);;
     m' ← gets max_context_mem_size;
     p ← MakeUniquePtrFromOrtAllocator env m';
     call (setDeviceMemory p);;
     call (Free p)
   else mret tt);;
  (* Start CUDA graph capture: the body of the [if] is commented out *)
  (if cuda_graph_enable_ (settings this_) && IsGraphCaptureAllowed env
      && negb (IsGraphCaptured env 0)
   then mret tt else mret tt);;
  (* Run TRT inference *)
  call (enqueueV3 (stream env));;
  dds ← gets dds_output_allocator_map;
  set_dds_output_allocator_map (map_imap (fun n a => Some (enqueueV3_notifies env n a)) dds);;
  if negb (enqueueV3_result env) then
    mret (CreateStatus ORT_FAIL "TensorRT EP execution context enqueue failed.")
  else
    (if sync_stream_after_enqueue_ (settings this_)
     then CUDA_RETURN_IF_ERROR env (cudaStreamSynchronize (stream env))
     else mret tt);;
    st ← for_each_or_return (imap pair output_binding_names)
           (assign_output output_indexes output_types);
    if is_failure st then mret st
    else
      (* End CUDA graph capture: the body of the [if] is commented out *)
      (if cuda_graph_enable_ (settings this_) && negb (IsGraphCaptured env 0)
       then mret tt else mret tt);;
      mret nullptr.

(** The [ComputeFunc] lambda.  The [std::lock_guard] on the provider
    mutex at its head is commented out ("TODO"), so no lock call is
    made. *)
Definition ComputeFunc : M RunWorld OrtStatusPtr :=
  input_indexes ← at_ (input_info trt_state) 0;
  output_indexes ← at_ (output_info trt_state) 0;
  output_types ← at_ (output_info trt_state) 1;
  call CreateMemoryInfo;;
  a ← gets allocator;
  (if bool_decide (a = null) then
     call KernelContext_GetAllocator;;
     ThrowOnError (GetAllocator_status env);;
     set_allocator (GetAllocator_result env)
   else mret tt);;
  call KernelContext_GetGPUComputeStream;;
  ThrowOnError (GetGPUComputeStream_status env);;
  match engine trt_state with
  | None => undefined
  | Some trt_engine =>
      (* Get input and output binding names *)
      let is_input name := bool_decide (getTensorIOMode trt_engine name = kINPUT) in
      let input_binding_names := filter is_input (getIOTensorNames trt_engine) in
      let output_binding_names :=
        filter (fun name => ¬ is_input name) (getIOTensorNames trt_engine) in
      (* Set input shapes and bind input buffers *)
      st ← for_each_or_return input_binding_names (fun input_name =>
             let input_index := default 0 (input_indexes !! input_name) in
             st ← BindContextInput NV_TENSORRT_MAJOR env trt_engine input_name input_index;
             mret (rewrap ORT_EP_FAIL st));
      if is_failure st then mret st
      else
        (* Set output shapes and bind output buffers *)
        st ← for_each_or_return (imap pair output_binding_names) (fun io =>
               let '(i, output_name) := io in
               let output_index := default 0 (output_indexes !! output_name) in
               let output_type := default 0 (output_types !! output_name) in
               st ← BindContextOutput NV_TENSORRT_MAJOR env output_name output_index
                      output_type i;
               mret (rewrap ORT_EP_FAIL st));
        if is_failure st then mret st
        else launch trt_engine output_binding_names output_indexes output_types
  end.
End ComputeFunc.

(** ** The copy and refit contracts, and concrete inputs *)

Definition is_copy (c : Call) : bool :=
  match c with
  | cudaMemcpyAsync _ _ _ _ _ | cudaMemcpy _ _ _ _ | memcpy _ _ _ => true
  | _ => false
  end.

(** The kind of a CUDA copy; [memcpy] has none. *)
Definition copy_kind (c : Call) : option cudaMemcpyKind :=
  match c with
  | cudaMemcpyAsync _ _ _ k _ | cudaMemcpy _ _ _ k => Some k
  | _ => None
  end.

(** Every copy in [cs] comes after a [cudaStreamSynchronize(stream)]. *)
Definition synchronizes_before_copy (stream : Addr) (cs : list Call) : Prop :=
  forall pre c post, cs = pre ++ c :: post -> is_copy c = true ->
    cudaStreamSynchronize stream ∈ pre.

(** A copy between host and device: the asynchronous call on the stream
    when there is one, else the synchronous call and a synchronize. *)
Definition async_or_sync_copy (dst src : Addr) (count : Z) (k : cudaMemcpyKind)
    (stream : Addr) (cs : list Call) : Prop :=
  if bool_decide (stream <> null)
  then cs = [cudaMemcpyAsync dst src count k stream]
  else cs = [cudaMemcpy dst src count k; cudaStreamSynchronize null].

(** A copy on the device: one device-to-device copy, the asynchronous
    call on the stream when there is one, else the synchronous call; no
    call at all when source and destination are the same address. *)
Definition device_to_device_copy (dst src : Addr) (count : Z) (stream : Addr)
    (cs : list Call) : Prop :=
  if bool_decide (src = dst) then cs = []
  else if bool_decide (stream <> null)
  then cs = [cudaMemcpyAsync dst src count cudaMemcpyDeviceToDevice stream]
  else cs = [cudaMemcpy dst src count cudaMemcpyDeviceToDevice].

(** The cross-device copy contract, with the clause on pinned memory left
    open: [pinned_clause] is what is asked of a copy whose source memory
    is CUDA-pinned. *)
Definition CopyTensor_contract (pinned_clause : list Call -> Prop)
    (src : Addr) (source_device_type : OrtMemoryInfoDeviceType)
    (source_mem_type : OrtMemoryType) (dst : Addr)
    (target_device_type : OrtMemoryInfoDeviceType) (count : Z) (stream : Addr) : Prop :=
  let cs := snd (CopyTensor src source_device_type source_mem_type dst
                    target_device_type count stream) in
  (source_device_type = OrtMemoryInfoDeviceType_GPU ->
   target_device_type = OrtMemoryInfoDeviceType_GPU ->
   device_to_device_copy dst src count stream cs
   /\ forall c, c ∈ cs -> copy_kind c = Some cudaMemcpyDeviceToDevice)
  /\ (source_device_type = OrtMemoryInfoDeviceType_CPU ->
      target_device_type = OrtMemoryInfoDeviceType_GPU ->
      async_or_sync_copy dst src count cudaMemcpyHostToDevice stream cs)
  /\ (source_device_type = OrtMemoryInfoDeviceType_GPU ->
      target_device_type = OrtMemoryInfoDeviceType_CPU ->
      async_or_sync_copy dst src count cudaMemcpyDeviceToHost stream cs)
  /\ (source_mem_type = OrtMemoryType_CUDA_PINNED -> pinned_clause cs).

(** The three pairs of device types that [CopyTensor] copies with a CUDA
    call: GPU to GPU, CPU to GPU and GPU to CPU. *)
Definition gpu_pair (source_device_type target_device_type : OrtMemoryInfoDeviceType) : Prop :=
  (source_device_type = OrtMemoryInfoDeviceType_GPU
   /\ target_device_type = OrtMemoryInfoDeviceType_GPU)
  \/ (source_device_type = OrtMemoryInfoDeviceType_CPU
      /\ target_device_type = OrtMemoryInfoDeviceType_GPU)
  \/ (source_device_type = OrtMemoryInfoDeviceType_GPU
      /\ target_device_type = OrtMemoryInfoDeviceType_CPU).

(** No call comes before a copy in [cs]. *)
Definition copy_comes_first (cs : list Call) : Prop :=
  forall pre c post, cs = pre ++ c :: post -> is_copy c = true -> pre = [].

(** What holds of a copy out of CUDA-pinned memory: for the three pairs
    of device types above the copy is the first call, so no synchronize
    comes before it; for every other pair (host to host, or an end whose
    device type is neither CPU nor GPU) the stream, when there is one,
    is synchronized, and then the bytes are copied with [memcpy]. *)
Definition pinned_copy (src : Addr) (source_device_type : OrtMemoryInfoDeviceType)
    (dst : Addr) (target_device_type : OrtMemoryInfoDeviceType) (count : Z) (stream : Addr)
    (cs : list Call) : Prop :=
  (gpu_pair source_device_type target_device_type -> copy_comes_first cs)
  /\ (~ gpu_pair source_device_type target_device_type ->
      cs = (if bool_decide (stream <> null) then [cudaStreamSynchronize stream] else [])
           ++ [memcpy dst src count]
      /\ (stream <> null -> synchronizes_before_copy stream cs)).

(** What [RefitEngine] is asked to do with an unsafe model path: fail, and
    neither create a refitter nor refit. *)
Definition refuses_unsafe_path (NV_TENSORRT_MAJOR : Z)
    (IsAbsolutePath IsRelativePathToParentPath : string -> bool)
    (GetWeightRefittedEnginePath : string -> string) (env : RefitEnv)
    (onnx_model_filename onnx_model_folder_path weight_stripped_engine_cath_path : string)
    (path_check serialize_refitted_engine detailed_build_log : bool) : Prop :=
  let P := path_append onnx_model_folder_path onnx_model_filename in
  let r := RefitEngine NV_TENSORRT_MAJOR IsAbsolutePath IsRelativePathToParentPath
             GetWeightRefittedEnginePath env onnx_model_filename onnx_model_folder_path
             weight_stripped_engine_cath_path path_check serialize_refitted_engine
             detailed_build_log in
  IsAbsolutePath P = true \/ IsRelativePathToParentPath P = true ->
  is_failure (fst r) = true /\ (createInferRefitter ∉ snd r) /\ (refitCudaEngine ∉ snd r).

(** A file system where every path exists and a refitter that succeeds. *)
Definition obliging_refit_env : RefitEnv :=
  {| exists_ := fun _ => true;
     refitFromFile_result := fun _ => true;
     refitCudaEngine_result := true |}.

(** A network that starts with a Pow layer followed by a Reduce layer. *)
Definition plain_layer (t : LayerType) : ILayer :=
  {| getType := t; precision := None; output_type := None |}.

Definition pow_reduce_network : INetworkDefinition :=
  {| layers := [plain_layer (kELEMENTWISE kPOW); plain_layer kREDUCE;
                plain_layer LayerType_other];
     inputs := [];
     getNbOutputs := 1 |}.

(** Enumerator values of TensorRT 10 and the remaining parameters of the
    compile step, for running it on concrete inputs. *)
Definition BuilderFlag_bit_10 (f : BuilderFlag) : Z :=
  match f with
  | kFP16 => 0
  | kINT8_flag => 1
  | kGPU_FALLBACK => 3
  | kSPARSE_WEIGHTS => 7
  | kENABLE_TACTIC_HEURISTIC => 12
  end.

Definition NetworkDefinitionCreationFlag_bit_10 (f : NetworkDefinitionCreationFlag) : Z :=
  match f with
  | kEXPLICIT_BATCH => 0
  | kSTRONGLY_TYPED => 1
  end.

(** Modelled from the spec: [GetNumProfiles] is declared in the missing
    utilities header; the specification creates "one TRT optimization
    profile per profile index", so the number of profiles is the number
    of shape vectors given for an input (the first input that has any). *)
Definition GetNumProfiles_spec (profile_shapes : ProfileShapes) : Z :=
  default 0 (head (filter (fun n => 0 < n)
                     ((fun kv => Z.of_nat (length (snd kv))) <$> map_to_list profile_shapes))).

(** One admissible order of handing out the keys of an [unordered_map]. *)
Definition keys_in_order (m : ShapeRangesMap) : list string := (map_to_list m).*1.

(** Provider settings for the concrete runs. *)
Definition settings_with (layer_norm_fp32_fallback cuda_graph_enable : bool)
    (profile_min_shapes profile_max_shapes profile_opt_shapes : ProfileShapes)
    : ProviderSettings :=
  {| detailed_build_log_ := false;
     layer_norm_fp32_fallback_ := layer_norm_fp32_fallback;
     max_workspace_size_ := 1073741824;
     model_path_ := "model.onnx";
     profile_min_shapes_ := profile_min_shapes;
     profile_max_shapes_ := profile_max_shapes;
     profile_opt_shapes_ := profile_opt_shapes;
     int8_calibration_cache_available_ := false;
     int8_calibration_cache_name_ := "";
     int8_use_native_tensorrt_calibration_table_ := false;
     cache_path_ := "";
     sparsity_enable_ := false;
     build_heuristics_enable_ := false;
     builder_optimization_level_ := 3;
     context_memory_sharing_enable_ := false;
     cuda_graph_enable_ := cuda_graph_enable;
     sync_stream_after_enqueue_ := true;
     device_id_ := 0 |}.

(** No profile, no FP32 fallback, no graph capture. *)
Definition plain_settings : ProviderSettings := settings_with false false ∅ ∅ ∅.

Definition provider_with (s : ProviderSettings) (fp16 : bool) : TensorrtExecutionProvider :=
  {| settings := s;
     builder_ := false;
     fp16_enable_ := fp16;
     int8_enable_ := false;
     dla_enable_ := false;
     dla_core_ := 0;
     engines_ := ∅;
     max_ctx_mem_size_ := 0;
     alloc_ := null;
     dds_output_allocator_maps_ := ∅ |}.

Definition fresh_config : IBuilderConfig :=
  {| workspace_limit := 0;
     flags := 0;
     optimization_profiles := [];
     default_device_type := kGPU;
     DLACore := 0 |}.

Definition build_env_of (net : INetworkDefinition) : BuildEnv :=
  {| node_name := "TensorrtExecutionProvider_TRTKernel_graph_0";
     parsed_network := net;
     createBuilderConfig_result := fresh_config;
     platformHasFastFp16 := true;
     platformHasFastInt8 := true;
     getNbDLACores := 0;
     ReadDynamicRange_result := fun _ => true |}.

(** [fp16_enable] and [layer_norm_fp32_fallback] both set. *)
Definition fp16_fallback_settings : ProviderSettings := settings_with true false ∅ ∅ ∅.

(** The dimensions [BindContextInput] hands to [setInputShape]: as many
    entries of the tensor's shape as the context reports dimensions. *)
Definition input_dims (env : RunEnv) (input_name : string) (input_index : Z) : list Z :=
  to_int32 <$> take (length (context_getTensorShape env input_name))
                 (GetShape (GetInput env input_index)).

Definition unsupported_input_message (tensor_type : Z) : string :=
  "TensorRT EP input onnx tensor data type: " +:+ pretty tensor_type +:+ " not supported.".

(** A compute-call environment in which every external call succeeds:
    one input tensor for all indices, one shape for all tensor names. *)
Definition run_env_of (input : Tensor) (tensor_shape : list Z)
    (capture_allowed captured : bool) : RunEnv :=
  {| GetInput := fun _ => input;
     GetOutput_data := fun _ _ => 8192;
     GetOutput_type := fun _ => ONNX_TENSOR_ELEMENT_DATA_TYPE_FLOAT;
     stream := 7;
     GetGPUComputeStream_status := nullptr;
     GetAllocator_result := 64;
     GetAllocator_status := nullptr;
     make_unique_result := fun _ => 128;
     Alloc_result := fun k _ => 4096 + Z.of_nat k;
     cuda_succeeds := fun _ => true;
     device_read := fun _ n => replicate n 1;
     context_getTensorShape := fun _ => tensor_shape;
     setInputShape_result := fun _ _ => true;
     setTensorAddress_result := fun _ _ => true;
     enqueueV3_result := true;
     enqueueV3_notifies := fun _ a => a;
     IsGraphCaptureAllowed := capture_allowed;
     IsGraphCaptured := fun _ => captured |}.

(** An engine with one execution-tensor input [x] and one output [y]. *)
Definition x_to_y_engine : ICudaEngine :=
  {| getIOTensorNames := ["x"; "y"];
     getTensorIOMode := fun name => if bool_decide (name = "x") then kINPUT else kOUTPUT;
     isShapeInferenceIO := fun _ => false;
     engine_getTensorShape := fun _ => [2; 3];
     getDeviceMemorySize := 0 |}.

Definition empty_world : RunWorld :=
  {| made := []; allocations := 0;
     shape_tensor_values := ∅; shape_tensor_values_int64 := ∅;
     scratch_buffers := []; buffers := ∅; output_tensors := ∅; output_dim_sizes := ∅;
     dds_output_allocator_map := ∅;
     max_context_mem_size := 0;
     allocator := null |}.

(** A float64 tensor of shape [2, 3] with data at address 1024. *)
Definition double_tensor : Tensor :=
  {| GetElementType := ONNX_TENSOR_ELEMENT_DATA_TYPE_DOUBLE;
     GetShape := [2; 3];
     GetTensorData := 1024 |}.

(** ** Explicit profiles: who has one, and when the maps cover an input *)

(** An input has dynamic shape when it is a shape tensor or one of its
    dimensions is -1: these are the inputs the scan seeds when no
    explicit profile is applied to them. *)
Definition is_dynamic (input : ITensor) : bool :=
  isShapeTensor input || bool_decide (-1 ∈ getDimensions input).

(** An explicit profile is applied to the input called [name] when
    explicit profiles are given, at least one profile was created and the
    map of minimum shapes has the name: this is when
    [ApplyProfileShapesFromProviderOptions] answers true. *)
Definition applies_explicit_profile (has_explicit : bool) (N : nat)
    (profile_min_shapes : ProfileShapes) (name : string) : bool :=
  has_explicit && negb (bool_decide (N = 0%nat))
  && bool_decide (is_Some (profile_min_shapes !! name)).

(** [shapes[name][i][j]] exists. *)
Definition shape_lookup (shapes : ProfileShapes) (name : string) (i j : nat) : option Z :=
  per_profile ← shapes !! name; v ← per_profile !! i; v !! j.

Definition has_triple (profile_min_shapes profile_max_shapes profile_opt_shapes : ProfileShapes)
    (name : string) (i j : nat) : Prop :=
  is_Some (shape_lookup profile_min_shapes name i j)
  /\ is_Some (shape_lookup profile_max_shapes name i j)
  /\ is_Some (shape_lookup profile_opt_shapes name i j).

(** The three maps hold every value that profile [i] reads for the
    input: for a shape tensor the values [0 .. shape_size - 1] with
    [shape_size] at least 1, for an execution tensor one value per
    dynamic dimension. *)
Definition profile_defined_at
    (profile_min_shapes profile_max_shapes profile_opt_shapes : ProfileShapes)
    (input : ITensor) (i : nat) : Prop :=
  let name := getName input in
  let dims := getDimensions input in
  if isShapeTensor input then
    exists shape_size : nat,
      (if bool_decide (length dims = 0%nat) then Some 1%nat
       else per_profile ← profile_min_shapes !! name; v ← per_profile !! i; Some (length v))
      = Some shape_size
      /\ shape_size <> 0%nat
      /\ forall j, (j < shape_size)%nat ->
            has_triple profile_min_shapes profile_max_shapes profile_opt_shapes name i j
  else
    forall j, dims !! j = Some (-1) ->
      has_triple profile_min_shapes profile_max_shapes profile_opt_shapes name i j.

(** The maps cover every input they name, for each of the [N] profiles:
    the reads of [ApplyProfileShapesFromProviderOptions] stay in range. *)
Definition profiles_cover (N : nat)
    (profile_min_shapes profile_max_shapes profile_opt_shapes : ProfileShapes)
    (net : INetworkDefinition) : Prop :=
  forall input, input ∈ inputs net ->
    is_Some (profile_min_shapes !! getName input) ->
    forall i, (i < N)%nat ->
      profile_defined_at profile_min_shapes profile_max_shapes profile_opt_shapes input i.

(** Calls that build or load an engine, or add a profile to the builder
    configuration. *)
Definition builds_engine (c : Call) : bool :=
  match c with
  | buildSerializedNetwork | deserializeCudaEngine => true
  | _ => false
  end.

Definition adds_profile (c : Call) : bool :=
  match c with
  | addOptimizationProfile _ => true
  | _ => false
  end.

(** A network with two execution-tensor inputs of dynamic batch size. *)
Definition two_input_network : INetworkDefinition :=
  {| layers := [plain_layer LayerType_other];
     inputs := [ {| getName := "x"; getDimensions := [-1; 768]; isShapeTensor := false |};
                 {| getName := "y"; getDimensions := [-1; 3]; isShapeTensor := false |} ];
     getNbOutputs := 1 |}.

(** Explicit profiles for [y] only. *)
Definition y_profile_settings : ProviderSettings :=
  settings_with false false {[ "y" := [[1; 3]] ]} {[ "y" := [[8; 3]] ]} {[ "y" := [[4; 3]] ]}.

(** ** What the layer-norm guard reaches *)

(** The pair (idx, idx + 1) of [ls] is a Pow layer followed by a Reduce
    layer. *)
Definition pow_reduce_at (ls : list ILayer) (idx : nat) : Prop :=
  exists layer next_layer,
    ls !! idx = Some layer /\ ls !! S idx = Some next_layer
    /\ is_pow_then_reduce layer next_layer = true.

(** Layer [i] belongs to a Pow-Reduce pair whose first index lies in
    [a, b). *)
Definition in_pair_from (ls : list ILayer) (a b i : nat) : Prop :=
  exists idx, (a <= idx < b)%nat /\ pow_reduce_at ls idx /\ (i = idx \/ i = S idx).

Definition pinned (l : ILayer) : Prop :=
  precision l = Some kFLOAT /\ output_type l = Some kFLOAT.

(** The state of the layers after the guard has looked at the pairs with
    first index in [a, b). *)
Definition guarded (ls st : list ILayer) (a b : nat) : Prop :=
  length st = length ls
  /\ forall i l, ls !! i = Some l ->
       exists l', st !! i = Some l' /\ getType l' = getType l
                  /\ (in_pair_from ls a b i -> pinned l')
                  /\ (~ in_pair_from ls a b i -> l' = l).

(** ** Calls of the compute function *)

(** The calls on the provider mutex and on the CUDA graph object. *)
Definition is_lock_call (c : Call) : bool :=
  match c with
  | mutex_lock | mutex_unlock => true
  | _ => false
  end.

Definition is_capture_call (c : Call) : bool :=
  match c with
  | cuda_graph_SetStream _ | CaptureBegin _ | CaptureEnd _ | ReplayGraph _ => true
  | _ => false
  end.

(** The kinds of calls that the compute function and its helpers make. *)
Definition compute_call (c : Call) : bool :=
  match c with
  | cudaMemcpyAsync _ _ _ _ _ | cudaStreamSynchronize _
  | Alloc _ | Free _ | CreateMemoryInfo | KernelContext_GetAllocator
  | KernelContext_GetGPUComputeStream | KernelContext_GetOutput _ _
  | setTensorAddress _ _ | setInputShape _ _ | setOutputAllocator _ | setDeviceMemory _
  | enqueueV3 _ | Impl_Cast_int32_int64 _ _ _ _ => true
  | _ => false
  end.

(** A computation adds only calls of these kinds. *)
Definition makes_compute_calls {A} (m : M RunWorld A) : Prop :=
  forall w, Forall (fun c => compute_call c = true) (made w) ->
            Forall (fun c => compute_call c = true) (made (snd (m w))).

(** A float32 tensor of shape [2, 3] with data at address 1024. *)
Definition float_tensor : Tensor :=
  {| GetElementType := ONNX_TENSOR_ELEMENT_DATA_TYPE_FLOAT;
     GetShape := [2; 3];
     GetTensorData := 1024 |}.

(** The state of a fused node whose engine maps [x] to [y]. *)
Definition x_to_y_state : TensorrtShortFuncState :=
  {| fused_node_name := "TensorrtExecutionProvider_TRTKernel_graph_0";
     engine := Some x_to_y_engine;
     input_info := [ {[ "x" := 0 ]} ];
     output_info := [ {[ "y" := 0 ]}; {[ "y" := ONNX_TENSOR_ELEMENT_DATA_TYPE_FLOAT ]} ];
     context_memory_sharing_enable := false |}.

(** CUDA graph capture enabled. *)
Definition graph_capture_settings : ProviderSettings := settings_with false true ∅ ∅ ∅.

(** The allocator of a data-dependent output [y] after TensorRT has
    notified the shape [0, 2]. *)
Definition empty_y_allocators : DDSOutputAllocatorMap :=
  {[ "y" := {| getBuffer := 4096; getOutputShape := [0; 2] |} ]}.

(** An environment in which [y] has a data-dependent shape: the context
    reports [-1, 2] for it and TensorRT notifies [3, 2] during enqueue. *)
Definition dds_env : RunEnv :=
  {| GetInput := fun _ => float_tensor;
     GetOutput_data := fun _ _ => 8192;
     GetOutput_type := fun _ => ONNX_TENSOR_ELEMENT_DATA_TYPE_FLOAT;
     stream := 7;
     GetGPUComputeStream_status := nullptr;
     GetAllocator_result := 64;
     GetAllocator_status := nullptr;
     make_unique_result := fun _ => 128;
     Alloc_result := fun k _ => 4096 + Z.of_nat k;
     cuda_succeeds := fun _ => true;
     device_read := fun _ n => replicate n 1;
     context_getTensorShape := fun name => if bool_decide (name = "x") then [2; 3] else [-1; 2];
     setInputShape_result := fun _ _ => true;
     setTensorAddress_result := fun _ _ => true;
     enqueueV3_result := true;
     enqueueV3_notifies := fun _ _ => {| getBuffer := 12288; getOutputShape := [3; 2] |};
     IsGraphCaptureAllowed := false;
     IsGraphCaptured := fun _ => false |}.

(** The state of a fused node whose output [y] is int64, with context
    memory sharing. *)
Definition int64_output_state : TensorrtShortFuncState :=
  {| fused_node_name := "TensorrtExecutionProvider_TRTKernel_graph_0";
     engine := Some x_to_y_engine;
     input_info := [ {[ "x" := 0 ]} ];
     output_info := [ {[ "y" := 0 ]}; {[ "y" := ONNX_TENSOR_ELEMENT_DATA_TYPE_INT64 ]} ];
     context_memory_sharing_enable := true |}.

(** ** The shape-range stores during the scan *)

(** The entry of a shape-range store under (name, dimension index). *)
Definition entry (m : ShapeRangesMap) (name : string) (j : nat) : option (list (list Z)) :=
  inner ← m !! name; inner !! j.

(** The explicit store keeps one slot per profile under every key. *)
Definition ranges_inv (N : nat) (p : Profiles) : Prop :=
  length (trt_profiles p) = N
  /\ forall name inner j v,
       input_explicit_shape_ranges p !! name = Some inner -> inner !! j = Some v ->
       length v = N.

(** What holds of the scan state between two inputs: every entry of the
    implicit store is the sentinel, and every name in it, like the flag
    [has_dynamic_shape], comes from a dynamic input of [all_inputs] that
    no explicit profile applies to. *)
Definition scan_inv (he : bool) (N : nat) (profile_min_shapes : ProfileShapes)
    (all_inputs : list ITensor) (w : Scan) : Prop :=
  ranges_inv N (scan_profiles w)
  /\ (he = false -> apply_explicit_profile w = false)
  /\ (forall name j v, entry (input_implicit_shape_ranges w) name j = Some v -> v = sentinel)
  /\ (forall name, is_Some (input_implicit_shape_ranges w !! name) ->
        exists input, input ∈ all_inputs /\ getName input = name
                      /\ is_dynamic input = true
                      /\ applies_explicit_profile he N profile_min_shapes (getName input)
                         = false)
  /\ (has_dynamic_shape w = true ->
        exists input, input ∈ all_inputs /\ is_dynamic input = true
                      /\ applies_explicit_profile he N profile_min_shapes (getName input)
                         = false).

(** What the scan has done for a dynamic input without explicit profile
    once it has passed it: the flag is set, the name is in the implicit
    store, and so is an entry for index 0 of a shape tensor and for every
    dynamic dimension of an execution tensor. *)
Definition seeded (he : bool) (N : nat) (profile_min_shapes : ProfileShapes)
    (input : ITensor) (w : Scan) : Prop :=
  applies_explicit_profile he N profile_min_shapes (getName input) = false ->
  is_dynamic input = true ->
  has_dynamic_shape w = true
  /\ is_Some (input_implicit_shape_ranges w !! getName input)
  /\ forall j, (if isShapeTensor input then j = 0%nat
                else getDimensions input !! j = Some (-1)) ->
       is_Some (entry (input_implicit_shape_ranges w) (getName input) j).
(** ** Allocation sizes *)

(** [CalcMemSizeForArrayWithAlignment]: the value it returns and the
    value it writes to [*out].  The arguments are [size_t] values. *)
Definition CalcMemSizeForArrayWithAlignment (nmemb size alignment : Z) : bool * Z :=
  let alloc_size := size in
  if bool_decide (alignment = 0) then
    (true, to_size_t (alloc_size * nmemb))
  else
    let alignment_mask := to_size_t (alignment - 1) in
    (true,
     Z.land (to_size_t (to_size_t (alloc_size * nmemb) + alignment_mask))
            (to_size_t (Z.lnot alignment_mask))).

(** The size [MakeUniquePtrFromOrtAllocator<T>] asks the allocator for:
    [sizeof_T] is [None] for [T = void], where the argument is a number
    of bytes, and the element size otherwise. *)
Definition alloc_size_of (sizeof_T : option Z) (count_or_bytes : Z) : Z :=
  match sizeof_T with
  | None => count_or_bytes
  | Some size => snd (CalcMemSizeForArrayWithAlignment count_or_bytes size 0)
  end.

(** ** What a copy call moves *)

(** Destination, source and byte count of a copy call. *)
Definition copy_of (c : Call) : option (Addr * Addr * Z) :=
  match c with
  | cudaMemcpyAsync dst src count _ _ | cudaMemcpy dst src count _ | memcpy dst src count =>
      Some (dst, src, count)
  | _ => None
  end.

(** ** The builder configuration after the compile step *)

#[global] Instance BuilderFlag_eq_dec : EqDecision BuilderFlag.
Proof. solve_decision. Defined.
#[global] Instance NetworkDefinitionCreationFlag_eq_dec :
  EqDecision NetworkDefinitionCreationFlag.
Proof. solve_decision. Defined.

(** The calls that make a profile or add one to the configuration. *)
Definition is_profile_call (c : Call) : bool :=
  match c with
  | createOptimizationProfile | addOptimizationProfile _ => true
  | _ => false
  end.

(** The precision modes that are left after the platform check. *)
Definition effective_fp16 (env : BuildEnv) (this_ : TensorrtExecutionProvider) : bool :=
  fp16_enable_ this_ && platformHasFastFp16 env.

Definition effective_int8 (env : BuildEnv) (this_ : TensorrtExecutionProvider) : bool :=
  int8_enable_ this_ && platformHasFastInt8 env.

(** The condition under which the configuration is pointed to a DLA
    core. *)
Definition uses_DLA (env : BuildEnv) (this_ : TensorrtExecutionProvider) : bool :=
  (effective_fp16 env this_ || effective_int8 env this_)
  && dla_enable_ this_ && bool_decide (dla_core_ this_ >= 0)
  && negb (bool_decide (getNbDLACores env = 0)).

(** Whether the compile step turns a builder flag on. *)
Definition turns_on (NV_TENSORRT_MAJOR NV_TENSORRT_MINOR : Z) (env : BuildEnv)
    (this_ : TensorrtExecutionProvider) (f : BuilderFlag) : bool :=
  match f with
  | kFP16 => effective_fp16 env this_
  | kINT8_flag => effective_int8 env this_
  | kGPU_FALLBACK => uses_DLA env this_
  | kSPARSE_WEIGHTS => sparsity_enable_ (settings this_)
  | kENABLE_TACTIC_HEURISTIC =>
      bool_decide (NV_TENSORRT_MAJOR = 8) && bool_decide (NV_TENSORRT_MINOR = 5)
      && build_heuristics_enable_ (settings this_)
  end.

(** A computation that ends by returning or in undefined behaviour: it
    neither throws nor aborts. *)
Definition quiet {W A} (m : M W A) : Prop :=
  forall w, match fst (m w) with
            | Returns _ | Undefined => True
            | Throws _ | Aborts => False
            end.

(** A provider that asks for FP16 on DLA core 5, and a platform with two
    DLA cores. *)
Definition dla_provider : TensorrtExecutionProvider :=
  {| settings := plain_settings;
     builder_ := false;
     fp16_enable_ := true;
     int8_enable_ := false;
     dla_enable_ := true;
     dla_core_ := 5;
     engines_ := ∅;
     max_ctx_mem_size_ := 0;
     alloc_ := null;
     dds_output_allocator_maps_ := ∅ |}.

Definition dla_env : BuildEnv :=
  {| node_name := "TensorrtExecutionProvider_TRTKernel_graph_0";
     parsed_network := pow_reduce_network;
     createBuilderConfig_result := fresh_config;
     platformHasFastFp16 := true;
     platformHasFastInt8 := true;
     getNbDLACores := 2;
     ReadDynamicRange_result := fun _ => true |}.

(** A provider that asks for INT8 with a calibration table, and a
    platform on which the table cannot be read. *)
Definition int8_settings : ProviderSettings :=
  {| detailed_build_log_ := false;
     layer_norm_fp32_fallback_ := false;
     max_workspace_size_ := 1073741824;
     model_path_ := "model.onnx";
     profile_min_shapes_ := ∅;
     profile_max_shapes_ := ∅;
     profile_opt_shapes_ := ∅;
     int8_calibration_cache_available_ := true;
     int8_calibration_cache_name_ := "calibration.flatbuffers";
     int8_use_native_tensorrt_calibration_table_ := false;
     cache_path_ := "cache";
     sparsity_enable_ := false;
     build_heuristics_enable_ := false;
     builder_optimization_level_ := 3;
     context_memory_sharing_enable_ := false;
     cuda_graph_enable_ := false;
     sync_stream_after_enqueue_ := true;
     device_id_ := 0 |}.

Definition int8_provider : TensorrtExecutionProvider :=
  {| settings := int8_settings;
     builder_ := false;
     fp16_enable_ := false;
     int8_enable_ := true;
     dla_enable_ := false;
     dla_core_ := 0;
     engines_ := ∅;
     max_ctx_mem_size_ := 0;
     alloc_ := null;
     dds_output_allocator_maps_ := ∅ |}.

Definition unreadable_table_env : BuildEnv :=
  {| node_name := "TensorrtExecutionProvider_TRTKernel_graph_0";
     parsed_network := two_input_network;
     createBuilderConfig_result := fresh_config;
     platformHasFastFp16 := true;
     platformHasFastInt8 := true;
     getNbDLACores := 0;
     ReadDynamicRange_result := fun _ => false |}.

(** The flags [createNetworkV2] is given, and the calls up to the parse
    of the model (lines 668-680). *)
Definition network_flags_of (NV_TENSORRT_MAJOR : Z)
    (NetworkDefinitionCreationFlag_bit : NetworkDefinitionCreationFlag -> Z)
    (this_ : TensorrtExecutionProvider) : Z :=
  Z.lor
    (Z.lor 0
       (if bool_decide (NV_TENSORRT_MAJOR > 8) then
          if fp16_enable_ this_ || int8_enable_ this_ then 0
          else Z.shiftl 1 (NetworkDefinitionCreationFlag_bit kSTRONGLY_TYPED)
        else 0))
    (Z.shiftl 1 (NetworkDefinitionCreationFlag_bit kEXPLICIT_BATCH)).

Definition opening_calls (NV_TENSORRT_MAJOR : Z)
    (NetworkDefinitionCreationFlag_bit : NetworkDefinitionCreationFlag -> Z)
    (this_ : TensorrtExecutionProvider) : list Call :=
  [GetTensorrtLogger (detailed_build_log_ (settings this_))]
  ++ (if builder_ this_ then [] else [createInferBuilder])
  ++ [createNetworkV2 (network_flags_of NV_TENSORRT_MAJOR NetworkDefinitionCreationFlag_bit this_);
      createBuilderConfig; createParser; parse (model_path_ (settings this_))].

(** The network the scan and the rest of the compile step work on. *)
Definition guarded_network (env : BuildEnv) (this_ : TensorrtExecutionProvider)
    : INetworkDefinition :=
  if fp16_enable_ this_ && layer_norm_fp32_fallback_ (settings this_)
  then force_layer_norm_fp32 (parsed_network env)
  else parsed_network env.

(** ** Sizes and shapes at binding time *)

(** The number of values [BindContextInput] takes a shape tensor to
    have: 1 for a scalar, else the first dimension of the input tensor
    ([None] when the tensor has no dimension to read). *)
Definition shape_size_of (trt_engine : ICudaEngine) (env : RunEnv) (input_name : string)
    (input_index : Z) : option Z :=
  if bool_decide (length (engine_getTensorShape trt_engine input_name) = 0%nat) then Some 1
  else to_int32 <$> head (GetShape (GetInput env input_index)).

(** An engine whose input [x] is a one-dimensional shape tensor. *)
Definition shape_input_engine : ICudaEngine :=
  {| getIOTensorNames := ["x"; "y"];
     getTensorIOMode := fun name => if bool_decide (name = "x") then kINPUT else kOUTPUT;
     isShapeInferenceIO := fun name => bool_decide (name = "x");
     engine_getTensorShape := fun _ => [2];
     getDeviceMemorySize := 0 |}.

(** An int32 tensor of shape [2] with data at address 1024. *)
Definition int32_pair_tensor : Tensor :=
  {| GetElementType := ONNX_TENSOR_ELEMENT_DATA_TYPE_INT32;
     GetShape := [2];
     GetTensorData := 1024 |}.

(** ** Traces and results of computations *)

(** A computation keeps a property of the list of calls made. *)
Definition keeps {A} (J : list Call -> Prop) (m : M RunWorld A) : Prop :=
  forall w, J (made w) -> J (made (snd (m w))).

(** What a computation returns, when it returns, satisfies [G]. *)
Definition yields {W A} (G : A -> Prop) (m : M W A) : Prop :=
  forall w a, fst (m w) = Returns a -> G a.

(** Success, or a failure status with the given code. *)
Definition ok_or (code : OrtErrorCode) (st : OrtStatusPtr) : Prop :=
  st = nullptr \/ exists msg, st = CreateStatus code msg.

Definition is_enqueue (c : Call) : bool :=
  match c with
  | enqueueV3 _ => true
  | _ => false
  end.

(** No inference has been launched. *)
Definition not_enqueued (cs : list Call) : Prop :=
  Forall (fun c => is_enqueue c = false) cs.


(** What the status a call of the compute function returns says about
    the calls it has made: success and [ORT_FAIL] come only after the
    enqueue, [ORT_EP_FAIL] only before it. *)
Definition status_matches_trace (stream : Addr) (st : OrtStatusPtr) (cs : list Call)
    : Prop :=
  match st with
  | nullptr | CreateStatus ORT_FAIL _ => enqueueV3 stream ∈ cs
  | CreateStatus ORT_EP_FAIL _ => not_enqueued cs
  end.

(** A property of the call list that survives every call other than an
    enqueue. *)
Definition closed_under_other_calls (J : list Call -> Prop) : Prop :=
  forall c cs, is_enqueue c = false -> J cs -> J (cs ++ [c]).

(** The calls [ComputeFunc] makes to hand device memory to the context
    when context memory is shared. *)
Definition context_memory_calls (sharing : bool) (n : Z) (p : Addr) : list Call :=
  if sharing then [Alloc n; setDeviceMemory p; Free p] else [].

(** How a call of the compute function went: it ended before the enqueue
    (then, if it returned, with [ORT_EP_FAIL]), or it made the
    context-memory calls and one enqueue (then, if it returned, with
    success or [ORT_FAIL]). *)
Definition compute_run (sharing : bool) (stream : Addr) (o : Outcome OrtStatusPtr)
    (cs : list Call) : Prop :=
  (not_enqueued cs
   /\ match o with
      | Returns st => exists msg, st = CreateStatus ORT_EP_FAIL msg
      | _ => True
      end)
  \/ (exists pre n p post,
        cs = pre ++ context_memory_calls sharing n p ++ [enqueueV3 stream] ++ post
        /\ not_enqueued pre /\ not_enqueued post
        /\ match o with
           | Returns st => ok_or ORT_FAIL st
           | _ => True
           end).

(** ** [CreateNodeComputeInfoFromPrecompiledEngine] and [Compile] *)

(** How an execution context gets its device memory, by the call that
    makes it: [createExecutionContext()],
    [createExecutionContextWithoutDeviceMemory()] and
    [createExecutionContext(ExecutionContextAllocationStrategy::kUSER_MANAGED)]. *)
Inductive ContextMemory := own_memory | without_device_memory | user_managed.

#[global] Instance ContextMemory_eq_dec : EqDecision ContextMemory.
Proof. solve_decision. Defined.

(** What the graph, the node and TensorRT answer when a node with a
    precompiled engine is compiled.  [loaded_engine] is what the local
    [trt_engine] holds once [GetEpContextFromGraph] has returned
    ([TensorRTCacheModelHandler] is declared in [onnx_ctx_model_helper.h],
    which is not among the sources). *)
Record PrecompiledEnv := {
  GetEpContextFromGraph_status : OrtStatusPtr;
  loaded_engine : option ICudaEngine;
  createExecutionContext_result : ContextMemory -> bool;   (* is the context non-null? *)
  OrtNode_GetName_result : string;
  graph_outputs : list (string * Z)   (* OrtGraph_GetIthOutputName, ...ElemType *)
}.

(** The members of the provider that hold the compiled nodes, beside
    [engines_].  The maps of engines and of contexts hold
    [std::unique_ptr]s: a slot that [operator[]] has made and that holds
    no engine is recorded in [empty_engine_slots], a context slot holds
    the way its context was made or [None]. *)
Record NodeTables := {
  empty_engine_slots : gset string;
  contexts_ : gmap string (option ContextMemory);
  input_info_ : gmap string (list (gmap string Z));
  output_info_ : gmap string (list (gmap string Z))
}.

Definition no_nodes : NodeTables :=
  {| empty_engine_slots := ∅; contexts_ := ∅; input_info_ := ∅; output_info_ := ∅ |}.

Definition with_max_ctx_mem_size (n : Z) (this_ : TensorrtExecutionProvider)
    : TensorrtExecutionProvider :=
  {| settings := settings this_;
     builder_ := builder_ this_;
     fp16_enable_ := fp16_enable_ this_;
     int8_enable_ := int8_enable_ this_;
     dla_enable_ := dla_enable_ this_;
     dla_core_ := dla_core_ this_;
     engines_ := engines_ this_;
     max_ctx_mem_size_ := n;
     alloc_ := alloc_ this_;
     dds_output_allocator_maps_ := dds_output_allocator_maps_ this_ |}.

Definition with_engines (es : gmap string ICudaEngine) (this_ : TensorrtExecutionProvider)
    : TensorrtExecutionProvider :=
  {| settings := settings this_;
     builder_ := builder_ this_;
     fp16_enable_ := fp16_enable_ this_;
     int8_enable_ := int8_enable_ this_;
     dla_enable_ := dla_enable_ this_;
     dla_core_ := dla_core_ this_;
     engines_ := es;
     max_ctx_mem_size_ := max_ctx_mem_size_ this_;
     alloc_ := alloc_ this_;
     dds_output_allocator_maps_ := dds_output_allocator_maps_ this_ |}.

(** "Create input/output to index maps": one turn of the loop over the
    I/O tensors of the engine, and the loop. *)
Definition index_tensor (trt_engine : ICudaEngine) (input_map output_map : gmap string Z)
    (maps : gmap string Z * gmap string Z) (name : string) : gmap string Z * gmap string Z :=
  let '(input_indexes, output_indexes) := maps in
  if bool_decide (getTensorIOMode trt_engine name = kINPUT) then
    match input_map !! name with
    | Some index => (<[name := index]> input_indexes, output_indexes)
    | None => maps
    end
  else
    match output_map !! name with
    | Some index => (input_indexes, <[name := index]> output_indexes)
    | None => maps
    end.

Definition index_maps (trt_engine : ICudaEngine) (input_map output_map : gmap string Z)
    : gmap string Z * gmap string Z :=
  foldl (index_tensor trt_engine input_map output_map) (∅, ∅) (getIOTensorNames trt_engine).

(** "Create output to type map". *)
Definition output_types_of (outputs : list (string * Z)) : gmap string Z :=
  foldl (fun types output => <[fst output := snd output]> types) ∅ outputs.

(** [map.emplace(key, value)]: nothing happens when the key is there. *)
Definition emplace {V} (key : string) (value : V) (m : gmap string V) : gmap string V :=
  match m !! key with
  | Some _ => m
  | None => <[key := value]> m
  end.

(** [map[key].push_back(value)]. *)
Definition push_back_at {V} (key : string) (value : V) (m : gmap string (list V))
    : gmap string (list V) :=
  <[key := default [] (m !! key) ++ [value]]> m.

Definition Nodes : Type := TensorrtExecutionProvider * NodeTables.

(** [TensorrtExecutionProvider::CreateNodeComputeInfoFromPrecompiledEngine],
    up to the point where the three callbacks are stored.  The engine
    pointer is dereferenced unchecked once the status is seen to be
    null. *)
Definition CreateNodeComputeInfoFromPrecompiledEngine (NV_TENSORRT_MAJOR : Z)
    (env : PrecompiledEnv) (input_map output_map : gmap string Z)
    : M Nodes OrtStatusPtr :=
  fun '(this_, tables) =>
    let status := GetEpContextFromGraph_status env in
    if is_failure status then
      (Returns (CreateStatus ORT_EP_FAIL (GetErrorMessage status)), (this_, tables))
    else
      match loaded_engine env with
      | None => (Undefined, (this_, tables))
      | Some trt_engine =>
          (* Build context *)
          let sharing := context_memory_sharing_enable_ (settings this_) in
          let mem_size := getDeviceMemorySize trt_engine in
          let this1 :=
            if sharing && bool_decide (mem_size > max_ctx_mem_size_ this_)
            then with_max_ctx_mem_size mem_size this_ else this_ in
          let how :=
            if sharing then
              if bool_decide (NV_TENSORRT_MAJOR < 10) then without_device_memory
              else user_managed
            else own_memory in
          let fused_node_name := OrtNode_GetName_result env in
          if negb (createExecutionContext_result env how) then
            (Returns (CreateStatus ORT_EP_FAIL
                        ("TensorRT EP could not build execution context for fused node: "
                         +:+ fused_node_name)),
             (this1, tables))
          else
            let '(input_indexes, output_indexes) :=
              index_maps trt_engine input_map output_map in
            let output_types := output_types_of (graph_outputs env) in
            (* Save TRT engine, TRT context and input/output info to map *)
            let this2 :=
              if bool_decide (fused_node_name ∈ empty_engine_slots tables) then this1
              else with_engines (emplace fused_node_name trt_engine (engines_ this1)) this1 in
            (Returns nullptr,
             (this2,
              {| empty_engine_slots := empty_engine_slots tables;
                 contexts_ := emplace fused_node_name (Some how) (contexts_ tables);
                 input_info_ := push_back_at fused_node_name input_indexes (input_info_ tables);
                 output_info_ :=
                   push_back_at fused_node_name output_types
                     (push_back_at fused_node_name output_indexes (output_info_ tables)) |}))
      end.

(** The [CreateFunctionStateFunc] lambda: the state of the node called
    [node_name], read from the provider with [operator[]], which makes
    the slots that are missing. *)
Definition CreateFunctionStateFunc (node_name : string) : M Nodes TensorrtShortFuncState :=
  fun '(this_, tables) =>
    (Returns {| fused_node_name := node_name;
                engine := engines_ this_ !! node_name;
                input_info := default [] (input_info_ tables !! node_name);
                output_info := default [] (output_info_ tables !! node_name);
                context_memory_sharing_enable :=
                  context_memory_sharing_enable_ (settings this_) |},
     (this_,
      {| empty_engine_slots :=
           if bool_decide (is_Some (engines_ this_ !! node_name)) then empty_engine_slots tables
           else {[ node_name ]} ∪ empty_engine_slots tables;
         contexts_ :=
           match contexts_ tables !! node_name with
           | Some _ => contexts_ tables
           | None => <[node_name := None]> (contexts_ tables)
           end;
         input_info_ :=
           match input_info_ tables !! node_name with
           | Some _ => input_info_ tables
           | None => <[node_name := []]> (input_info_ tables)
           end;
         output_info_ :=
           match output_info_ tables !! node_name with
           | Some _ => output_info_ tables
           | None => <[node_name := []]> (output_info_ tables)
           end |})).




Section CompileNodes.
Variables NV_TENSORRT_MAJOR NV_TENSORRT_MINOR : Z.
Variable BuilderFlag_bit : BuilderFlag -> Z.
Variable NetworkDefinitionCreationFlag_bit : NetworkDefinitionCreationFlag -> Z.
Variable GetNumProfiles : ProfileShapes -> Z.
Variable GetCachePath : string -> string -> string.
Variable iteration_order : ShapeRangesMap -> list string.


End CompileNodes.

(** The provider holds nothing under a node name. *)
Definition unknown_node (name : string) (nodes : Nodes) : Prop :=
  engines_ (fst nodes) !! name = None
  /\ (name ∉ empty_engine_slots (snd nodes))
  /\ contexts_ (snd nodes) !! name = None
  /\ input_info_ (snd nodes) !! name = None
  /\ output_info_ (snd nodes) !! name = None.

(** The call that makes the execution context. *)
Definition context_memory_of (NV_TENSORRT_MAJOR : Z) (this_ : TensorrtExecutionProvider)
    : ContextMemory :=
  if context_memory_sharing_enable_ (settings this_) then
    if bool_decide (NV_TENSORRT_MAJOR < 10) then without_device_memory else user_managed
  else own_memory.

(** The graph offers a loadable engine and the context can be made. *)
Definition loads (NV_TENSORRT_MAJOR : Z) (env : PrecompiledEnv)
    (this_ : TensorrtExecutionProvider) (trt_engine : ICudaEngine) : Prop :=
  GetEpContextFromGraph_status env = nullptr
  /\ loaded_engine env = Some trt_engine
  /\ createExecutionContext_result env (context_memory_of NV_TENSORRT_MAJOR this_) = true.

(** A node with a precompiled engine mapping [x] to [y], and a second
    one of the same name with another engine. *)
Definition x_to_y_node : PrecompiledEnv :=
  {| GetEpContextFromGraph_status := nullptr;
     loaded_engine := Some x_to_y_engine;
     createExecutionContext_result := fun _ => true;
     OrtNode_GetName_result := "TensorrtExecutionProvider_TRTKernel_graph_0";
     graph_outputs := [("y", ONNX_TENSOR_ELEMENT_DATA_TYPE_FLOAT)] |}.

Definition shape_input_node : PrecompiledEnv :=
  {| GetEpContextFromGraph_status := nullptr;
     loaded_engine := Some shape_input_engine;
     createExecutionContext_result := fun _ => true;
     OrtNode_GetName_result := "TensorrtExecutionProvider_TRTKernel_graph_0";
     graph_outputs := [("y", ONNX_TENSOR_ELEMENT_DATA_TYPE_INT64)] |}.

(** A node whose engine cannot be loaded. *)
Definition unloadable_node : PrecompiledEnv :=
  {| GetEpContextFromGraph_status :=
       CreateStatus ORT_FAIL "TensorRT EP could not deserialize engine from binary data";
     loaded_engine := None;
     createExecutionContext_result := fun _ => true;
     OrtNode_GetName_result := "TensorrtExecutionProvider_TRTKernel_graph_1";
     graph_outputs := [] |}.



(** ** What explicit profiles set *)

(** The dimensions profile [i] is given for an execution tensor from one
    of the three maps: a dynamic dimension takes the value the map holds
    for it, cast to 32 bits; every other dimension stays. *)
Definition profile_dims (shapes : ProfileShapes) (input : ITensor) (i : nat) : list Z :=
  imap (fun j d =>
          if bool_decide (d = -1)
          then to_int32 (default 0 (shape_lookup shapes (getName input) i j))
          else d)
       (getDimensions input).

(** The three settings profile [i] gets for an execution tensor. *)
Definition profile_settings (profile_min_shapes profile_max_shapes profile_opt_shapes
    : ProfileShapes) (input : ITensor) (i : nat) : list ProfileSetting :=
  [setDimensions (getName input) kMIN (profile_dims profile_min_shapes input i);
   setDimensions (getName input) kMAX (profile_dims profile_max_shapes input i);
   setDimensions (getName input) kOPT (profile_dims profile_opt_shapes input i)].

(** The network has an input of dynamic shape. *)
Definition has_dynamic_input (net : INetworkDefinition) : bool :=
  bool_decide (Exists (fun input => is_dynamic input = true) (inputs net)).

(** What one turn of the loop over the dimensions of an execution tensor
    hands back for dimension [j] of value [d] in profile [i]. *)
Definition profile_triple (profile_min_shapes profile_max_shapes profile_opt_shapes
    : ProfileShapes) (input : ITensor) (i j : nat) (d : Z) : Z * Z * Z :=
  if bool_decide (d = -1)
  then (to_int32 (default 0 (shape_lookup profile_min_shapes (getName input) i j)),
        to_int32 (default 0 (shape_lookup profile_max_shapes (getName input) i j)),
        to_int32 (default 0 (shape_lookup profile_opt_shapes (getName input) i j)))
  else (d, d, d).

(** Explicit profiles whose batch sizes do not fit 32 bits. *)
Definition wide_profiles : Profiles :=
  {| trt_profiles := [[]; []]; input_explicit_shape_ranges := ∅ |}.

Definition batch_input : ITensor :=
  {| getName := "x"; getDimensions := [-1; 768]; isShapeTensor := false |}.

Definition wide_min_shapes : ProfileShapes := {[ "x" := [[1]; [4294967297]] ]}.
Definition wide_max_shapes : ProfileShapes := {[ "x" := [[8]; [4294967304]] ]}.
Definition wide_opt_shapes : ProfileShapes := {[ "x" := [[4]; [4294967300]] ]}.


(* ===================================================================== *)
(** * Part II.  Theorems                                                 *)
(* ===================================================================== *)

(** ** The provider shell *)

(** C9.  Whatever graph it is handed, [GetCapability] leaves the cells of
    its two out-parameters, the subgraph count and the indexed-subgraph
    array, as they were: no subgraph is claimed through this callback. *)
Theorem GetCapability_leaves_outputs_unwritten :
  forall (Provider Graph : Type) (this_ : Provider) (graph : Graph) (out : CapabilityOut),
    GetCapability this_ graph out = out
    /\ cnt_cell (GetCapability this_ graph out) = cnt_cell out
    /\ indexed_sub_graph_cell (GetCapability this_ graph out) = indexed_sub_graph_cell out.
Proof. intros. unfold GetCapability. auto. Qed.

Lemma CopyTensor_succeeds src sdt smt dst tdt count stream :
  fst (CopyTensor src sdt smt dst tdt count stream) = nullptr.
Proof. unfold CopyTensor. repeat case_match; reflexivity. Qed.

(** C6, as stated: copying from pinned host memory to the GPU on a stream
    is one asynchronous copy, with no synchronize before it, so the
    contract whose pinned clause asks for a synchronize before every copy
    fails there. *)
Lemma CopyTensor_pinned_to_gpu_not_synchronized :
  ~ CopyTensor_contract (synchronizes_before_copy 7)
      100 OrtMemoryInfoDeviceType_CPU OrtMemoryType_CUDA_PINNED
      200 OrtMemoryInfoDeviceType_GPU 16 7.
Proof.
  intros (_ & _ & _ & Hpinned).
  specialize (Hpinned eq_refl []
                (cudaMemcpyAsync 200 100 16 cudaMemcpyHostToDevice 7) [] eq_refl eq_refl).
  by apply not_elem_of_nil in Hpinned.
Qed.

(** C6, amended.  A GPU-to-GPU copy between two addresses is one
    [cudaMemcpyDeviceToDevice] copy, asynchronous on the stream when one
    is supplied, and no call when the two addresses are the same; a
    CPU-to-GPU or GPU-to-CPU copy is the asynchronous call when a stream
    is supplied and otherwise the synchronous call followed by a stream
    synchronize; and a copy out of CUDA-pinned memory synchronizes the
    stream before it copies exactly when the device types are none of
    these three pairs and a stream is supplied: it then synchronizes
    that stream and copies with [memcpy], also when the target is the
    GPU and the source device is neither CPU nor GPU, whereas in the
    three pairs the copy is the first call made.  A copy of any other
    memory outside the three pairs is the [memcpy] alone. *)
Theorem CopyTensor_contract_host_pinned :
  forall src source_device_type source_mem_type dst target_device_type count stream,
    CopyTensor_contract
      (pinned_copy src source_device_type dst target_device_type count stream)
      src source_device_type source_mem_type dst target_device_type count stream
    /\ (source_mem_type <> OrtMemoryType_CUDA_PINNED ->
        ~ gpu_pair source_device_type target_device_type ->
        snd (CopyTensor src source_device_type source_mem_type dst target_device_type
               count stream)
        = [memcpy dst src count]).
Proof.
  intros src sdt smt dst tdt count stream. unfold CopyTensor_contract.
  split; [split; [|split; [|split]]|].
  5: { intros Hmem Hother. unfold CopyTensor.
       destruct sdt, tdt; simpl;
         try (exfalso; apply Hother; unfold gpu_pair; by eauto 6);
         rewrite (bool_decide_eq_false_2 (smt = OrtMemoryType_CUDA_PINNED)) by done;
         by rewrite andb_false_r. }
  - intros -> ->. unfold CopyTensor, device_to_device_copy. simpl. split.
    + repeat case_bool_decide; congruence.
    + intros c Hc.
      repeat case_bool_decide; simpl in Hc;
        repeat match goal with
               | H : _ ∈ [] |- _ => by apply not_elem_of_nil in H
               | H : _ ∈ _ :: _ |- _ => apply elem_of_cons in H as [-> | H]
               end; reflexivity.
  - intros -> ->. unfold CopyTensor, async_or_sync_copy. simpl. by case_bool_decide.
  - intros -> ->. unfold CopyTensor, async_or_sync_copy. simpl. by case_bool_decide.
  - intros ->. split.
    + intros Hpair pre c post Heq Hcopy. unfold CopyTensor in Heq.
      destruct Hpair as [[-> ->]|[[-> ->]|[-> ->]]]; simpl in Heq;
        repeat case_bool_decide;
        destruct pre as [|c1 [|c2 [|c3 pre]]]; simplify_eq/=; done.
    + intros Hother.
      assert (snd (CopyTensor src sdt OrtMemoryType_CUDA_PINNED dst tdt count stream)
              = (if bool_decide (stream <> null) then [cudaStreamSynchronize stream] else [])
                ++ [memcpy dst src count]) as Hcs.
      { unfold CopyTensor.
        destruct sdt, tdt; simpl;
          try (exfalso; apply Hother; unfold gpu_pair; by eauto 6);
          by rewrite andb_true_r. }
      split; [exact Hcs|]. intros Hstream. rewrite Hcs.
      rewrite bool_decide_eq_true_2 by done.
      intros pre c post Heq Hcopy.
      destruct pre as [|c1 [|c2 [|c3 pre]]]; simplify_eq/=.
      apply elem_of_cons. by left.
Qed.

(** C6, amended, on a copy out of pinned memory to the GPU whose source
    device is neither CPU nor GPU, with a stream: the stream is
    synchronized, then the bytes are copied with [memcpy]. *)
Lemma CopyTensor_contract_host_pinned_witness :
  snd (CopyTensor 100 OrtMemoryInfoDeviceType_other OrtMemoryType_CUDA_PINNED
         200 OrtMemoryInfoDeviceType_GPU 16 7)
  = [cudaStreamSynchronize 7; memcpy 200 100 16].
Proof.
  refine (proj1 (proj2 (proj2 (proj2 (proj2 (proj1
    (CopyTensor_contract_host_pinned 100 OrtMemoryInfoDeviceType_other
       OrtMemoryType_CUDA_PINNED 200 OrtMemoryInfoDeviceType_GPU 16 7)))) eq_refl) _)).
  intros [[H _]|[[H _]|[H _]]]; discriminate H.
Defined.

(** ** Refit *)

(** C3, as stated: with [path_check] off, an absolute model path that
    exists is handed to the refitter and the engine is refitted. *)
Lemma RefitEngine_unchecked_absolute_path_refits :
  ~ refuses_unsafe_path 10 IsAbsolutePath_spec IsRelativePathToParentPath_spec
      (fun p => p) obliging_refit_env
      "model.onnx" "/srv/models" "trt.stripped.engine" false false false.
Proof.
  unfold refuses_unsafe_path. intros H.
  destruct H as (Hfail & _); [left; reflexivity|].
  vm_compute in Hfail. discriminate.
Qed.

Section RefitTheorems.
Variable NV_TENSORRT_MAJOR : Z.
Variables IsAbsolutePath IsRelativePathToParentPath : string -> bool.
Variable GetWeightRefittedEnginePath : string -> string.

(** C3, amended.  For every call of [RefitEngine] that asks for the path
    check ([path_check] is true), refit proceeds only if the model path
    P is relative and has no [..] component: when P is absolute or
    climbs above its parent, the call returns a failure status without
    creating a refitter or refitting the engine. *)
Theorem RefitEngine_path_check_refuses_unsafe_path :
  forall env onnx_model_filename onnx_model_folder_path weight_stripped_engine_cath_path
         serialize_refitted_engine detailed_build_log path_check,
    path_check = true ->
    refuses_unsafe_path NV_TENSORRT_MAJOR IsAbsolutePath IsRelativePathToParentPath
      GetWeightRefittedEnginePath env onnx_model_filename onnx_model_folder_path
      weight_stripped_engine_cath_path path_check serialize_refitted_engine
      detailed_build_log.
Proof.
  intros env file folder cache ser log path_check ->.
  unfold refuses_unsafe_path, RefitEngine. intros Hunsafe.
  case_bool_decide; simpl; [|by repeat split; try apply not_elem_of_nil].
  destruct (IsAbsolutePath (path_append folder file)) eqn:Habs; simpl.
  { by repeat split; try apply not_elem_of_nil. }
  destruct Hunsafe as [?| ->]; [done|]. simpl.
  by repeat split; try apply not_elem_of_nil.
Qed.
End RefitTheorems.

(** C3, amended, on the path [/srv/models/model.onnx] with the check on. *)
Lemma RefitEngine_path_check_refuses_unsafe_path_witness :
  refuses_unsafe_path 10 IsAbsolutePath_spec IsRelativePathToParentPath_spec
    (fun p => p) obliging_refit_env
    "model.onnx" "/srv/models" "trt.stripped.engine" true false false.
Proof.
  apply (RefitEngine_path_check_refuses_unsafe_path 10 IsAbsolutePath_spec
           IsRelativePathToParentPath_spec (fun p => p) obliging_refit_env
           "model.onnx" "/srv/models" "trt.stripped.engine" false false true).
  reflexivity.
Defined.

Example path_append_joins : path_append "models" "../model.onnx" = "models/../model.onnx".
Proof. reflexivity. Qed.

Example parent_path_is_refused :
  RefitEngine 10 IsAbsolutePath_spec IsRelativePathToParentPath_spec (fun p => p)
    obliging_refit_env "../model.onnx" "models" "trt.stripped.engine" true false false
  = (CreateStatus ORT_EP_FAIL
       "The ONNX model path has '..'. For security purpose, it's not allowed to point outside the directory.",
     []).
Proof. reflexivity. Qed.

Example unchecked_refit_calls :
  RefitEngine 10 IsAbsolutePath_spec IsRelativePathToParentPath_spec (fun p => p)
    obliging_refit_env "model.onnx" "/srv/models" "trt.stripped.engine"
    false false false
  = (nullptr,
     [filesystem_exists "/srv/models/model.onnx"; GetTensorrtLogger false;
      createInferRefitter; createParserRefitter; refitFromFile "/srv/models/model.onnx";
      refitCudaEngine]).
Proof. reflexivity. Qed.

(** ** The FP16 layer-norm guard *)

Lemma guarded_pow_reduce_at ls st a b idx :
  guarded ls st a b -> pow_reduce_at st idx <-> pow_reduce_at ls idx.
Proof.
  intros [Hlen Hst]. unfold pow_reduce_at, is_pow_then_reduce. split.
  - intros (x & y & Hx & Hy & Hxy).
    destruct (lookup_lt_is_Some_2 ls idx) as [x0 Hx0];
      [apply lookup_lt_Some in Hx; lia|].
    destruct (lookup_lt_is_Some_2 ls (S idx)) as [y0 Hy0];
      [apply lookup_lt_Some in Hy; lia|].
    destruct (Hst _ _ Hx0) as (x' & Hx' & Htx & _).
    destruct (Hst _ _ Hy0) as (y' & Hy' & Hty & _).
    simplify_eq. exists x0, y0. by rewrite <- Htx, <- Hty.
  - intros (x & y & Hx & Hy & Hxy).
    destruct (Hst _ _ Hx) as (x' & Hx' & Htx & _).
    destruct (Hst _ _ Hy) as (y' & Hy' & Hty & _).
    exists x', y'. by rewrite Htx, Hty.
Qed.

Lemma force_fp32_at_guarded ls st a b :
  (a <= b)%nat -> guarded ls st a b -> guarded ls (force_fp32_at st b) a (S b).
Proof.
  intros Hab Hg. pose proof Hg as [Hlen Hst]. unfold force_fp32_at.
  destruct (st !! b) as [x|] eqn:Hx; cycle 1.
  { split; [done|]. intros i l Hi. destruct (Hst i l Hi) as (l' & ? & ? & Hpin & Hsame).
    exists l'. split_and!; try done.
    - intros (idx & Hidx & Hpr & Hi'). apply Hpin. exists idx. split; [|done].
      destruct (decide (idx = b)) as [->|]; [|lia].
      apply (guarded_pow_reduce_at ls st a b) in Hpr as (? & ? & ? & _); [|done]. congruence.
    - intros Hnot. apply Hsame. intros (idx & ? & ? & ?). apply Hnot. exists idx.
      split; [lia|done]. }
  destruct (st !! S b) as [y|] eqn:Hy; cycle 1.
  { split; [done|]. intros i l Hi. destruct (Hst i l Hi) as (l' & ? & ? & Hpin & Hsame).
    exists l'. split_and!; try done.
    - intros (idx & Hidx & Hpr & Hi'). apply Hpin. exists idx. split; [|done].
      destruct (decide (idx = b)) as [->|]; [|lia].
      apply (guarded_pow_reduce_at ls st a b) in Hpr as (? & ? & ? & ? & _); [|done].
      congruence.
    - intros Hnot. apply Hsame. intros (idx & ? & ? & ?). apply Hnot. exists idx.
      split; [lia|done]. }
  destruct (is_pow_then_reduce x y) eqn:Hxy.
  - (* the pair is pinned *)
    assert (pow_reduce_at ls b) as Hpr.
    { apply (guarded_pow_reduce_at ls st a b); [done|]. by exists x, y. }
    split; [by rewrite !length_insert|]. intros i l Hi.
    destruct (Hst i l Hi) as (l' & Hl' & Hty & Hpin & Hsame).
    destruct (decide (i = S b)) as [->|Hne1].
    + exists (pin_fp32 y). rewrite list_lookup_insert_eq
        by (rewrite length_insert; by eapply lookup_lt_Some).
      simplify_eq. split_and!; try done.
      intros Hnot. exfalso. apply Hnot. exists b. split; [lia|]. auto.
    + rewrite list_lookup_insert_ne by done.
      destruct (decide (i = b)) as [->|Hne2].
      * exists (pin_fp32 x). rewrite list_lookup_insert_eq by (by eapply lookup_lt_Some).
        simplify_eq. split_and!; try done.
        intros Hnot. exfalso. apply Hnot. exists b. split; [lia|]. auto.
      * rewrite list_lookup_insert_ne by done. exists l'. split_and!; try done.
        -- intros (idx & Hidx & Hpr' & Hi'). apply Hpin. exists idx. split; [lia|done].
        -- intros Hnot. apply Hsame. intros (idx & ? & ? & ?). apply Hnot. exists idx.
           split; [lia|done].
  - (* the pair is left alone *)
    split; [done|]. intros i l Hi. destruct (Hst i l Hi) as (l' & ? & ? & Hpin & Hsame).
    exists l'. split_and!; try done.
    + intros (idx & Hidx & Hpr & Hi'). apply Hpin. exists idx. split; [|done].
      destruct (decide (idx = b)) as [->|]; [|lia].
      apply (guarded_pow_reduce_at ls st a b) in Hpr as (x' & y' & ? & ? & ?); [|done].
      simplify_eq. congruence.
    + intros Hnot. apply Hsame. intros (idx & ? & ? & ?). apply Hnot. exists idx.
      split; [lia|done].
Qed.

Lemma foldl_force_fp32_at_guarded ls a k :
  guarded ls (foldl force_fp32_at ls (seq a k)) a (a + k).
Proof.
  induction k as [|k IH].
  - simpl. split; [done|]. intros i l Hi. exists l. split_and!; try done.
    intros (idx & ? & _). lia.
  - rewrite seq_S, foldl_app. simpl. rewrite Nat.add_succ_r.
    apply force_fp32_at_guarded; [lia|done].
Qed.

(** What the guard does: the layers keep their number and their types;
    a layer of a Pow-Reduce pair whose first index is at least 1 has its
    precision and its output type pinned to FP32; every other layer is
    left as it is. *)
Lemma force_layer_norm_fp32_pins net i l :
  layers net !! i = Some l ->
  exists l',
    layers (force_layer_norm_fp32 net) !! i = Some l' /\ getType l' = getType l
    /\ ((exists idx, (1 <= idx)%nat /\ pow_reduce_at (layers net) idx
                     /\ (i = idx \/ i = S idx)) -> pinned l')
    /\ (~ (exists idx, (1 <= idx)%nat /\ pow_reduce_at (layers net) idx
                       /\ (i = idx \/ i = S idx)) -> l' = l).
Proof.
  intros Hi. unfold force_layer_norm_fp32, layer_norm_indices, getNbLayers. simpl.
  destruct (foldl_force_fp32_at_guarded (layers net) 1
              (Z.to_nat (Z.of_nat (length (layers net)) - 1 - 1))) as [_ Hg].
  destruct (Hg i l Hi) as (l' & Hl' & Hty & Hpin & Hsame).
  exists l'. split_and!; try done.
  - intros (idx & Hidx & Hpr & Hi'). apply Hpin. exists idx. split; [|done].
    destruct Hpr as (? & ? & _ & Hnext & _). apply lookup_lt_Some in Hnext. lia.
  - intros Hnot. apply Hsame. intros (idx & ? & ? & ?). apply Hnot. exists idx.
    split; [lia|done].
Qed.

(** C4.  The guard walks the pairs (idx, idx + 1) from idx = 1 on, so the
    pair made of layer 0 and layer 1 is never looked at: in a network
    that starts with a Pow layer followed by a Reduce layer, compiled
    with [fp16_enable] and [layer_norm_fp32_fallback] both set, neither
    layer has its precision or its output type pinned. *)
Theorem layer_norm_guard_skips_layer_0 :
  let r := CreateNodeComputeInfoFromGraph 10 0 BuilderFlag_bit_10
             NetworkDefinitionCreationFlag_bit_10 GetNumProfiles_spec path_append
             keys_in_order (build_env_of pow_reduce_network)
             (provider_with fp16_fallback_settings true) in
  fp16_enable_ (provider_with fp16_fallback_settings true) = true
  /\ layer_norm_fp32_fallback_ fp16_fallback_settings = true
  /\ (exists layer next_layer,
        layers pow_reduce_network !! 0%nat = Some layer
        /\ layers pow_reduce_network !! 1%nat = Some next_layer
        /\ is_pow_then_reduce layer next_layer = true)
  /\ fst r = Returns nullptr
  /\ layers (trt_network (snd r))
     = [plain_layer (kELEMENTWISE kPOW); plain_layer kREDUCE; plain_layer LayerType_other]
  /\ precision <$> layers (trt_network (snd r)) = [None; None; None].
Proof.
  repeat split; try reflexivity.
  eexists _, _. repeat split; reflexivity.
Qed.

(** ** The binding helpers *)

Lemma bind_Returns {W A B} (m : M W A) (k : A -> M W B) (w w' : W) (a : A) :
  m w = (Returns a, w') -> (m ≫= k) w = k a w'.
Proof. intros H. unfold mbind, M_bind. by rewrite H. Qed.

Lemma GetElementCount_zero (shape : list Z) :
  0 ∈ shape -> Forall (fun d => 0 <= d) shape -> GetElementCount shape = 0.
Proof.
  intros Hin Hnonneg. unfold GetElementCount.
  rewrite bool_decide_eq_false_2.
  - induction shape as [|d shape IH]; [by apply not_elem_of_nil in Hin|].
    apply elem_of_cons in Hin as [<- | Hin]; simpl; [lia|].
    apply Forall_cons in Hnonneg as [_ Hnonneg]. rewrite IH by done. lia.
  - rewrite Exists_exists. intros (d & Hd & Hneg).
    rewrite Forall_forall in Hnonneg. specialize (Hnonneg d Hd). lia.
Qed.

(** C10.  For a data-dependent-shape output of an element type that
    [BindKernelOutput] copies, whose recorded shape contains a zero
    dimension (and so has element count 0), the function asks the kernel
    context for the output tensor of that shape and returns success; the
    request is the only call it makes and nothing else of the world
    changes, so no device copy out of the allocator's buffer is made. *)
Theorem BindKernelOutput_empty_tensor_not_copied :
  forall NV_TENSORRT_MAJOR env allocator_map output_name output_index output_type
         allocator w,
    allocator_map !! output_name = Some allocator ->
    is_Some (copy_case_size NV_TENSORRT_MAJOR output_type) ->
    0 ∈ getOutputShape allocator ->
    Forall (fun d => 0 <= d) (getOutputShape allocator) ->
    BindKernelOutput NV_TENSORRT_MAJOR env allocator_map output_name output_index
      output_type w
    = (Returns nullptr,
       after_call (KernelContext_GetOutput output_index (getOutputShape allocator)) w).
Proof.
  intros major env m name idx ty a w Hm [size Hsize] Hzero Hnonneg.
  unfold BindKernelOutput. rewrite Hm, Hsize.
  rewrite (GetElementCount_zero _ Hzero Hnonneg).
  rewrite andb_false_r. reflexivity.
Qed.

(** C10, on a float32 output whose recorded shape is [0, 2]. *)
Lemma BindKernelOutput_empty_tensor_not_copied_witness :
  BindKernelOutput 10 (run_env_of float_tensor [2; 3] false false) empty_y_allocators
    "y" 0 ONNX_TENSOR_ELEMENT_DATA_TYPE_FLOAT empty_world
  = (Returns nullptr, after_call (KernelContext_GetOutput 0 [0; 2]) empty_world).
Proof.
  apply (BindKernelOutput_empty_tensor_not_copied 10
           (run_env_of float_tensor [2; 3] false false) empty_y_allocators "y" 0
           ONNX_TENSOR_ELEMENT_DATA_TYPE_FLOAT
           {| getBuffer := 4096; getOutputShape := [0; 2] |} empty_world).
  - reflexivity.
  - by eexists.
  - simpl. by left.
  - simpl. repeat constructor; lia.
Defined.

Lemma for_each_at {W} (shapes : list Z) (f : Z -> Z) (n k : nat) (w : W) :
  (k + n <= length shapes)%nat ->
  for_each (seq k n) (fun j => d ← at_ shapes j; mret (f d)) w
  = (Returns (f <$> take n (drop k shapes)), w).
Proof.
  revert k. induction n as [|n IH]; intros k Hlen; simpl.
  - reflexivity.
  - destruct (lookup_lt_is_Some_2 shapes k) as [d Hd]; [lia|].
    erewrite bind_Returns; cycle 1.
    { erewrite bind_Returns; [reflexivity|]. unfold at_. by rewrite Hd. }
    erewrite bind_Returns; [|apply IH; lia].
    unfold mret, M_ret.
    rewrite (drop_S _ _ _ Hd). reflexivity.
Qed.

(** An execution tensor whose shape is set: the call is made, and the
    switch on the element type decides between binding and failing. *)
Lemma BindContextInput_execution_tensor NV_TENSORRT_MAJOR env trt_engine input_name
    input_index w :
  let input_tensor := GetInput env input_index in
  let w1 := after_call (setInputShape input_name (input_dims env input_name input_index)) w in
  isShapeInferenceIO trt_engine input_name = false ->
  (length (context_getTensorShape env input_name) <= length (GetShape input_tensor))%nat ->
  setInputShape_result env input_name (input_dims env input_name input_index) = true ->
  BindContextInput NV_TENSORRT_MAJOR env trt_engine input_name input_index w
  = if has_input_case NV_TENSORRT_MAJOR (GetElementType input_tensor) then
      (data ← CASE_GET_INPUT_TENSOR env input_tensor
                (GetElementCount (GetShape input_tensor));
       call (setTensorAddress input_name (DeviceAddress data));;
       mret nullptr) w1
    else
      (Returns (CreateStatus ORT_EP_FAIL
                  (unsupported_input_message (GetElementType input_tensor))), w1).
Proof.
  intros t w1 Hexec Hlen Hshape.
  unfold BindContextInput. rewrite Hexec.
  erewrite bind_Returns; [|by apply for_each_at].
  rewrite drop_0. fold (input_dims env input_name input_index).
  unfold mbind at 1, M_bind at 1. simpl. rewrite Hshape. simpl.
  fold t. by destruct (has_input_case NV_TENSORRT_MAJOR (GetElementType t)).
Qed.

Lemma has_input_case_double_int64 NV_TENSORRT_MAJOR tensor_type :
  tensor_type = ONNX_TENSOR_ELEMENT_DATA_TYPE_DOUBLE
  \/ (tensor_type = ONNX_TENSOR_ELEMENT_DATA_TYPE_INT64 /\ NV_TENSORRT_MAJOR < 10) ->
  has_input_case NV_TENSORRT_MAJOR tensor_type = false.
Proof.
  unfold has_input_case.
  intros [-> | [-> Hmajor]].
  - repeat (rewrite bool_decide_eq_false_2 by discriminate); simpl.
    by rewrite andb_false_r.
  - repeat (rewrite bool_decide_eq_false_2 by discriminate); simpl.
    by rewrite bool_decide_eq_false_2 by lia.
Qed.

(** The directly bound types: the tensor's own data is bound when it is
    not null and the tensor is not empty. *)
Lemma BindContextInput_binds_directly NV_TENSORRT_MAJOR env trt_engine input_name
    input_index w :
  let input_tensor := GetInput env input_index in
  isShapeInferenceIO trt_engine input_name = false ->
  (length (context_getTensorShape env input_name) <= length (GetShape input_tensor))%nat ->
  setInputShape_result env input_name (input_dims env input_name input_index) = true ->
  has_input_case NV_TENSORRT_MAJOR (GetElementType input_tensor) = true ->
  GetTensorData input_tensor <> null ->
  GetElementCount (GetShape input_tensor) > 0 ->
  BindContextInput NV_TENSORRT_MAJOR env trt_engine input_name input_index w
  = (Returns nullptr,
     after_call (setTensorAddress input_name (DeviceAddress (GetTensorData input_tensor)))
       (after_call (setInputShape input_name (input_dims env input_name input_index)) w)).
Proof.
  intros t Hexec Hlen Hshape Hcase Hdata Hcount.
  rewrite BindContextInput_execution_tensor by done. fold t. rewrite Hcase.
  unfold CASE_GET_INPUT_TENSOR. fold t.
  rewrite !bool_decide_eq_true_2 by done. reflexivity.
Qed.

(** C2.  The two cast labels of the switch in [BindContextInput] are
    commented out: for an execution-tensor input of element type float64,
    or of type int64 on a builder-major below 10, the function sets the
    input shape and then returns the failure status of the default label
    that names the type; it allocates no scratch buffer, casts nothing
    and binds no address. *)
Theorem BindContextInput_double_and_narrow_int64_unsupported :
  forall NV_TENSORRT_MAJOR env trt_engine input_name input_index w,
    let tensor_type := GetElementType (GetInput env input_index) in
    isShapeInferenceIO trt_engine input_name = false ->
    tensor_type = ONNX_TENSOR_ELEMENT_DATA_TYPE_DOUBLE
    \/ (tensor_type = ONNX_TENSOR_ELEMENT_DATA_TYPE_INT64 /\ NV_TENSORRT_MAJOR < 10) ->
    (length (context_getTensorShape env input_name)
     <= length (GetShape (GetInput env input_index)))%nat ->
    setInputShape_result env input_name (input_dims env input_name input_index) = true ->
    BindContextInput NV_TENSORRT_MAJOR env trt_engine input_name input_index w
    = (Returns (CreateStatus ORT_EP_FAIL (unsupported_input_message tensor_type)),
       after_call (setInputShape input_name (input_dims env input_name input_index)) w).
Proof.
  intros major env eng name idx w ty Hexec Hty Hlen Hshape.
  rewrite BindContextInput_execution_tensor by done.
  fold ty. by rewrite (has_input_case_double_int64 major ty Hty).
Qed.

(** C2, on a float64 tensor of shape [2, 3]. *)
Lemma BindContextInput_double_and_narrow_int64_unsupported_witness :
  BindContextInput 10 (run_env_of double_tensor [2; 3] false false) x_to_y_engine "x" 0
    empty_world
  = (Returns (CreateStatus ORT_EP_FAIL
                "TensorRT EP input onnx tensor data type: 11 not supported."),
     after_call (setInputShape "x" [2; 3]) empty_world).
Proof.
  apply (BindContextInput_double_and_narrow_int64_unsupported 10
           (run_env_of double_tensor [2; 3] false false) x_to_y_engine "x" 0 empty_world).
  - reflexivity.
  - left. reflexivity.
  - simpl. lia.
  - reflexivity.
Defined.

(** ** The calls of the compute function *)

Lemma makes_compute_calls_ret {A} (a : A) : makes_compute_calls (mret a).
Proof. by intros w Hw. Qed.

Lemma makes_compute_calls_bind {A B} (m : M RunWorld A) (k : A -> M RunWorld B) :
  makes_compute_calls m -> (forall a, makes_compute_calls (k a)) ->
  makes_compute_calls (m ≫= k).
Proof.
  intros Hm Hk w Hw. unfold mbind, M_bind. specialize (Hm w Hw).
  destruct (m w) as [[a| | |] w']; simpl in *; try done. by apply Hk.
Qed.

Lemma makes_compute_calls_call c : compute_call c = true -> makes_compute_calls (call c).
Proof. intros Hc w Hw. simpl. apply Forall_app. split; [done|]. by repeat constructor. Qed.

Lemma makes_compute_calls_modify (f : RunWorld -> RunWorld) :
  (forall w, made (f w) = made w) -> makes_compute_calls (modify f).
Proof. intros Hf w Hw. simpl. by rewrite Hf. Qed.

Lemma makes_compute_calls_gets {A} (f : RunWorld -> A) : makes_compute_calls (gets f).
Proof. by intros w Hw. Qed.

Lemma makes_compute_calls_undefined {A} : makes_compute_calls (@undefined RunWorld A).
Proof. by intros w Hw. Qed.

Lemma makes_compute_calls_abort {A} : makes_compute_calls (@abort RunWorld A).
Proof. by intros w Hw. Qed.

Lemma makes_compute_calls_throw {A} what : makes_compute_calls (@throw RunWorld A what).
Proof. by intros w Hw. Qed.

Lemma makes_compute_calls_for_each {A B} (xs : list A) (body : A -> M RunWorld B) :
  (forall x, makes_compute_calls (body x)) -> makes_compute_calls (for_each xs body).
Proof.
  intros Hbody. induction xs as [|x xs IH]; simpl.
  - apply makes_compute_calls_ret.
  - apply makes_compute_calls_bind; [done|]. intros y.
    apply makes_compute_calls_bind; [done|]. intros ys. apply makes_compute_calls_ret.
Qed.

Lemma makes_compute_calls_for_each_or_return {A} (xs : list A)
    (body : A -> M RunWorld OrtStatusPtr) :
  (forall x, makes_compute_calls (body x)) ->
  makes_compute_calls (for_each_or_return xs body).
Proof.
  intros Hbody. induction xs as [|x xs IH]; simpl.
  - apply makes_compute_calls_ret.
  - apply makes_compute_calls_bind; [done|]. intros st.
    destruct (is_failure st); [apply makes_compute_calls_ret|done].
Qed.

(** Decompose a computation into its primitives. *)
Ltac compute_calls :=
  repeat first
    [ apply makes_compute_calls_ret
    | apply makes_compute_calls_gets
    | apply makes_compute_calls_undefined
    | apply makes_compute_calls_abort
    | apply makes_compute_calls_throw
    | apply makes_compute_calls_call; reflexivity
    | apply makes_compute_calls_modify; intros ?; reflexivity
    | apply makes_compute_calls_bind; [|intros ?]
    | apply makes_compute_calls_for_each; intros ?
    | apply makes_compute_calls_for_each_or_return; intros ?
    | progress unfold CUDA_RETURN_IF_ERROR, MakeUniquePtrFromOrtAllocator, push_scratch,
        set_shape_tensor_values, set_shape_tensor_values_int64, set_buffer,
        set_output_tensor, set_output_dim_size, set_dds_output_allocator_map,
        set_max_context_mem_size, set_allocator, at_, ThrowOnError,
        CASE_GET_INPUT_TENSOR, GetShapeOfShapeTensor
    | match goal with
      | |- makes_compute_calls (if ?b then _ else _) => destruct b
      | |- makes_compute_calls (match ?x with _ => _ end) => destruct x
      | |- makes_compute_calls (let '(_, _) := ?x in _) => destruct x
      end ].

Section ComputeCalls.
Variable NV_TENSORRT_MAJOR : Z.
Variable env : RunEnv.

Lemma BindContextInput_calls trt_engine input_name input_index :
  makes_compute_calls
    (BindContextInput NV_TENSORRT_MAJOR env trt_engine input_name input_index).
Proof. unfold BindContextInput, bind_shape_tensor. compute_calls. Qed.

Lemma BindContextOutput_calls output_name output_index output_type i :
  makes_compute_calls
    (BindContextOutput NV_TENSORRT_MAJOR env output_name output_index output_type i).
Proof. unfold BindContextOutput. compute_calls. Qed.

Lemma BindKernelOutput_calls allocator_map output_name output_index output_type :
  makes_compute_calls
    (BindKernelOutput NV_TENSORRT_MAJOR env allocator_map output_name output_index
       output_type).
Proof. unfold BindKernelOutput. compute_calls. Qed.

Lemma ComputeFunc_calls this_ trt_state :
  makes_compute_calls (ComputeFunc NV_TENSORRT_MAJOR env this_ trt_state).
Proof.
  unfold ComputeFunc, launch, assign_output.
  compute_calls;
    first [ apply BindContextInput_calls | apply BindContextOutput_calls
          | apply BindKernelOutput_calls ].
Qed.
End ComputeCalls.

Lemma compute_call_not_lock_nor_capture c :
  compute_call c = true -> is_lock_call c = false /\ is_capture_call c = false.
Proof. by destruct c. Qed.

Lemma ComputeFunc_made NV_TENSORRT_MAJOR env this_ trt_state :
  Forall (fun c => compute_call c = true)
    (made (snd (ComputeFunc NV_TENSORRT_MAJOR env this_ trt_state
                  (initial_world this_ trt_state)))).
Proof. apply ComputeFunc_calls. simpl. constructor. Qed.

(** C7.  The [std::lock_guard] at the head of the compute function is
    commented out: no call of the compute function, whatever the engine,
    the inputs and the answers of the runtime, locks or unlocks the
    provider mutex, so its body does not run under that mutex.  On an
    engine with input [x] and output [y], given a float32 tensor, the
    call succeeds and its calls are the nine listed. *)
Theorem ComputeFunc_takes_no_lock :
  (let r := ComputeFunc 10 (run_env_of float_tensor [2; 3] false false)
              (provider_with plain_settings false) x_to_y_state
              (initial_world (provider_with plain_settings false) x_to_y_state) in
   fst r = Returns nullptr
   /\ made (snd r)
      = [CreateMemoryInfo; KernelContext_GetAllocator; KernelContext_GetGPUComputeStream;
         setInputShape "x" [2; 3]; setTensorAddress "x" (DeviceAddress 1024);
         KernelContext_GetOutput 0 [2; 3]; setTensorAddress "y" (DeviceAddress 8192);
         enqueueV3 7; cudaStreamSynchronize 7])
  /\ forall NV_TENSORRT_MAJOR env this_ trt_state,
       Forall (fun c => is_lock_call c = false)
         (made (snd (ComputeFunc NV_TENSORRT_MAJOR env this_ trt_state
                       (initial_world this_ trt_state)))).
Proof.
  split; [by vm_compute|].
  intros major env this_ trt_state.
  eapply Forall_impl; [apply ComputeFunc_made|].
  intros c Hc. by apply compute_call_not_lock_nor_capture in Hc as [? _].
Qed.

(** C8.  The bodies of the two capture blocks of the compute function
    are commented out: with CUDA graph capture enabled, capture allowed
    (the warm-up is over) and no graph captured yet, the call binds,
    enqueues and synchronizes like any other, without setting the stream
    on the graph object, beginning or ending a capture, or replaying a
    graph; and no call of the compute function ever does. *)
Theorem ComputeFunc_never_captures :
  (let env := run_env_of float_tensor [2; 3] true false in
   let this_ := provider_with graph_capture_settings false in
   let r := ComputeFunc 10 env this_ x_to_y_state (initial_world this_ x_to_y_state) in
   cuda_graph_enable_ (settings this_) = true
   /\ IsGraphCaptureAllowed env = true
   /\ IsGraphCaptured env 0 = false
   /\ fst r = Returns nullptr
   /\ made (snd r)
      = [CreateMemoryInfo; KernelContext_GetAllocator; KernelContext_GetGPUComputeStream;
         setInputShape "x" [2; 3]; setTensorAddress "x" (DeviceAddress 1024);
         KernelContext_GetOutput 0 [2; 3]; setTensorAddress "y" (DeviceAddress 8192);
         enqueueV3 7; cudaStreamSynchronize 7])
  /\ forall NV_TENSORRT_MAJOR env this_ trt_state,
       Forall (fun c => is_capture_call c = false)
         (made (snd (ComputeFunc NV_TENSORRT_MAJOR env this_ trt_state
                       (initial_world this_ trt_state)))).
Proof.
  split; [by vm_compute|].
  intros major env this_ trt_state.
  eapply Forall_impl; [apply ComputeFunc_made|].
  intros c Hc. by apply compute_call_not_lock_nor_capture in Hc as [_ ?].
Qed.

(** A data-dependent output: an allocator is installed instead of a
    buffer, and after the enqueue the notified shape [3, 2] is copied out
    of the allocator's buffer. *)
Example data_dependent_output_is_copied :
  let this_ := provider_with plain_settings false in
  let r := ComputeFunc 10 dds_env this_ x_to_y_state (initial_world this_ x_to_y_state) in
  fst r = Returns nullptr
  /\ made (snd r)
     = [CreateMemoryInfo; KernelContext_GetAllocator; KernelContext_GetGPUComputeStream;
        setInputShape "x" [2; 3]; setTensorAddress "x" (DeviceAddress 1024);
        setOutputAllocator "y"; enqueueV3 7; cudaStreamSynchronize 7;
        KernelContext_GetOutput 0 [3; 2];
        cudaMemcpyAsync 8192 12288 24 cudaMemcpyDeviceToDevice 7].
Proof. by vm_compute. Qed.

(** An int64 output below TensorRT 10: an int32 buffer is bound and cast
    into the output tensor after the enqueue. *)
Example int64_output_is_cast_below_10 :
  let this_ := provider_with plain_settings false in
  let r := ComputeFunc 9 (run_env_of float_tensor [2; 3] false false) this_
             int64_output_state (initial_world this_ int64_output_state) in
  fst r = Returns nullptr
  /\ made (snd r)
     = [CreateMemoryInfo; KernelContext_GetAllocator; KernelContext_GetGPUComputeStream;
        setInputShape "x" [2; 3]; setTensorAddress "x" (DeviceAddress 1024);
        KernelContext_GetOutput 0 [2; 3]; Alloc 24;
        setTensorAddress "y" (DeviceAddress 4096);
        Alloc 0; setDeviceMemory 4097; Free 4097;
        enqueueV3 7; cudaStreamSynchronize 7;
        Impl_Cast_int32_int64 7 4096 8192 6]
  /\ scratch_buffers (snd r) = [4096].
Proof. by vm_compute. Qed.

(** ** The scan of the network inputs *)

Example partial_profiles_are_refused :
  fst (CreateNodeComputeInfoFromGraph 10 0 BuilderFlag_bit_10
         NetworkDefinitionCreationFlag_bit_10 GetNumProfiles_spec path_append
         keys_in_order (build_env_of two_input_network)
         (provider_with y_profile_settings false))
  = Returns (CreateStatus ORT_EP_FAIL (missing_profiles_message ["x"])).
Proof. vm_compute. reflexivity. Qed.

Example implicit_ranges_are_seeded :
  input_implicit_shape_ranges
    (scan (snd (CreateNodeComputeInfoFromGraph 10 0 BuilderFlag_bit_10
                  NetworkDefinitionCreationFlag_bit_10 GetNumProfiles_spec path_append
                  keys_in_order (build_env_of two_input_network)
                  (provider_with plain_settings false))))
  = {[ "x" := {[ 0%nat := [[INT_MAX; INT_MIN; INT_MIN]] ]};
       "y" := {[ 0%nat := [[INT_MAX; INT_MIN; INT_MIN]] ]} ]}.
Proof. vm_compute. reflexivity. Qed.

Example explicit_ranges_are_recorded :
  let sc := scan (snd (CreateNodeComputeInfoFromGraph 10 0 BuilderFlag_bit_10
                  NetworkDefinitionCreationFlag_bit_10 GetNumProfiles_spec path_append
                  keys_in_order (build_env_of two_input_network)
                  (provider_with y_profile_settings false))) in
  input_explicit_shape_ranges (scan_profiles sc) = {[ "y" := {[ 0%nat := [[1; 8; 4]] ]} ]}
  /\ trt_profiles (scan_profiles sc)
     = [[setDimensions "y" kMIN [1; 3]; setDimensions "y" kMAX [8; 3];
         setDimensions "y" kOPT [4; 3]]].
Proof. vm_compute. split; reflexivity. Qed.

(** Loops that end normally and keep an invariant. *)
Lemma for_each_Returns {W A B} (I : W -> Prop) (P : A -> W -> Prop)
    (xs : list A) (body : A -> M W B) :
  (forall x w, x ∈ xs -> I w ->
     exists y w', body x w = (Returns y, w') /\ I w' /\ P x w'
                  /\ forall z, P z w -> P z w') ->
  forall w, I w ->
    exists ys w', for_each xs body w = (Returns ys, w') /\ I w'
                  /\ (forall x, x ∈ xs -> P x w') /\ (forall z, P z w -> P z w').
Proof.
  induction xs as [|x xs IH]; intros Hbody w HI; simpl.
  - exists [], w. repeat split; auto. intros x Hx. by apply not_elem_of_nil in Hx.
  - destruct (Hbody x w) as (y & w1 & Hy & HI1 & HP1 & Hst1); [by left|done|].
    destruct (IH (fun x' w' Hx' => Hbody x' w' (list_elem_of_further _ _ _ Hx')) w1 HI1)
      as (ys & w2 & Hys & HI2 & HP2 & Hst2).
    exists (y :: ys), w2. repeat split; auto.
    + erewrite bind_Returns by exact Hy. erewrite bind_Returns by exact Hys. reflexivity.
    + intros x' Hx'. apply elem_of_cons in Hx' as [-> | Hx']; auto.
Qed.

Lemma shape_value_Returns {W} (shapes : ProfileShapes) name i j (w : W) z :
  shape_lookup shapes name i j = Some z ->
  shape_value shapes name i j w = (Returns z, w).
Proof.
  unfold shape_lookup, shape_value. intros H.
  destruct (shapes !! name) as [pp|]; simpl in H; [|done].
  destruct (pp !! i) as [v|] eqn:Hv; simpl in H; [|done].
  erewrite bind_Returns; [|unfold at_; by rewrite Hv].
  unfold at_. by rewrite H.
Qed.


Lemma record_triple_Returns N name j i a b c p :
  ranges_inv N p -> (i < N)%nat ->
  exists p', record_triple name j i a b c p = (Returns tt, p') /\ ranges_inv N p'.
Proof.
  intros [Hlen Hslots] Hi. unfold record_triple.
  set (inner := default ∅ (input_explicit_shape_ranges p !! name)).
  set (pv := default (replicate (length (trt_profiles p)) []) (inner !! j)).
  assert (length pv = N) as Hpv.
  { unfold pv. destruct (inner !! j) as [v|] eqn:Hv; simpl.
    - unfold inner in Hv.
      destruct (input_explicit_shape_ranges p !! name) as [m|] eqn:Hm; simpl in Hv.
      + eauto.
      + by rewrite lookup_empty in Hv.
    - by rewrite length_replicate. }
  destruct (lookup_lt_is_Some_2 pv i) as [so_far Hso]; [lia|].
  rewrite Hso. eexists. split; [reflexivity|].
  split; [done|]. simpl. intros name' inner' j' v Hname Hj.
  destruct (decide (name = name')) as [<-|Hne].
  - rewrite lookup_insert_eq in Hname. simplify_eq.
    destruct (decide (j = j')) as [<-|Hnej].
    + rewrite lookup_insert_eq in Hj. simplify_eq. by rewrite length_insert.
    + rewrite lookup_insert_ne in Hj by done. unfold inner in Hj.
      destruct (input_explicit_shape_ranges p !! name) as [m|] eqn:Hm; simpl in Hj.
      * eauto.
      * by rewrite lookup_empty in Hj.
  - rewrite lookup_insert_ne in Hname by done. eauto.
Qed.

Lemma configure_profile_Returns N i settings p :
  ranges_inv N p -> (i < N)%nat ->
  exists p', configure_profile i settings p = (Returns tt, p') /\ ranges_inv N p'.
Proof.
  intros [Hlen Hslots] Hi. unfold configure_profile.
  destruct (lookup_lt_is_Some_2 (trt_profiles p) i) as [q Hq]; [lia|].
  rewrite Hq. eexists. split; [reflexivity|]. split; simpl.
  - by rewrite length_insert.
  - done.
Qed.

Section ApplyDefined.
Variable input : ITensor.
Variables profile_min_shapes profile_max_shapes profile_opt_shapes : ProfileShapes.
Variable N : nat.

Lemma read_triple_Returns i j p :
  ranges_inv N p -> (i < N)%nat ->
  has_triple profile_min_shapes profile_max_shapes profile_opt_shapes (getName input) i j ->
  exists t p',
    read_triple input profile_min_shapes profile_max_shapes profile_opt_shapes i j p
    = (Returns t, p') /\ ranges_inv N p'.
Proof.
  intros Hinv Hi ([a Ha] & [b Hb] & [c Hc]). unfold read_triple.
  destruct (record_triple_Returns N (getName input) j i a b c p Hinv Hi) as (p' & Hp' & Hinv').
  exists (to_int32 a, to_int32 b, to_int32 c), p'. split; [|done].
  erewrite bind_Returns by (by apply shape_value_Returns).
  erewrite bind_Returns by (by apply shape_value_Returns).
  erewrite bind_Returns by (by apply shape_value_Returns).
  erewrite bind_Returns by exact Hp'. reflexivity.
Qed.

Lemma apply_profile_Returns i p :
  ranges_inv N p -> (i < N)%nat ->
  profile_defined_at profile_min_shapes profile_max_shapes profile_opt_shapes input i ->
  exists p',
    apply_profile input profile_min_shapes profile_max_shapes profile_opt_shapes i p
    = (Returns tt, p') /\ ranges_inv N p'.
Proof.
  intros Hinv Hi Hdef. unfold apply_profile, profile_defined_at in *.
  destruct (isShapeTensor input).
  - destruct Hdef as (shape_size & Hsize & Hnz & Htriples).
    assert (forall w : Profiles,
              (if bool_decide (length (getDimensions input) = 0%nat) then mret 1%nat
               else match profile_min_shapes !! getName input with
                    | Some per_profile => v ← at_ per_profile i; mret (length v)
                    | None => undefined
                    end) w = (Returns shape_size, w)) as Hss.
    { intros w. case_bool_decide; [by simplify_eq|].
      destruct (profile_min_shapes !! getName input) as [pp|]; simpl in Hsize; [|done].
      destruct (pp !! i) as [v|] eqn:Hv; simpl in Hsize; [|done]. simplify_eq.
      erewrite bind_Returns; [reflexivity|]. unfold at_. by rewrite Hv. }
    erewrite bind_Returns by apply Hss.
    destruct (for_each_Returns (ranges_inv N) (fun _ _ => True) (seq 0 shape_size)
                (read_triple input profile_min_shapes profile_max_shapes
                   profile_opt_shapes i)) with (w := p)
      as (ts & p1 & Hts & Hinv1 & _); [|done|].
    { intros j w Hj Hw. apply elem_of_seq in Hj.
      destruct (read_triple_Returns i j w Hw Hi) as (t & w' & ? & ?); [apply Htriples; lia|].
      exists t, w'. auto. }
    erewrite bind_Returns by exact Hts.
    rewrite bool_decide_eq_false_2 by done.
    erewrite bind_Returns by reflexivity.
    by apply configure_profile_Returns.
  - destruct (for_each_Returns (ranges_inv N) (fun _ _ => True)
                (seq 0 (length (getDimensions input)))
                (fun j => d ← at_ (getDimensions input) j;
                          if bool_decide (d = -1)
                          then read_triple input profile_min_shapes profile_max_shapes
                                 profile_opt_shapes i j
                          else mret (d, d, d))) with (w := p)
      as (ts & p1 & Hts & Hinv1 & _); [|done|].
    { intros j w Hj Hw. apply elem_of_seq in Hj.
      destruct (lookup_lt_is_Some_2 (getDimensions input) j) as [d Hd]; [lia|].
      case (decide (d = -1)) as [->|Hne].
      - destruct (read_triple_Returns i j w Hw Hi) as (t & w' & Ht & ?); [by apply Hdef|].
        exists t, w'. split; [|auto].
        erewrite bind_Returns; [|unfold at_; by rewrite Hd].
        by rewrite bool_decide_eq_true_2.
      - exists (d, d, d), w. split; [|auto].
        erewrite bind_Returns; [|unfold at_; by rewrite Hd].
        by rewrite bool_decide_eq_false_2. }
    erewrite bind_Returns by exact Hts.
    by apply configure_profile_Returns.
Qed.

Lemma ApplyProfileShapesFromProviderOptions_Returns p :
  ranges_inv N p ->
  (is_Some (profile_min_shapes !! getName input) ->
   forall i, (i < N)%nat ->
     profile_defined_at profile_min_shapes profile_max_shapes profile_opt_shapes input i) ->
  exists p',
    ApplyProfileShapesFromProviderOptions input profile_min_shapes profile_max_shapes
      profile_opt_shapes p
    = (Returns (applies_explicit_profile true N profile_min_shapes (getName input)), p')
    /\ ranges_inv N p'.
Proof.
  intros Hinv Hdef. unfold ApplyProfileShapesFromProviderOptions, applies_explicit_profile.
  pose proof Hinv as [Hlen Hslots]. rewrite Hlen. simpl.
  case_bool_decide as HN; simpl; [by eauto|].
  case_bool_decide as Hname; simpl.
  { rewrite bool_decide_eq_false_2; [by eauto|]. rewrite Hname. by intros [? ?]. }
  rewrite bool_decide_eq_true_2 by (by apply not_eq_None_Some).
  set (p1 := {| trt_profiles := trt_profiles p; input_explicit_shape_ranges := _ |}).
  assert (ranges_inv N p1) as Hinv1.
  { split; [done|]. unfold p1. simpl. intros name inner j v Hn Hj.
    destruct (input_explicit_shape_ranges p !! getName input) eqn:Hm; [by eauto|].
    destruct (decide (getName input = name)) as [<-|Hne].
    - rewrite lookup_insert_eq in Hn. simplify_eq; try by rewrite lookup_empty in Hj.
    - rewrite lookup_insert_ne in Hn by done. eauto. }
  destruct (for_each_Returns (ranges_inv N) (fun _ _ => True) (seq 0 N)
              (apply_profile input profile_min_shapes profile_max_shapes
                 profile_opt_shapes)) with (w := p1)
    as (us & p2 & Hus & Hinv2 & _); [|done|].
  { intros i w Hi Hw. apply elem_of_seq in Hi.
    destruct (apply_profile_Returns i w Hw) as (w' & ? & ?); [lia| |].
    - apply Hdef; [by apply not_eq_None_Some|lia].
    - exists tt, w'. auto. }
  exists p2. split; [|done].
  erewrite bind_Returns by exact Hus. reflexivity.
Qed.
End ApplyDefined.

Lemma entry_seed name j w name' j' :
  entry (input_implicit_shape_ranges (seed name j w)) name' j'
  = if decide (name = name' /\ j = j') then Some sentinel
    else entry (input_implicit_shape_ranges w) name' j'.
Proof.
  unfold entry, seed. simpl.
  destruct (decide (name = name')) as [<-|Hne].
  - rewrite lookup_insert_eq. simpl.
    destruct (decide (j = j')) as [<-|Hnej].
    + rewrite lookup_insert_eq. by rewrite decide_True.
    + rewrite lookup_insert_ne by done. rewrite decide_False by naive_solver.
      destruct (input_implicit_shape_ranges w !! name); simpl; [done|].
      by rewrite lookup_empty.
  - rewrite lookup_insert_ne by done. by rewrite decide_False by naive_solver.
Qed.

Lemma name_seed name j w name' :
  is_Some (input_implicit_shape_ranges (seed name j w) !! name')
  <-> name = name' \/ is_Some (input_implicit_shape_ranges w !! name').
Proof.
  unfold seed. simpl. destruct (decide (name = name')) as [<-|Hne].
  - rewrite lookup_insert_eq. naive_solver.
  - rewrite lookup_insert_ne by done. naive_solver.
Qed.

Lemma entry_seeds name js w name' j' :
  entry (input_implicit_shape_ranges (foldl (fun w j => seed name j w) w js)) name' j'
  = if decide (name = name' /\ j' ∈ js) then Some sentinel
    else entry (input_implicit_shape_ranges w) name' j'.
Proof.
  revert w. induction js as [|j js IH]; intros w; simpl.
  - rewrite decide_False; [done|]. intros [_ H]. by apply not_elem_of_nil in H.
  - rewrite IH. rewrite entry_seed.
    repeat case_decide; try done; exfalso;
      repeat match goal with
             | H : _ /\ _ |- _ => destruct H
             | H : _ ∈ _ :: _ |- _ => apply elem_of_cons in H as [?|?]
             | H : ¬ (_ /\ _ ∈ _ :: _) |- _ => apply H; split; [done|]; apply elem_of_cons
             end; subst; naive_solver.
Qed.

Lemma name_seeds name js w name' :
  is_Some (input_implicit_shape_ranges (foldl (fun w j => seed name j w) w js) !! name')
  <-> (name = name' /\ js <> []) \/ is_Some (input_implicit_shape_ranges w !! name').
Proof.
  revert w. induction js as [|j js IH]; intros w; simpl.
  - naive_solver.
  - rewrite IH, name_seed. split; [|naive_solver].
    intros [[-> _]|[->|?]]; auto.
Qed.

Lemma has_dynamic_shape_seeds name js w :
  has_dynamic_shape (foldl (fun w j => seed name j w) w js)
  = if decide (js = []) then has_dynamic_shape w else true.
Proof.
  revert w. induction js as [|j js IH]; intros w; simpl; [done|].
  rewrite IH. case_decide; [by subst|done].
Qed.

Lemma scan_profiles_seed name j w : scan_profiles (seed name j w) = scan_profiles w.
Proof. reflexivity. Qed.

Lemma has_dynamic_shape_seed name j w : has_dynamic_shape (seed name j w) = true.
Proof. reflexivity. Qed.

Lemma scan_profiles_seeds name js w :
  scan_profiles (foldl (fun w j => seed name j w) w js) = scan_profiles w.
Proof. revert w. induction js as [|j js IH]; intros w; simpl; [done|]. by rewrite IH. Qed.

Lemma elem_of_dynamic_dims dims j :
  j ∈ dynamic_dims dims <-> dims !! j = Some (-1).
Proof.
  unfold dynamic_dims. rewrite list_elem_of_filter, elem_of_seq.
  split; [naive_solver|]. intros H. split; [done|].
  apply lookup_lt_Some in H. lia.
Qed.

Lemma dynamic_dims_nil dims :
  dynamic_dims dims = [] <-> -1 ∉ dims.
Proof.
  split.
  - intros Hnil Hin. apply list_elem_of_lookup in Hin as [j Hj].
    apply elem_of_dynamic_dims in Hj. rewrite Hnil in Hj. by apply not_elem_of_nil in Hj.
  - intros Hnot. destruct (dynamic_dims dims) as [|j js] eqn:Heq; [done|].
    exfalso. apply Hnot. assert (j ∈ dynamic_dims dims) as Hj by (rewrite Heq; by left).
    apply elem_of_dynamic_dims in Hj. by eapply list_elem_of_lookup_2.
Qed.

Ltac cbn_scan :=
  cbn [set_apply_explicit_profile scan_profiles input_implicit_shape_ranges
       has_dynamic_shape apply_explicit_profile].

Section ScanInvariant.
Variable he : bool.
Variable N : nat.
Variables profile_min_shapes profile_max_shapes profile_opt_shapes : ProfileShapes.
Variable all_inputs : list ITensor.

Lemma scan_input_Returns input w :
  input ∈ all_inputs -> scan_inv he N profile_min_shapes all_inputs w ->
  (he = true -> is_Some (profile_min_shapes !! getName input) ->
   forall i, (i < N)%nat ->
     profile_defined_at profile_min_shapes profile_max_shapes profile_opt_shapes input i) ->
  exists w',
    scan_input he profile_min_shapes profile_max_shapes profile_opt_shapes input w
    = (Returns tt, w')
    /\ scan_inv he N profile_min_shapes all_inputs w'
    /\ seeded he N profile_min_shapes input w'
    /\ forall z, seeded he N profile_min_shapes z w -> seeded he N profile_min_shapes z w'.
Proof.
  intros Hin (Hranges & Hflag & Hsent & Horigin & Hdyn) Hdef.
  unfold scan_input.
  (* the first statement leaves [apply_explicit_profile] equal to [applied] *)
  set (applied := applies_explicit_profile he N profile_min_shapes (getName input)).
  assert (exists w1,
            (if he then
               b ← on_profiles (ApplyProfileShapesFromProviderOptions input
                      profile_min_shapes profile_max_shapes profile_opt_shapes);
               modify (set_apply_explicit_profile b)
             else mret tt) w = (Returns tt, w1)
            /\ ranges_inv N (scan_profiles w1)
            /\ apply_explicit_profile w1 = applied
            /\ input_implicit_shape_ranges w1 = input_implicit_shape_ranges w
            /\ has_dynamic_shape w1 = has_dynamic_shape w) as (w1 & Hw1 & Hr1 & Ha1 & Hi1 & Hd1).
  { destruct he eqn:Hhe.
    - destruct (ApplyProfileShapesFromProviderOptions_Returns input profile_min_shapes
                  profile_max_shapes profile_opt_shapes N (scan_profiles w) Hranges)
        as (p' & Hp' & Hinv'); [by apply Hdef|].
      eexists. split.
      + erewrite bind_Returns; [reflexivity|]. unfold on_profiles. by rewrite Hp'.
      + simpl. done.
    - exists w. split_and!; auto. }
  erewrite bind_Returns by exact Hw1.
  erewrite bind_Returns by reflexivity. rewrite Ha1.
  destruct applied eqn:Happlied; simpl.
  - (* an explicit profile was applied: nothing is seeded *)
    exists w1. split; [done|]. split; [|split].
    + unfold scan_inv. split_and!; auto.
      * intros ->. unfold applied, applies_explicit_profile in Happlied. done.
      * by rewrite Hi1.
      * by rewrite Hi1.
      * by rewrite Hd1.
    + intros Hl. fold applied in Hl. congruence.
    + unfold seeded. rewrite Hi1, Hd1. auto.
  - (* no explicit profile: the input is seeded *)
    destruct (isShapeTensor input) eqn:Hshape.
    + exists (set_apply_explicit_profile false (seed (getName input) 0 w1)).
      split; [reflexivity|]. split; [|split].
      * unfold scan_inv. cbn_scan. split_and!; auto.
        -- intros name j v. rewrite entry_seed. case_decide; [congruence|].
           rewrite Hi1. apply Hsent.
        -- intros name [<-|Hs]%name_seed.
           ++ exists input. unfold is_dynamic. rewrite Hshape. auto.
           ++ rewrite Hi1 in Hs. auto.
        -- intros _. exists input. unfold is_dynamic. rewrite Hshape. auto.
      * intros _ _. cbn_scan. rewrite Hshape. split; [done|]. split.
        -- apply name_seed. by left.
        -- intros j ->. rewrite entry_seed. by rewrite decide_True.
      * intros z Hz Hl Hd. destruct (Hz Hl Hd) as (Hz1 & Hz2 & Hz3).
        cbn_scan. split; [done|]. split.
        -- apply name_seed. right. by rewrite Hi1.
        -- intros j Hj. rewrite entry_seed. case_decide; [done|].
           rewrite Hi1. by apply Hz3.
    + exists (set_apply_explicit_profile false
                (foldl (fun w j => seed (getName input) j w) w1
                   (dynamic_dims (getDimensions input)))).
      split; [reflexivity|]. split; [|split].
      * unfold scan_inv. cbn_scan. split_and!; auto.
        -- by rewrite scan_profiles_seeds.
        -- intros name j v. rewrite entry_seeds. case_decide; [congruence|].
           rewrite Hi1. apply Hsent.
        -- intros name [[<- Hne]|Hs]%name_seeds.
           ++ exists input. split_and!; auto. unfold is_dynamic. rewrite Hshape. simpl.
              apply bool_decide_eq_true_2.
              destruct (decide (-1 ∈ getDimensions input)) as [|Hnot]; [done|].
              by apply dynamic_dims_nil in Hnot.
           ++ rewrite Hi1 in Hs. auto.
        -- rewrite has_dynamic_shape_seeds. case_decide as Hnil.
           ++ rewrite Hd1. auto.
           ++ intros _. exists input. split_and!; auto.
              unfold is_dynamic. rewrite Hshape. simpl.
              apply bool_decide_eq_true_2.
              destruct (decide (-1 ∈ getDimensions input)) as [|Hnot]; [done|].
              by apply dynamic_dims_nil in Hnot.
      * intros _ Hd. unfold is_dynamic in Hd. rewrite Hshape in Hd. simpl in Hd.
        apply bool_decide_eq_true_1 in Hd.
        assert (dynamic_dims (getDimensions input) <> []) as Hne.
        { intros Hnil. by apply dynamic_dims_nil in Hnil. }
        cbn_scan. rewrite Hshape. split; [|split].
        -- rewrite has_dynamic_shape_seeds. by rewrite decide_False.
        -- apply name_seeds. by left.
        -- intros j Hj. rewrite entry_seeds. rewrite decide_True; [done|].
           split; [done|]. by apply elem_of_dynamic_dims.
      * intros z Hz Hl Hd. destruct (Hz Hl Hd) as (Hz1 & Hz2 & Hz3).
        cbn_scan. split; [|split].
        -- rewrite has_dynamic_shape_seeds. case_decide; [by rewrite Hd1|done].
        -- apply name_seeds. right. by rewrite Hi1.
        -- intros j Hj. rewrite entry_seeds. case_decide; [done|].
           rewrite Hi1. by apply Hz3.
Qed.
End ScanInvariant.

Lemma scan_Returns he N profile_min_shapes profile_max_shapes profile_opt_shapes
    (all_inputs : list ITensor) (w : Scan) :
  scan_inv he N profile_min_shapes all_inputs w ->
  (he = true -> forall input, input ∈ all_inputs ->
     is_Some (profile_min_shapes !! getName input) ->
     forall i, (i < N)%nat ->
       profile_defined_at profile_min_shapes profile_max_shapes profile_opt_shapes input i) ->
  exists us w',
    for_each all_inputs
      (scan_input he profile_min_shapes profile_max_shapes profile_opt_shapes) w
    = (Returns us, w')
    /\ scan_inv he N profile_min_shapes all_inputs w'
    /\ forall input, input ∈ all_inputs -> seeded he N profile_min_shapes input w'.
Proof.
  intros Hinv Hdef.
  destruct (for_each_Returns (scan_inv he N profile_min_shapes all_inputs)
              (seeded he N profile_min_shapes) all_inputs
              (scan_input he profile_min_shapes profile_max_shapes profile_opt_shapes))
    with (w := w) as (us & w' & Hus & Hinv' & Hseeded & _); [|done|by eauto].
  intros input w0 Hin Hw0.
  destruct (scan_input_Returns he N profile_min_shapes profile_max_shapes
              profile_opt_shapes all_inputs input w0 Hin Hw0) as (w1 & ? & ? & ? & ?).
  { intros Hhe. by apply Hdef. }
  exists tt, w1. auto.
Qed.

Lemma initial_scan_inv he N profile_min_shapes all_inputs :
  scan_inv he N profile_min_shapes all_inputs
    {| scan_profiles := {| trt_profiles := replicate N [];
                           input_explicit_shape_ranges := ∅ |};
       input_implicit_shape_ranges := ∅;
       has_dynamic_shape := false;
       apply_explicit_profile := false |}.
Proof.
  unfold scan_inv, ranges_inv, entry. simpl. split_and!; try done.
  - by rewrite length_replicate.
  - intros name [? H]. by rewrite lookup_empty in H.
Qed.

Lemma inputs_force_layer_norm_fp32 (b : bool) net :
  inputs (if b then force_layer_norm_fp32 net else net) = inputs net.
Proof. by destruct b. Qed.

Section CompileTheorems.
Variables NV_TENSORRT_MAJOR NV_TENSORRT_MINOR : Z.
Variable BuilderFlag_bit : BuilderFlag -> Z.
Variable NetworkDefinitionCreationFlag_bit : NetworkDefinitionCreationFlag -> Z.
Variable GetNumProfiles : ProfileShapes -> Z.
Variable GetCachePath : string -> string -> string.
Variable iteration_order : ShapeRangesMap -> list string.

(** An [unordered_map] hands out each of its keys once, in an order of
    its own. *)
Hypothesis iteration_order_keys :
  forall m, NoDup (iteration_order m)
            /\ forall name, name ∈ iteration_order m <-> is_Some (m !! name).

Let compile := CreateNodeComputeInfoFromGraph NV_TENSORRT_MAJOR NV_TENSORRT_MINOR
                 BuilderFlag_bit NetworkDefinitionCreationFlag_bit GetNumProfiles
                 GetCachePath iteration_order.
Let N (s : ProviderSettings) := num_profiles GetNumProfiles s.

(** The end of the function leaves the scan state, the calls and the
    engines as it finds them, and does not end in undefined
    behaviour. *)
Lemma set_precision_and_device_frame env this_ cs net cfg sc outcome frame :
  set_precision_and_device NV_TENSORRT_MAJOR NV_TENSORRT_MINOR BuilderFlag_bit
    GetCachePath env this_ cs net cfg sc = (outcome, frame) ->
  outcome <> Undefined /\ scan frame = sc /\ calls frame = cs
  /\ engines_ (provider frame) = engines_ this_.
Proof.
  unfold set_precision_and_device.
  repeat case_match; intros; simplify_eq; simpl; split_and!; done.
Qed.

Lemma append_empty_r (s : string) : s +:+ "" = s.
Proof.
  induction s as [|a s IH]; [done|].
  change (String a (s +:+ "") = String a s). by rewrite IH.
Qed.

(** The names after the last sentence of the message are joined by
    commas. *)
Lemma enumerate_rest_concat (names : list string) :
  enumerate_rest names
  = match names with
    | [] => ""
    | _ :: _ => "," +:+ String.concat "," names
    end.
Proof.
  induction names as [|n rest IH]; [done|].
  cbn [enumerate_rest]. rewrite IH. destruct rest as [|r rest]; [|done].
  cbn [String.concat]. by rewrite append_empty_r.
Qed.

Lemma enumerate_concat (names : list string) :
  enumerate names = String.concat "," names.
Proof.
  destruct names as [|n rest]; [done|].
  unfold enumerate. rewrite enumerate_rest_concat. destruct rest as [|r rest]; [|done].
  cbn [String.concat]. by rewrite append_empty_r.
Qed.

(** C1.  When explicit min/max/opt profile shapes are supplied and some
    dynamic-shape input has no profile among them, the compile returns
    a failure status whose message is the three sentences of the source
    followed by the names of the inputs that still lack a profile,
    separated by commas: each such name once, and no other name.  No
    optimization profile is added to the builder configuration, no call
    builds or loads an engine, and the engines of the provider are the
    ones it had.  The profile maps are taken to hold the values that are
    read for the inputs they name. *)
Theorem explicit_profiles_must_cover_all_dynamic_inputs :
  forall env this_,
    let s := settings this_ in
    has_explicit_profile s = true ->
    profiles_cover (N s) (profile_min_shapes_ s) (profile_max_shapes_ s)
      (profile_opt_shapes_ s) (parsed_network env) ->
    (exists input, input ∈ inputs (parsed_network env) /\ is_dynamic input = true
                   /\ profile_min_shapes_ s !! getName input = None) ->
    exists names frame,
      compile env this_
      = (Returns
           (CreateStatus ORT_EP_FAIL
              ("User needs to provide all the dynamic shape inputs with associated profiles if they want to explicitly set profiles through provider options."
               +:+ String "010"%char ""
               +:+ "Please note that main graph could be partitioned into TRT/CUDA/CPU subgraphs, in this case, user also needs to provide shape profiles for the TRT subgraph's input if it's dynamic shape input."
               +:+ String "010"%char ""
               +:+ "Following input(s) has no associated shape profiles provided: "
               +:+ String.concat "," names)),
         frame)
      /\ names <> []
      /\ NoDup names
      /\ (forall name, name ∈ names <->
            exists input, input ∈ inputs (parsed_network env) /\ getName input = name
                          /\ is_dynamic input = true
                          /\ applies_explicit_profile true (N s) (profile_min_shapes_ s)
                               name = false)
      /\ optimization_profiles (trt_config frame)
         = optimization_profiles (createBuilderConfig_result env)
      /\ Forall (fun c => adds_profile c = false /\ builds_engine c = false) (calls frame)
      /\ engines_ (provider frame) = engines_ this_.
Proof.
  intros env this_ s Hexplicit Hcover (input & Hin & Hdyn & Hnone).
  destruct (scan_Returns true (N s) (profile_min_shapes_ s) (profile_max_shapes_ s)
              (profile_opt_shapes_ s) (inputs (parsed_network env)) _
              (initial_scan_inv true (N s) (profile_min_shapes_ s)
                 (inputs (parsed_network env))))
    as (us & sc & Hscan & (Hranges & _ & Hsent & Horigin & _) & Hseeded).
  { intros _ input' Hin' Hsome i Hi. by apply Hcover. }
  assert (applies_explicit_profile true (N s) (profile_min_shapes_ s) (getName input) = false)
    as Hlacks.
  { unfold applies_explicit_profile. rewrite Hnone.
    rewrite (bool_decide_eq_false_2 (is_Some None)); [by rewrite andb_false_r|].
    by intros [? ?]. }
  destruct (Hseeded input Hin Hlacks Hdyn) as (Hhas & _ & _).
  exists (iteration_order (input_implicit_shape_ranges sc)).
  unfold compile, CreateNodeComputeInfoFromGraph. cbv zeta.
  rewrite inputs_force_layer_norm_fp32. fold s. rewrite Hexplicit.
  fold (N s). rewrite Hscan, Hhas.
  eexists. split.
  { unfold missing_profiles_message, newline. rewrite enumerate_concat. reflexivity. }
  simpl.
  destruct (iteration_order_keys (input_implicit_shape_ranges sc)) as [Hnodup Hkeys].
  destruct (Hseeded input Hin Hlacks Hdyn) as (_ & Hnamed & _).
  split_and!; try done.
  - intros Hnil. apply Hkeys in Hnamed. rewrite Hnil in Hnamed.
    by apply not_elem_of_nil in Hnamed.
  - intros name. rewrite Hkeys. split.
    + intros Hsome. destruct (Horigin name Hsome) as (i' & ? & <- & ? & ?).
      exists i'. by split_and!.
    + intros (i' & Hin' & <- & Hdyn' & Hlacks').
      by destruct (Hseeded i' Hin' Hlacks' Hdyn') as (_ & ? & _).
  - apply Forall_cons. split; [done|]. rewrite !Forall_app. split_and!.
    + by destruct (builder_ this_); repeat constructor.
    + by repeat constructor.
    + by apply Forall_replicate.
Qed.

(** C5.  For every dimension of a network input that is -1 and to whose
    input no explicit profile applies, the compile leaves in the
    implicit shape-range store, under (input name, dimension index),
    exactly the one triple (INT_MAX, INT_MIN, INT_MIN), and neither
    builds nor loads an engine.  A shape tensor is taken to have at most
    one dimension, as the source notes, and the profile maps to hold the
    values that are read for the inputs they name. *)
Theorem dynamic_dimension_without_profile_is_seeded :
  forall env this_ input j,
    let s := settings this_ in
    profiles_cover (N s) (profile_min_shapes_ s) (profile_max_shapes_ s)
      (profile_opt_shapes_ s) (parsed_network env) ->
    input ∈ inputs (parsed_network env) ->
    getDimensions input !! j = Some (-1) ->
    (isShapeTensor input = true -> (length (getDimensions input) <= 1)%nat) ->
    applies_explicit_profile (has_explicit_profile s) (N s) (profile_min_shapes_ s)
      (getName input) = false ->
    exists outcome frame,
      compile env this_ = (outcome, frame)
      /\ outcome <> Undefined
      /\ entry (input_implicit_shape_ranges (scan frame)) (getName input) j
         = Some [[INT_MAX; INT_MIN; INT_MIN]]
      /\ Forall (fun c => builds_engine c = false) (calls frame)
      /\ engines_ (provider frame) = engines_ this_.
Proof.
  intros env this_ input j s Hcover Hin Hj Hrank Hlacks.
  destruct (scan_Returns (has_explicit_profile s) (N s) (profile_min_shapes_ s)
              (profile_max_shapes_ s) (profile_opt_shapes_ s)
              (inputs (parsed_network env)) _
              (initial_scan_inv (has_explicit_profile s) (N s) (profile_min_shapes_ s)
                 (inputs (parsed_network env))))
    as (us & sc & Hscan & (Hranges & _ & Hsent & _ & _) & Hseeded).
  { intros _ input' Hin' Hsome i Hi. by apply Hcover. }
  assert (is_dynamic input = true) as Hdyn.
  { unfold is_dynamic. apply orb_true_iff. right. apply bool_decide_eq_true_2.
    by eapply list_elem_of_lookup_2. }
  destruct (Hseeded input Hin Hlacks Hdyn) as (_ & _ & Hentry).
  assert (entry (input_implicit_shape_ranges sc) (getName input) j
          = Some [[INT_MAX; INT_MIN; INT_MIN]]) as Hsentinel.
  { destruct (Hentry j) as [v Hv].
    - destruct (isShapeTensor input); [|done].
      apply lookup_lt_Some in Hj. specialize (Hrank eq_refl). lia.
    - rewrite Hv. f_equal. by eapply Hsent. }
  assert (Forall (fun c => builds_engine c = false)
            (([GetTensorrtLogger (detailed_build_log_ s)]
              ++ (if builder_ this_ then [] else [createInferBuilder])
              ++ [createNetworkV2
                    (Z.lor
                       (Z.lor 0
                          (if bool_decide (NV_TENSORRT_MAJOR > 8) then
                             if fp16_enable_ this_ || int8_enable_ this_ then 0
                             else Z.shiftl 1 (NetworkDefinitionCreationFlag_bit kSTRONGLY_TYPED)
                           else 0))
                       (Z.shiftl 1 (NetworkDefinitionCreationFlag_bit kEXPLICIT_BATCH)));
                  createBuilderConfig; createParser; parse (model_path_ s)])
             ++ replicate (N s) createOptimizationProfile)) as Hcs1.
  { rewrite !Forall_app. split_and!.
    - by repeat constructor.
    - by destruct (builder_ this_); repeat constructor.
    - by repeat constructor.
    - by apply Forall_replicate. }
  unfold compile, CreateNodeComputeInfoFromGraph. cbv zeta.
  rewrite inputs_force_layer_norm_fp32. fold s. fold (N s). rewrite Hscan.
  destruct (has_explicit_profile s) eqn:Hexplicit;
    destruct (has_dynamic_shape sc) eqn:Hhas.
  - eexists _, _. split; [reflexivity|]. cbn [scan calls provider engines_ with_precision]. by split_and!.
  - match goal with
    | |- context [set_precision_and_device ?a ?b ?c ?d ?e ?f ?cs ?net ?cfg ?sc'] =>
        destruct (set_precision_and_device a b c d e f cs net cfg sc') as [o fr] eqn:Hr
    end.
    apply set_precision_and_device_frame in Hr as (Hdef & Hsc & Hcalls & Hengines).
    exists o, fr. split; [done|]. rewrite Hsc, Hcalls. split_and!; try done.
    apply Forall_app. split; [done|].
    apply Forall_forall. intros c Hc.
    apply elem_of_lookup_imap in Hc as (k & p & -> & _). done.
  - match goal with
    | |- context [set_precision_and_device ?a ?b ?c ?d ?e ?f ?cs ?net ?cfg ?sc'] =>
        destruct (set_precision_and_device a b c d e f cs net cfg sc') as [o fr] eqn:Hr
    end.
    apply set_precision_and_device_frame in Hr as (Hdef & Hsc & Hcalls & Hengines).
    exists o, fr. split; [done|]. rewrite Hsc, Hcalls. split_and!; try done.
    apply Forall_app. split; [done|]. by repeat constructor.
  - match goal with
    | |- context [set_precision_and_device ?a ?b ?c ?d ?e ?f ?cs ?net ?cfg ?sc'] =>
        destruct (set_precision_and_device a b c d e f cs net cfg sc') as [o fr] eqn:Hr
    end.
    apply set_precision_and_device_frame in Hr as (Hdef & Hsc & Hcalls & Hengines).
    exists o, fr. split; [done|]. rewrite Hsc, Hcalls. by split_and!.
Qed.
End CompileTheorems.

Lemma keys_in_order_keys (m : ShapeRangesMap) :
  NoDup (keys_in_order m)
  /\ forall name, name ∈ keys_in_order m <-> is_Some (m !! name).
Proof.
  unfold keys_in_order. split.
  - apply NoDup_fst_map_to_list.
  - intros name. rewrite list_elem_of_fmap. split.
    + intros ([k v] & -> & Hkv). apply elem_of_map_to_list in Hkv. by exists v.
    + intros [v Hv]. exists (name, v). split; [done|]. by apply elem_of_map_to_list.
Qed.

Lemma y_profile_covers :
  profiles_cover (num_profiles GetNumProfiles_spec y_profile_settings)
    (profile_min_shapes_ y_profile_settings) (profile_max_shapes_ y_profile_settings)
    (profile_opt_shapes_ y_profile_settings) two_input_network.
Proof.
  intros input Hin Hsome i Hi.
  assert (num_profiles GetNumProfiles_spec y_profile_settings = 1%nat) as HN
    by (vm_compute; reflexivity).
  rewrite HN in Hi. assert (i = 0%nat) as -> by lia.
  simpl in Hin. apply elem_of_cons in Hin as [-> | Hin].
  - exfalso. destruct Hsome as [v Hv]. vm_compute in Hv. discriminate.
  - apply list_elem_of_singleton in Hin as ->.
    unfold profile_defined_at. simpl. intros j Hj.
    destruct j as [|[|j]]; simpl in Hj; try discriminate.
    repeat split; by eexists.
Qed.

Lemma plain_settings_cover net :
  profiles_cover (num_profiles GetNumProfiles_spec plain_settings)
    (profile_min_shapes_ plain_settings) (profile_max_shapes_ plain_settings)
    (profile_opt_shapes_ plain_settings) net.
Proof. intros input Hin Hsome i Hi. vm_compute in Hi. lia. Qed.

(** C1, on a network with the dynamic inputs [x] and [y] and explicit
    profiles for [y] only: the message names [x]. *)
Lemma explicit_profiles_must_cover_all_dynamic_inputs_witness :
  exists names frame,
    CreateNodeComputeInfoFromGraph 10 0 BuilderFlag_bit_10
      NetworkDefinitionCreationFlag_bit_10 GetNumProfiles_spec path_append keys_in_order
      (build_env_of two_input_network) (provider_with y_profile_settings false)
    = (Returns
         (CreateStatus ORT_EP_FAIL
            ("User needs to provide all the dynamic shape inputs with associated profiles if they want to explicitly set profiles through provider options."
             +:+ String "010"%char ""
             +:+ "Please note that main graph could be partitioned into TRT/CUDA/CPU subgraphs, in this case, user also needs to provide shape profiles for the TRT subgraph's input if it's dynamic shape input."
             +:+ String "010"%char ""
             +:+ "Following input(s) has no associated shape profiles provided: "
             +:+ String.concat "," names)),
       frame)
    /\ names <> []
    /\ NoDup names
    /\ (forall name, name ∈ names <->
          exists input, input ∈ inputs two_input_network /\ getName input = name
                        /\ is_dynamic input = true
                        /\ applies_explicit_profile true
                             (num_profiles GetNumProfiles_spec y_profile_settings)
                             (profile_min_shapes_ y_profile_settings) name = false)
    /\ optimization_profiles (trt_config frame) = []
    /\ Forall (fun c => adds_profile c = false /\ builds_engine c = false) (calls frame)
    /\ engines_ (provider frame) = ∅.
Proof.
  apply (explicit_profiles_must_cover_all_dynamic_inputs 10 0 BuilderFlag_bit_10
           NetworkDefinitionCreationFlag_bit_10 GetNumProfiles_spec path_append
           keys_in_order keys_in_order_keys
           (build_env_of two_input_network) (provider_with y_profile_settings false)).
  - reflexivity.
  - exact y_profile_covers.
  - exists {| getName := "x"; getDimensions := [-1; 768]; isShapeTensor := false |}.
    split; [by left|]. split; reflexivity.
Defined.

(** C5, on dimension 0 of the input [x] when no profile is given. *)
Lemma dynamic_dimension_without_profile_is_seeded_witness :
  exists outcome frame,
    CreateNodeComputeInfoFromGraph 10 0 BuilderFlag_bit_10
      NetworkDefinitionCreationFlag_bit_10 GetNumProfiles_spec path_append keys_in_order
      (build_env_of two_input_network) (provider_with plain_settings false)
    = (outcome, frame)
    /\ outcome <> Undefined
    /\ entry (input_implicit_shape_ranges (scan frame)) "x" 0
       = Some [[INT_MAX; INT_MIN; INT_MIN]]
    /\ Forall (fun c => builds_engine c = false) (calls frame)
    /\ engines_ (provider frame) = ∅.
Proof.
  apply (dynamic_dimension_without_profile_is_seeded 10 0 BuilderFlag_bit_10
           NetworkDefinitionCreationFlag_bit_10 GetNumProfiles_spec path_append
           keys_in_order
           (build_env_of two_input_network) (provider_with plain_settings false)
           {| getName := "x"; getDimensions := [-1; 768]; isShapeTensor := false |} 0%nat).
  - apply plain_settings_cover.
  - by left.
  - reflexivity.
  - discriminate.
  - reflexivity.
Defined.
(** ** Allocation sizes *)

Lemma land_lnot_ones (x k : Z) :
  0 <= k -> 0 <= x < 2 ^ 64 ->
  Z.land x (to_size_t (Z.lnot (2 ^ k - 1))) = x - x mod 2 ^ k.
Proof.
  intros Hk Hx. unfold to_size_t.
  change 18446744073709551616 with (2 ^ 64).
  replace (2 ^ k - 1) with (Z.ones k) by (rewrite Z.ones_equiv; lia).
  rewrite <- (Z.land_ones (Z.lnot (Z.ones k)) 64) by lia.
  rewrite Z.land_assoc, (Z.land_comm x), <- Z.land_assoc.
  rewrite (Z.land_ones x 64) by lia. rewrite (Z.mod_small x) by lia.
  rewrite Z.land_comm. rewrite <- Z.ldiff_land.
  rewrite Z.ldiff_ones_r by lia.
  rewrite Z.shiftr_div_pow2, Z.shiftl_mul_pow2 by lia.
  pose proof (Z.div_mod x (2 ^ k)). lia.
Qed.

(** X1.  With an alignment that is a power of two, and as long as the
    rounded size fits in a [size_t], [CalcMemSizeForArrayWithAlignment]
    reports success and writes the byte size of the array rounded up to
    the next multiple of the alignment. *)
Theorem CalcMemSizeForArrayWithAlignment_rounds_up :
  forall nmemb size k,
    0 <= nmemb -> 0 <= size -> 0 <= k < 64 ->
    nmemb * size + 2 ^ k - 1 < 2 ^ 64 ->
    let r := CalcMemSizeForArrayWithAlignment nmemb size (2 ^ k) in
    fst r = true
    /\ snd r mod 2 ^ k = 0
    /\ nmemb * size <= snd r < nmemb * size + 2 ^ k.
Proof.
  intros nmemb size k Hn Hs Hk Hfit r. subst r.
  assert (0 < 2 ^ k) as Hpos by (apply Z.pow_pos_nonneg; lia).
  assert (2 ^ k <= 2 ^ 63) as Hle by (apply Z.pow_le_mono_r; lia).
  assert (0 <= size * nmemb) as Hprod by nia.
  unfold CalcMemSizeForArrayWithAlignment.
  rewrite bool_decide_eq_false_2 by lia. cbn [fst snd].
  assert (forall v, 0 <= v < 2 ^ 64 -> to_size_t v = v) as Hsmall.
  { intros v Hv. unfold to_size_t. change 18446744073709551616 with (2 ^ 64).
    by apply Z.mod_small. }
  rewrite (Hsmall (2 ^ k - 1)) by lia.
  rewrite (Hsmall (size * nmemb)) by lia.
  rewrite (Hsmall (size * nmemb + (2 ^ k - 1))) by lia.
  rewrite land_lnot_ones by lia.
  set (y := size * nmemb + (2 ^ k - 1)).
  pose proof (Z.mod_pos_bound y (2 ^ k) Hpos) as Hmod.
  split; [done|]. split.
  - rewrite Zminus_mod, Z.mod_mod by lia. rewrite Z.sub_diag. apply Z.mod_0_l. lia.
  - subst y. lia.
Qed.

(** X1, on 3 elements of 5 bytes aligned to 8: 16 bytes. *)
Lemma CalcMemSizeForArrayWithAlignment_rounds_up_witness :
  let r := CalcMemSizeForArrayWithAlignment 3 5 (2 ^ 3) in
  fst r = true /\ snd r mod 2 ^ 3 = 0 /\ 3 * 5 <= snd r < 3 * 5 + 2 ^ 3.
Proof.
  apply (CalcMemSizeForArrayWithAlignment_rounds_up 3 5 3); lia.
Defined.

(** X2.  [CalcMemSizeForArrayWithAlignment] has no overflow check: it
    reports success for all arguments, and without alignment the size it
    writes is the product reduced modulo 2^64, which is smaller than the
    array as soon as the product does not fit.  Through
    [MakeUniquePtrFromOrtAllocator<T>], 2^61 elements of 8 bytes ask the
    allocator for 0 bytes. *)
Theorem CalcMemSizeForArrayWithAlignment_wraps :
  forall nmemb size alignment,
    fst (CalcMemSizeForArrayWithAlignment nmemb size alignment) = true
    /\ snd (CalcMemSizeForArrayWithAlignment nmemb size 0) = (size * nmemb) mod 2 ^ 64
    /\ (2 ^ 64 <= size * nmemb ->
        snd (CalcMemSizeForArrayWithAlignment nmemb size 0) < size * nmemb)
    /\ alloc_size_of (Some 8) (2 ^ 61) = 0.
Proof.
  intros nmemb size alignment. unfold CalcMemSizeForArrayWithAlignment.
  split; [by case_bool_decide|].
  rewrite bool_decide_eq_true_2 by done. cbn [snd]. unfold to_size_t.
  change 18446744073709551616 with (2 ^ 64).
  split; [done|]. split; [|reflexivity].
  intros Hbig. pose proof (Z.mod_pos_bound (size * nmemb) (2 ^ 64)). lia.
Qed.

(** ** [CanCopy] and [CopyTensor] *)

(** X3.  When [CanCopy] answers false for the two devices, neither side
    is on the GPU or in pinned memory, and [CopyTensor] is a plain
    [memcpy] of the bytes: it makes no CUDA call, with or without a
    stream. *)
Theorem CopyTensor_without_CanCopy_is_memcpy :
  forall src sdt smt dst tdt tmt count stream,
    CanCopy sdt smt tdt tmt = false ->
    CopyTensor src sdt smt dst tdt count stream = (nullptr, [memcpy dst src count]).
Proof.
  intros src sdt smt dst tdt tmt count stream H. unfold CanCopy in H.
  apply orb_false_iff in H as [H Htm]. apply orb_false_iff in H as [H Htd].
  apply orb_false_iff in H as [Hsd Hsm].
  apply bool_decide_eq_false in Hsd, Hsm, Htd.
  unfold CopyTensor.
  rewrite (bool_decide_eq_false_2 (sdt = OrtMemoryInfoDeviceType_GPU)) by done.
  rewrite (bool_decide_eq_false_2 (tdt = OrtMemoryInfoDeviceType_GPU)) by done.
  rewrite (bool_decide_eq_false_2 (smt = OrtMemoryType_CUDA_PINNED)) by done.
  cbn [andb]. rewrite !andb_false_r. reflexivity.
Qed.

(** X3, on pageable host memory on both sides. *)
Lemma CopyTensor_without_CanCopy_is_memcpy_witness :
  CopyTensor 1024 OrtMemoryInfoDeviceType_CPU OrtMemoryType_Default 2048
    OrtMemoryInfoDeviceType_CPU 64 7
  = (nullptr, [memcpy 2048 1024 64]).
Proof.
  apply (CopyTensor_without_CanCopy_is_memcpy 1024 OrtMemoryInfoDeviceType_CPU
           OrtMemoryType_Default 2048 OrtMemoryInfoDeviceType_CPU OrtMemoryType_Default 64 7).
  reflexivity.
Defined.

(** X4.  [CopyTensor] never reports an error, and the copy calls it
    makes are: none for a GPU-to-GPU copy onto the same address, and in
    every other case exactly one, of [count] bytes from [src] to
    [dst]. *)
Theorem CopyTensor_copies_once :
  forall src sdt smt dst tdt count stream,
    let r := CopyTensor src sdt smt dst tdt count stream in
    fst r = nullptr
    /\ omap copy_of (snd r)
       = if bool_decide (sdt = OrtMemoryInfoDeviceType_GPU
                         /\ tdt = OrtMemoryInfoDeviceType_GPU /\ src = dst)
         then [] else [(dst, src, count)].
Proof.
  intros src sdt smt dst tdt count stream r. subst r. unfold CopyTensor.
  destruct sdt, tdt; cbn [bool_decide decide_rel andb orb];
    repeat (case_bool_decide; simplify_eq; cbn [andb]);
    try (split; [reflexivity|]); cbn; try done; naive_solver.
Qed.

(** ** [RefitEngine]: when it succeeds and what it writes *)

Section RefitMore.
Variable NV_TENSORRT_MAJOR : Z.
Variables IsAbsolutePath IsRelativePathToParentPath : string -> bool.
Variable GetWeightRefittedEnginePath : string -> string.

(** X5.  [RefitEngine] returns success exactly when TensorRT is at least
    version 10, the joined model path passes the two path tests (which
    are only made with [path_check] set), the file exists, and both the
    parser refitter and the refitter succeed. *)
Theorem RefitEngine_succeeds_iff :
  forall env onnx_model_filename onnx_model_folder_path weight_stripped_engine_cath_path
         path_check serialize_refitted_engine detailed_build_log,
    let onnx_model_path := path_append onnx_model_folder_path onnx_model_filename in
    fst (RefitEngine NV_TENSORRT_MAJOR IsAbsolutePath IsRelativePathToParentPath
           GetWeightRefittedEnginePath env onnx_model_filename onnx_model_folder_path
           weight_stripped_engine_cath_path path_check serialize_refitted_engine
           detailed_build_log) = nullptr
    <-> NV_TENSORRT_MAJOR >= 10
        /\ (path_check = true ->
            IsAbsolutePath onnx_model_path = false
            /\ IsRelativePathToParentPath onnx_model_path = false)
        /\ exists_ env onnx_model_path = true
        /\ refitFromFile_result env onnx_model_path = true
        /\ refitCudaEngine_result env = true.
Proof.
  intros env file folder cache path_check ser log P.
  unfold RefitEngine. fold P.
  case_bool_decide as Hmajor; [|split; [done|tauto]].
  destruct path_check, (IsAbsolutePath P), (IsRelativePathToParentPath P),
    (exists_ env P), (refitFromFile_result env P), (refitCudaEngine_result env);
    cbn; split; try done; try tauto; intros (_ & H & ? & ? & ?); try done;
    by destruct (H eq_refl).
Qed.

(** X6.  The refitted engine is written to disk exactly when the refit
    succeeded and [serialize_refitted_engine] is set, and then to the
    path that [GetWeightRefittedEnginePath] derives from the cache path:
    no failure path of [RefitEngine] writes a file. *)
Theorem RefitEngine_writes_only_after_success :
  forall env onnx_model_filename onnx_model_folder_path weight_stripped_engine_cath_path
         path_check serialize_refitted_engine detailed_build_log path,
    let r := RefitEngine NV_TENSORRT_MAJOR IsAbsolutePath IsRelativePathToParentPath
               GetWeightRefittedEnginePath env onnx_model_filename onnx_model_folder_path
               weight_stripped_engine_cath_path path_check serialize_refitted_engine
               detailed_build_log in
    ofstream_write path ∈ snd r
    <-> fst r = nullptr /\ serialize_refitted_engine = true
        /\ path = GetWeightRefittedEnginePath weight_stripped_engine_cath_path.
Proof.
  intros env file folder cache path_check ser log path r. subst r.
  unfold RefitEngine.
  set (P := path_append folder file).
  case_bool_decide as Hmajor; cbn [fst snd]; [|rewrite elem_of_nil; naive_solver].
  destruct (path_check && IsAbsolutePath P), (path_check && IsRelativePathToParentPath P),
    (exists_ env P), (refitFromFile_result env P), (refitCudaEngine_result env), ser;
    cbn [negb fst snd app];
    rewrite ?elem_of_cons, ?elem_of_nil; naive_solver.
Qed.
End RefitMore.

(** ** [ApplyProfileShapesFromProviderOptions]: answers and static inputs *)

(** X7.  [ApplyProfileShapesFromProviderOptions] answers false exactly
    when there is no profile to fill or the map of minimum shapes does
    not name the input, and in that case it leaves the profiles and the
    explicit shape ranges as they were. *)
Theorem ApplyProfileShapesFromProviderOptions_declines :
  forall input profile_min_shapes profile_max_shapes profile_opt_shapes p,
    let r := ApplyProfileShapesFromProviderOptions input profile_min_shapes
               profile_max_shapes profile_opt_shapes p in
    (fst r = Returns false
     <-> trt_profiles p = [] \/ profile_min_shapes !! getName input = None)
    /\ (fst r = Returns false -> snd r = p).
Proof.
  intros input mn mx op p r. subst r. unfold ApplyProfileShapesFromProviderOptions.
  case_bool_decide as Hlen.
  { apply length_zero_iff_nil in Hlen. cbn. naive_solver. }
  case_bool_decide as Hname; [cbn; naive_solver|].
  assert (trt_profiles p <> []) as Hne by (intros E; by rewrite E in Hlen).
  unfold mbind, M_bind.
  match goal with |- context [for_each ?xs ?f ?w] => destruct (for_each xs f w) as [[us| | |] w'] end;
    cbn; naive_solver.
Qed.

Lemma for_each_static {W} (dims : list Z) (k : nat -> Z -> M W (Z * Z * Z)) (n i : nat)
    (w : W) :
  -1 ∉ dims -> (i + n <= length dims)%nat ->
  for_each (seq i n) (fun j => d ← at_ dims j;
                               if bool_decide (d = -1) then k j d else mret (d, d, d)) w
  = (Returns ((fun d => (d, d, d)) <$> take n (drop i dims)), w).
Proof.
  intros Hstatic. revert i. induction n as [|n IH]; intros i Hlen; simpl; [done|].
  destruct (lookup_lt_is_Some_2 dims i) as [d Hd]; [lia|].
  assert (d <> -1) as Hne.
  { intros ->. apply Hstatic. by eapply list_elem_of_lookup_2. }
  erewrite bind_Returns; cycle 1.
  { erewrite bind_Returns; [|unfold at_; by rewrite Hd].
    rewrite bool_decide_eq_false_2 by done. reflexivity. }
  erewrite bind_Returns; [|apply IH; lia].
  rewrite (drop_S _ _ _ Hd). reflexivity.
Qed.

Lemma fmap_triple_components (dims : list Z) :
  ((fun d : Z => (d, d, d)) <$> dims).*1.*1 = dims
  /\ ((fun d : Z => (d, d, d)) <$> dims).*1.*2 = dims
  /\ ((fun d : Z => (d, d, d)) <$> dims).*2 = dims.
Proof.
  rewrite <- !list_fmap_compose. split_and!; by rewrite <- (list_fmap_id dims) at 2.
Qed.

Lemma for_each_append_settings (body : nat -> M Profiles unit) (s : list ProfileSetting) :
  (forall i w q, trt_profiles w !! i = Some q ->
     body i w = (Returns tt, {| trt_profiles := <[i := q ++ s]> (trt_profiles w);
                                input_explicit_shape_ranges :=
                                  input_explicit_shape_ranges w |})) ->
  forall n k w, (k + n)%nat = length (trt_profiles w) ->
    for_each (seq k n) body w
    = (Returns (replicate n tt),
       {| trt_profiles := take k (trt_profiles w) ++ ((fun q => q ++ s) <$> drop k (trt_profiles w));
          input_explicit_shape_ranges := input_explicit_shape_ranges w |}).
Proof.
  intros Hbody. induction n as [|n IH]; intros k w Hlen; simpl.
  - rewrite drop_ge by lia. rewrite take_ge by lia. rewrite app_nil_r. by destruct w.
  - destruct (lookup_lt_is_Some_2 (trt_profiles w) k) as [q Hq]; [lia|].
    erewrite bind_Returns by (by apply Hbody).
    erewrite bind_Returns; [|apply IH; cbn; rewrite length_insert; lia].
    cbn. unfold mret, M_ret. do 2 f_equal.
    rewrite (drop_S _ _ _ Hq). cbn.
    rewrite drop_insert_lt by lia.
    rewrite (take_S_r _ _ (q ++ s)).
    2: { apply list_lookup_insert_eq. by eapply lookup_lt_Some. }
    rewrite take_insert_ge by lia. by rewrite <- app_assoc.
Qed.

(** X8.  An execution-tensor input without a dynamic dimension that the
    profile maps name gets, in every profile, its own dimensions as
    minimum, maximum and optimum, whatever values the maps hold for it;
    nothing is read from the maps, the name is entered in the explicit
    shape ranges with no dimension under it, and the answer is true. *)
Theorem static_input_profile_copies_dimensions :
  forall input profile_min_shapes profile_max_shapes profile_opt_shapes p,
    isShapeTensor input = false ->
    -1 ∉ getDimensions input ->
    trt_profiles p <> [] ->
    is_Some (profile_min_shapes !! getName input) ->
    let name := getName input in
    let dims := getDimensions input in
    ApplyProfileShapesFromProviderOptions input profile_min_shapes profile_max_shapes
      profile_opt_shapes p
    = (Returns true,
       {| trt_profiles :=
            (fun q => q ++ [setDimensions name kMIN dims; setDimensions name kMAX dims;
                            setDimensions name kOPT dims]) <$> trt_profiles p;
          input_explicit_shape_ranges :=
            match input_explicit_shape_ranges p !! name with
            | None => <[name := ∅]> (input_explicit_shape_ranges p)
            | Some _ => input_explicit_shape_ranges p
            end |}).
Proof.
  intros input mn mx op p Hexec Hstatic Hne [v Hv] name dims.
  unfold ApplyProfileShapesFromProviderOptions.
  rewrite bool_decide_eq_false_2 by (by intros ?%length_zero_iff_nil).
  rewrite bool_decide_eq_false_2 by (by rewrite Hv).
  erewrite bind_Returns.
  2: { apply (for_each_append_settings _
                [setDimensions name kMIN dims; setDimensions name kMAX dims;
                 setDimensions name kOPT dims]); [|done].
       intros i w q Hq. unfold apply_profile. rewrite Hexec.
       erewrite bind_Returns
         by (by apply (for_each_static _ (fun j _ => read_triple input mn mx op i j))).
       rewrite drop_0, firstn_all.
       destruct (fmap_triple_components (getDimensions input)) as (-> & -> & ->).
       unfold configure_profile. by rewrite Hq. }
  cbn. by rewrite drop_0.
Qed.

(** X8, on an input of fixed shape [3, 224] and two profiles. *)
Lemma static_input_profile_copies_dimensions_witness :
  ApplyProfileShapesFromProviderOptions
    {| getName := "x"; getDimensions := [3; 224]; isShapeTensor := false |}
    {[ "x" := [[1; 1]; [1; 1]] ]} ∅ ∅
    {| trt_profiles := [[]; []]; input_explicit_shape_ranges := ∅ |}
  = (Returns true,
     {| trt_profiles :=
          (fun q => q ++ [setDimensions "x" kMIN [3; 224]; setDimensions "x" kMAX [3; 224];
                          setDimensions "x" kOPT [3; 224]]) <$> [[]; []];
        input_explicit_shape_ranges :=
          match (∅ : ShapeRangesMap) !! "x" with
          | None => <["x" := ∅]> ∅
          | Some _ => ∅
          end |}).
Proof.
  apply (static_input_profile_copies_dimensions
           {| getName := "x"; getDimensions := [3; 224]; isShapeTensor := false |}
           {[ "x" := [[1; 1]; [1; 1]] ]} ∅ ∅
           {| trt_profiles := [[]; []]; input_explicit_shape_ranges := ∅ |}).
  - reflexivity.
  - cbn. rewrite !elem_of_cons, elem_of_nil. intros [H|[H|H]]; [discriminate H|discriminate H|exact H].
  - discriminate.
  - by eexists.
Defined.

(** ** The compile step: what it calls, configures and returns *)

Lemma quiet_ret {W A} (a : A) : quiet (mret a : M W A).
Proof. by intros w. Qed.

Lemma quiet_bind {W A B} (m : M W A) (k : A -> M W B) :
  quiet m -> (forall a, quiet (k a)) -> quiet (m ≫= k).
Proof.
  intros Hm Hk w. unfold mbind, M_bind. specialize (Hm w).
  destruct (m w) as [[a| | |] w']; simpl in *; try done. apply Hk.
Qed.

Lemma quiet_gets {W A} (f : W -> A) : quiet (gets f).
Proof. by intros w. Qed.

Lemma quiet_modify {W} (f : W -> W) : quiet (modify f).
Proof. by intros w. Qed.

Lemma quiet_undefined {W A} : quiet (@undefined W A).
Proof. by intros w. Qed.

Lemma quiet_at {W A} (v : list A) i : quiet (at_ v i : M W A).
Proof. intros w. unfold at_. by destruct (v !! i). Qed.

Lemma quiet_for_each {W A B} (xs : list A) (body : A -> M W B) :
  (forall x, quiet (body x)) -> quiet (for_each xs body).
Proof.
  intros Hbody. induction xs as [|x xs IH]; simpl; [apply quiet_ret|].
  apply quiet_bind; [done|]. intros y. apply quiet_bind; [done|]. intros ys. apply quiet_ret.
Qed.

Lemma quiet_on_profiles {A} (m : M Profiles A) : quiet m -> quiet (on_profiles m).
Proof.
  intros Hm w. unfold on_profiles. specialize (Hm (scan_profiles w)).
  by destruct (m (scan_profiles w)) as [[a| | |] p].
Qed.

Lemma quiet_record_triple name j i a b c : quiet (record_triple name j i a b c).
Proof.
  intros w. unfold record_triple. cbv zeta.
  by destruct (_ !! i).
Qed.

Lemma quiet_configure_profile i settings : quiet (configure_profile i settings).
Proof. intros w. unfold configure_profile. by destruct (_ !! i). Qed.

(** Decompose a computation on profiles or on the scan state. *)
Ltac quiet_steps :=
  repeat first
    [ apply quiet_ret
    | apply quiet_gets
    | apply quiet_modify
    | apply quiet_undefined
    | apply quiet_at
    | apply quiet_record_triple
    | apply quiet_configure_profile
    | apply quiet_bind; [|intros ?]
    | apply quiet_for_each; intros ?
    | apply quiet_on_profiles
    | match goal with
      | |- quiet (if ?b then _ else _) => destruct b
      | |- quiet (match ?x with _ => _ end) => destruct x
      end ].

Lemma quiet_ApplyProfileShapesFromProviderOptions input mn mx op :
  quiet (ApplyProfileShapesFromProviderOptions input mn mx op).
Proof.
  intros w. unfold ApplyProfileShapesFromProviderOptions.
  do 2 (case_bool_decide; [by cbn|]).
  match goal with |- context [?m ?w1] =>
    match m with mbind _ _ => assert (quiet m) as Hq; [|exact (Hq w1)] end end.
  unfold apply_profile, read_triple, shape_value. quiet_steps.
Qed.

Lemma quiet_scan_input he mn mx op input : quiet (scan_input he mn mx op input).
Proof.
  unfold scan_input. quiet_steps. apply quiet_ApplyProfileShapesFromProviderOptions.
Qed.

Lemma testbit_shiftl_1 (b n : Z) :
  0 <= b -> 0 <= n -> Z.testbit (Z.shiftl 1 b) n = bool_decide (n = b).
Proof.
  intros Hb Hn. rewrite Z.shiftl_spec by done.
  case_bool_decide as E.
  - subst. by rewrite Z.sub_diag.
  - destruct (decide (n < b)).
    + apply Z.testbit_neg_r. lia.
    + apply (Z.bits_above_log2 1 (n - b)); [lia|]. simpl. lia.
Qed.

Section CompileMore.
Variables NV_TENSORRT_MAJOR NV_TENSORRT_MINOR : Z.
Variable BuilderFlag_bit : BuilderFlag -> Z.
Variable NetworkDefinitionCreationFlag_bit : NetworkDefinitionCreationFlag -> Z.
Variable GetNumProfiles : ProfileShapes -> Z.
Variable GetCachePath : string -> string -> string.
Variable iteration_order : ShapeRangesMap -> list string.

Let compile := CreateNodeComputeInfoFromGraph NV_TENSORRT_MAJOR NV_TENSORRT_MINOR
                 BuilderFlag_bit NetworkDefinitionCreationFlag_bit GetNumProfiles
                 GetCachePath iteration_order.
Let finish := set_precision_and_device NV_TENSORRT_MAJOR NV_TENSORRT_MINOR BuilderFlag_bit
                GetCachePath.
Let opening := opening_calls NV_TENSORRT_MAJOR NetworkDefinitionCreationFlag_bit.

(** The two ways the compile step ends: in the common tail that sets
    precision and device, or, with explicit profiles, before it. *)
Lemma compile_cases env this_ :
  let s := settings this_ in
  let net := guarded_network env this_ in
  (exists rest cfg sc,
      Forall (fun c => is_profile_call c = true) rest
      /\ flags cfg = flags (createBuilderConfig_result env)
      /\ default_device_type cfg = default_device_type (createBuilderConfig_result env)
      /\ DLACore cfg = DLACore (createBuilderConfig_result env)
      /\ compile env this_ = finish env this_ (opening this_ ++ rest) net cfg sc)
  \/ (has_explicit_profile s = true
      /\ exists rest sc o,
           Forall (fun c => is_profile_call c = true) rest
           /\ (o = Undefined
               \/ o = Returns (CreateStatus ORT_EP_FAIL
                                 (missing_profiles_message
                                    (iteration_order (input_implicit_shape_ranges sc)))))
           /\ compile env this_
              = (o, {| provider := with_precision this_ (fp16_enable_ this_)
                                     (int8_enable_ this_) (dla_enable_ this_)
                                     (dla_core_ this_);
                       calls := opening this_ ++ rest;
                       trt_network := net;
                       trt_config := setMemoryPoolLimit_kWORKSPACE (max_workspace_size_ s)
                                       (createBuilderConfig_result env);
                       scan := sc;
                       trt_node_name_with_precision := "" |})).
Proof.
  intros s net. subst net. unfold guarded_network.
  unfold compile, CreateNodeComputeInfoFromGraph. cbv zeta. fold s.
  change ([GetTensorrtLogger (detailed_build_log_ s)] ++ _ ++ [createNetworkV2 _; _; _; _])
    with (opening this_).
  set (net := if fp16_enable_ this_ && layer_norm_fp32_fallback_ s
              then force_layer_norm_fp32 (parsed_network env) else parsed_network env).
  set (N := num_profiles GetNumProfiles s).
  set (sc0 := {| scan_profiles := _ |}).
  pose proof (quiet_for_each (inputs net)
                (scan_input (has_explicit_profile s) (profile_min_shapes_ s)
                   (profile_max_shapes_ s) (profile_opt_shapes_ s))
                (fun input => quiet_scan_input _ _ _ _ input) sc0) as Hquiet.
  assert (Forall (fun c => is_profile_call c = true) (replicate N createOptimizationProfile))
    as Hrep by (by apply Forall_replicate).
  destruct (has_explicit_profile s) eqn:Hexplicit.
  - destruct (for_each _ _ sc0) as [[us| | |] sc]; cbn in Hquiet; try done.
    + destruct (has_dynamic_shape sc).
      * right. split; [done|]. exists (replicate N createOptimizationProfile), sc.
        eexists. split; [done|]. split; [by right|]. reflexivity.
      * left.
        exists (replicate N createOptimizationProfile
                ++ imap (fun k _ => addOptimizationProfile k) (trt_profiles (scan_profiles sc))).
        eexists _, sc. split_and!; [| | | |by rewrite app_assoc]; try done.
        apply Forall_app. split; [done|].
        apply Forall_forall. intros c Hc. by apply elem_of_lookup_imap in Hc as (k & p & -> & _).
    + right. split; [done|]. exists (replicate N createOptimizationProfile), sc, Undefined.
      split; [done|]. split; [by left|]. reflexivity.
  - left.
    destruct (scan_Returns false N (profile_min_shapes_ s) (profile_max_shapes_ s)
                (profile_opt_shapes_ s) (inputs net) sc0
                (initial_scan_inv false N (profile_min_shapes_ s) (inputs net)))
      as (us & sc & Hscan & _); [done|].
    rewrite Hscan.
    destruct (has_dynamic_shape sc).
    + exists (replicate N createOptimizationProfile ++ [createOptimizationProfile]).
      eexists _, _. split_and!; [| | | |by rewrite app_assoc]; try done.
      apply Forall_app. split; [done|]. by repeat constructor.
    + exists (replicate N createOptimizationProfile).
      eexists _, _. split_and!; [| | | |reflexivity]; try done.
Qed.

(** The tail of the compile step: what it leaves in the provider. *)
Lemma finish_provider env this_ cs net cfg sc :
  let r := finish env this_ cs net cfg sc in
  calls (snd r) = cs
  /\ builder_ (provider (snd r)) = true
  /\ engines_ (provider (snd r)) = engines_ this_
  /\ fp16_enable_ (provider (snd r)) = effective_fp16 env this_
  /\ int8_enable_ (provider (snd r)) = effective_int8 env this_.
Proof.
  unfold finish, set_precision_and_device, effective_fp16, effective_int8.
  repeat case_match; simplify_eq; cbn; done.
Qed.

(** The tail of the compile step: how it ends. *)
Lemma finish_outcome env this_ cs net cfg sc :
  let s := settings this_ in
  let path := GetCachePath (cache_path_ s) (int8_calibration_cache_name_ s) in
  fst (finish env this_ cs net cfg sc)
  = if effective_int8 env this_ && int8_calibration_cache_available_ s
       && negb (ReadDynamicRange_result env path)
    then Throws ("Failed to read INT8 calibration table " +:+ path)
    else Returns nullptr.
Proof.
  unfold finish, set_precision_and_device, effective_int8.
  repeat case_match; simplify_eq; cbn; done.
Qed.

(** The flags, the device and the core the tail of the compile step
    leaves in the configuration when it returns. *)
Lemma finish_config env this_ cs net cfg sc :
  let r := finish env this_ cs net cfg sc in
  let bit f := Z.shiftl 1 (BuilderFlag_bit f) in
  let both := effective_fp16 env this_ && effective_int8 env this_ in
  let core := if bool_decide (dla_core_ this_ >= getNbDLACores env) then 0
              else dla_core_ this_ in
  let f1 := if both then Z.lor (bit kFP16) (bit kINT8_flag)
            else if effective_fp16 env this_ then Z.lor (flags cfg) (bit kFP16)
            else if effective_int8 env this_ then Z.lor (flags cfg) (bit kINT8_flag)
            else flags cfg in
  let f2 := if uses_DLA env this_ then Z.lor f1 (bit kGPU_FALLBACK) else f1 in
  let f3 := if turns_on NV_TENSORRT_MAJOR NV_TENSORRT_MINOR env this_ kSPARSE_WEIGHTS
            then Z.lor f2 (bit kSPARSE_WEIGHTS) else f2 in
  let f4 := if turns_on NV_TENSORRT_MAJOR NV_TENSORRT_MINOR env this_ kENABLE_TACTIC_HEURISTIC
            then Z.lor f3 (bit kENABLE_TACTIC_HEURISTIC) else f3 in
  fst r = Returns nullptr ->
  flags (trt_config (snd r)) = f4
  /\ default_device_type (trt_config (snd r))
     = (if uses_DLA env this_ then kDLA else default_device_type cfg)
  /\ DLACore (trt_config (snd r)) = (if uses_DLA env this_ then core else DLACore cfg)
  /\ dla_core_ (provider (snd r)) = (if uses_DLA env this_ then core else dla_core_ this_)
  /\ optimization_profiles (trt_config (snd r)) = optimization_profiles cfg.
Proof.
  unfold finish, set_precision_and_device, uses_DLA, turns_on, effective_fp16,
    effective_int8.
  cbv zeta.
  destruct (int8_enable_ this_ && platformHasFastInt8 env
            && int8_calibration_cache_available_ (settings this_)
            && negb (ReadDynamicRange_result env _)); [done|].
  intros _.
  destruct (fp16_enable_ this_ && platformHasFastFp16 env),
    (int8_enable_ this_ && platformHasFastInt8 env), (dla_enable_ this_);
    cbn [andb orb negb fst snd];
    try (destruct (bool_decide (dla_core_ this_ >= 0)); cbn [andb orb negb fst snd];
         destruct (bool_decide (getNbDLACores env = 0)); cbn [andb orb negb fst snd]);
    destruct (sparsity_enable_ (settings this_)),
      (bool_decide (NV_TENSORRT_MAJOR = 8) && bool_decide (NV_TENSORRT_MINOR = 5)
       && build_heuristics_enable_ (settings this_));
    cbn; split_and!; reflexivity.
Qed.
End CompileMore.

Section CompileExtras.
Variables NV_TENSORRT_MAJOR NV_TENSORRT_MINOR : Z.
Variable BuilderFlag_bit : BuilderFlag -> Z.
Variable NetworkDefinitionCreationFlag_bit : NetworkDefinitionCreationFlag -> Z.
Variable GetNumProfiles : ProfileShapes -> Z.
Variable GetCachePath : string -> string -> string.
Variable iteration_order : ShapeRangesMap -> list string.

Let compile := CreateNodeComputeInfoFromGraph NV_TENSORRT_MAJOR NV_TENSORRT_MINOR
                 BuilderFlag_bit NetworkDefinitionCreationFlag_bit GetNumProfiles
                 GetCachePath iteration_order.

Lemma compile_builder env this_ :
  builder_ (provider (snd (compile env this_))) = true
  /\ (createInferBuilder ∈ calls (snd (compile env this_)) <-> builder_ this_ = false).
Proof.
  assert (forall rest, Forall (fun c => is_profile_call c = true) rest ->
            (createInferBuilder
             ∈ opening_calls NV_TENSORRT_MAJOR NetworkDefinitionCreationFlag_bit this_ ++ rest
             <-> builder_ this_ = false)) as Hopen.
  { intros rest Hrest. unfold opening_calls. rewrite Forall_forall in Hrest.
    destruct (builder_ this_); set_unfold; naive_solver. }
  unfold compile.
  destruct (compile_cases NV_TENSORRT_MAJOR NV_TENSORRT_MINOR BuilderFlag_bit
              NetworkDefinitionCreationFlag_bit GetNumProfiles GetCachePath iteration_order
              env this_)
    as [(rest & cfg & sc & Hrest & _ & _ & _ & ->)
       |(_ & rest & sc & o & Hrest & _ & ->)].
  - match goal with |- context [set_precision_and_device ?a ?b ?c ?d env this_ ?cs ?net cfg sc] =>
      destruct (finish_provider a b c d env this_ cs net cfg sc) as (-> & -> & _)
    end.
    split; [done|by apply Hopen].
  - cbn. split; [done|by apply Hopen].
Qed.

(** X9.  [GetBuilder] makes the TensorRT builder on first use and keeps
    it: a compile step calls [createInferBuilder] exactly when the
    provider has no builder yet, and a compile step that follows another
    one on the same provider never calls it. *)
Theorem builder_is_created_once :
  forall env1 env2 this_,
    let first := snd (compile env1 this_) in
    let second := snd (compile env2 (provider first)) in
    (createInferBuilder ∈ calls first <-> builder_ this_ = false)
    /\ createInferBuilder ∉ calls second.
Proof.
  intros env1 env2 this_ first second.
  destruct (compile_builder env1 this_) as [Hb Hc]. split; [done|].
  destruct (compile_builder env2 (provider first)) as [_ Hc2].
  intros Hin. apply Hc2 in Hin. fold first in Hb. congruence.
Qed.

(** X10.  The compile step for a graph never builds, loads or stores an
    engine, whatever the network and the options: it makes no build or
    deserialize call and leaves the engines of the provider as they
    were.  It ends in one of four ways: success, the failure that
    names the inputs without profile (only with explicit profiles), the
    exception for an unreadable INT8 calibration table, or an
    out-of-range read of the profile maps (only with explicit
    profiles); it never aborts. *)
Theorem graph_compile_never_yields_an_engine :
  forall env this_,
    let s := settings this_ in
    let r := compile env this_ in
    Forall (fun c => builds_engine c = false) (calls (snd r))
    /\ engines_ (provider (snd r)) = engines_ this_
    /\ match fst r with
       | Returns st =>
           st = nullptr
           \/ (has_explicit_profile s = true
               /\ exists names, st = CreateStatus ORT_EP_FAIL (missing_profiles_message names))
       | Throws what =>
           what = "Failed to read INT8 calibration table "
                  +:+ GetCachePath (cache_path_ s) (int8_calibration_cache_name_ s)
       | Aborts => False
       | Undefined => has_explicit_profile s = true
       end.
Proof.
  intros env this_ s r. subst r.
  assert (forall rest, Forall (fun c => is_profile_call c = true) rest ->
            Forall (fun c => builds_engine c = false)
              (opening_calls NV_TENSORRT_MAJOR NetworkDefinitionCreationFlag_bit this_ ++ rest))
    as Hopen.
  { intros rest Hrest. unfold opening_calls. rewrite !Forall_app. split_and!.
    - by repeat constructor.
    - by destruct (builder_ this_); repeat constructor.
    - by repeat constructor.
    - eapply Forall_impl; [exact Hrest|]. by intros []. }
  unfold compile.
  destruct (compile_cases NV_TENSORRT_MAJOR NV_TENSORRT_MINOR BuilderFlag_bit
              NetworkDefinitionCreationFlag_bit GetNumProfiles GetCachePath iteration_order
              env this_)
    as [(rest & cfg & sc & Hrest & _ & _ & _ & ->)
       |(Hexplicit & rest & sc & o & Hrest & Ho & ->)].
  - match goal with |- context [set_precision_and_device ?a ?b ?c ?d env this_ ?cs ?net cfg sc] =>
      destruct (finish_provider a b c d env this_ cs net cfg sc) as (-> & _ & -> & _);
      rewrite (finish_outcome a b c d env this_ cs net cfg sc)
    end.
    split_and!; [by apply Hopen|done|].
    match goal with |- context [if ?c then _ else _] => destruct c end; [done|by left].
  - cbn. split_and!; [by apply Hopen|done|].
    destruct Ho as [-> | ->]; [done|]. right. eauto.
Qed.

(** X11.  With no explicit profiles, INT8 enabled and supported by the
    platform, and a calibration table announced, a table that cannot be
    read makes the compile step throw [std::runtime_error] with the path
    of the table in its message. *)
Theorem unreadable_calibration_table_throws :
  forall env this_,
    let s := settings this_ in
    let path := GetCachePath (cache_path_ s) (int8_calibration_cache_name_ s) in
    has_explicit_profile s = false ->
    int8_enable_ this_ = true ->
    platformHasFastInt8 env = true ->
    int8_calibration_cache_available_ s = true ->
    ReadDynamicRange_result env path = false ->
    fst (compile env this_) = Throws ("Failed to read INT8 calibration table " +:+ path).
Proof.
  intros env this_ s path Hexplicit Hint8 Hfast Havail Hread.
  unfold compile.
  destruct (compile_cases NV_TENSORRT_MAJOR NV_TENSORRT_MINOR BuilderFlag_bit
              NetworkDefinitionCreationFlag_bit GetNumProfiles GetCachePath iteration_order
              env this_)
    as [(rest & cfg & sc & Hrest & _ & _ & _ & ->)|(Hexplicit' & _)].
  - rewrite finish_outcome. unfold effective_int8. fold s. fold path.
    by rewrite Hint8, Hfast, Havail, Hread.
  - fold s in Hexplicit'. congruence.
Qed.

(** X12.  When the compile step returns with the configuration pointed
    to a DLA device (and the builder handed out a configuration for the
    GPU), a low-precision mode is in force after the platform check, and
    the core that is set is a core the platform has: a requested core
    index at or above the number of cores is replaced by core 0. *)
Theorem DLA_needs_low_precision_and_an_existing_core :
  forall env this_,
    let r := compile env this_ in
    default_device_type (createBuilderConfig_result env) = kGPU ->
    0 <= getNbDLACores env ->
    fst r = Returns nullptr ->
    default_device_type (trt_config (snd r)) = kDLA ->
    (fp16_enable_ (provider (snd r)) || int8_enable_ (provider (snd r))) = true
    /\ 0 <= DLACore (trt_config (snd r)) < getNbDLACores env
    /\ dla_core_ (provider (snd r)) = DLACore (trt_config (snd r))
    /\ DLACore (trt_config (snd r))
       = (if bool_decide (dla_core_ this_ >= getNbDLACores env) then 0 else dla_core_ this_).
Proof.
  intros env this_ r Hgpu Hcores. subst r.
  unfold compile.
  destruct (compile_cases NV_TENSORRT_MAJOR NV_TENSORRT_MINOR BuilderFlag_bit
              NetworkDefinitionCreationFlag_bit GetNumProfiles GetCachePath iteration_order
              env this_)
    as [(rest & cfg & sc & Hrest & _ & Hdev & _ & ->)
       |(_ & rest & sc & o & Hrest & _ & ->)].
  - intros Hret.
    match goal with |- context [set_precision_and_device ?a ?b ?c ?d env this_ ?cs ?net cfg sc] =>
      destruct (finish_provider a b c d env this_ cs net cfg sc) as (_ & _ & _ & -> & ->);
      destruct (finish_config a b c d env this_ cs net cfg sc Hret)
        as (_ & -> & -> & -> & _)
    end.
    destruct (uses_DLA env this_) eqn:Huses; [|rewrite Hdev, Hgpu; done].
    intros _. unfold uses_DLA in Huses.
    apply andb_true_iff in Huses as [Huses Hn]. apply andb_true_iff in Huses as [Huses Hcore].
    apply andb_true_iff in Huses as [Hlow _].
    apply bool_decide_eq_true in Hcore. apply negb_true_iff, bool_decide_eq_false in Hn.
    split_and!; try done; case_bool_decide; lia.
  - cbn. by rewrite Hgpu.
Qed.

(** X13.  The builder flags after a compile step that returns, given
    distinct non-negative flag positions: a flag is set when the step
    turns it on (FP16 and INT8 as left by the platform check, GPU
    fallback with DLA, sparse weights and the tactic heuristic of
    TensorRT 8.5 as configured), or when the builder's configuration had
    it set already, except that with FP16 and INT8 both in force
    [setFlags] replaces what the configuration had. *)
Theorem builder_flags_after_compile :
  (forall f g, BuilderFlag_bit f = BuilderFlag_bit g -> f = g) ->
  (forall f, 0 <= BuilderFlag_bit f) ->
  forall env this_ f,
    let r := compile env this_ in
    fst r = Returns nullptr ->
    Z.testbit (flags (trt_config (snd r))) (BuilderFlag_bit f)
    = turns_on NV_TENSORRT_MAJOR NV_TENSORRT_MINOR env this_ f
      || (negb (effective_fp16 env this_ && effective_int8 env this_)
          && Z.testbit (flags (createBuilderConfig_result env)) (BuilderFlag_bit f)).
Proof.
  intros Hinj Hnonneg env this_ f r. subst r.
  assert (forall g, Z.testbit (Z.shiftl 1 (BuilderFlag_bit g)) (BuilderFlag_bit f)
                    = bool_decide (f = g)) as Hbit.
  { intros g. rewrite testbit_shiftl_1 by done.
    apply bool_decide_ext. split; [apply Hinj|by intros ->]. }
  unfold compile.
  destruct (compile_cases NV_TENSORRT_MAJOR NV_TENSORRT_MINOR BuilderFlag_bit
              NetworkDefinitionCreationFlag_bit GetNumProfiles GetCachePath iteration_order
              env this_)
    as [(rest & cfg & sc & Hrest & Hflags & _ & _ & ->)
       |(_ & rest & sc & o & Hrest & Ho & ->)].
  - intros Hret.
    match goal with |- context [set_precision_and_device ?a ?b ?c ?d env this_ ?cs ?net cfg sc] =>
      destruct (finish_config a b c d env this_ cs net cfg sc Hret) as (-> & _)
    end.
    rewrite Hflags.
    set (t := Z.testbit (flags (createBuilderConfig_result env)) (BuilderFlag_bit f)).
    destruct f; cbn [turns_on];
      destruct (effective_fp16 env this_), (effective_int8 env this_), (uses_DLA env this_),
        (sparsity_enable_ (settings this_)),
        (bool_decide (NV_TENSORRT_MAJOR = 8) && bool_decide (NV_TENSORRT_MINOR = 5)
         && build_heuristics_enable_ (settings this_));
      cbn [andb orb negb]; rewrite ?Z.lor_spec, ?Hbit; fold t; destruct t; reflexivity.
  - cbn. destruct Ho as [-> | ->]; discriminate.
Qed.

End CompileExtras.

Lemma BuilderFlag_bit_10_distinct :
  (forall f g, BuilderFlag_bit_10 f = BuilderFlag_bit_10 g -> f = g)
  /\ (forall f, 0 <= BuilderFlag_bit_10 f).
Proof. split; [by intros [] []|by intros []]. Qed.


(** X11, on an INT8 provider whose calibration table cannot be read. *)
Lemma unreadable_calibration_table_throws_witness :
  fst (CreateNodeComputeInfoFromGraph 10 0 BuilderFlag_bit_10
         NetworkDefinitionCreationFlag_bit_10 GetNumProfiles_spec path_append keys_in_order
         unreadable_table_env int8_provider)
  = Throws ("Failed to read INT8 calibration table "
            +:+ path_append "cache" "calibration.flatbuffers").
Proof.
  apply (unreadable_calibration_table_throws 10 0 BuilderFlag_bit_10
           NetworkDefinitionCreationFlag_bit_10 GetNumProfiles_spec path_append keys_in_order
           unreadable_table_env int8_provider); reflexivity.
Defined.

(** X12, on a provider that asks for DLA core 5 where the platform has
    two cores: core 0 is set. *)
Lemma DLA_needs_low_precision_and_an_existing_core_witness :
  let r := CreateNodeComputeInfoFromGraph 10 0 BuilderFlag_bit_10
             NetworkDefinitionCreationFlag_bit_10 GetNumProfiles_spec path_append
             keys_in_order dla_env dla_provider in
  (fp16_enable_ (provider (snd r)) || int8_enable_ (provider (snd r))) = true
  /\ 0 <= DLACore (trt_config (snd r)) < 2
  /\ dla_core_ (provider (snd r)) = DLACore (trt_config (snd r))
  /\ DLACore (trt_config (snd r)) = 0.
Proof.
  apply (DLA_needs_low_precision_and_an_existing_core 10 0 BuilderFlag_bit_10
           NetworkDefinitionCreationFlag_bit_10 GetNumProfiles_spec path_append
           keys_in_order dla_env dla_provider); [reflexivity|simpl; lia|reflexivity|reflexivity].
Defined.

(** X13, on the same provider and the GPU-fallback flag. *)
Lemma builder_flags_after_compile_witness :
  Z.testbit
    (flags (trt_config (snd (CreateNodeComputeInfoFromGraph 10 0 BuilderFlag_bit_10
                               NetworkDefinitionCreationFlag_bit_10 GetNumProfiles_spec
                               path_append keys_in_order dla_env dla_provider))))
    (BuilderFlag_bit_10 kGPU_FALLBACK)
  = turns_on 10 0 dla_env dla_provider kGPU_FALLBACK
    || (negb (effective_fp16 dla_env dla_provider && effective_int8 dla_env dla_provider)
        && Z.testbit (flags (createBuilderConfig_result dla_env))
             (BuilderFlag_bit_10 kGPU_FALLBACK)).
Proof.
  apply (builder_flags_after_compile 10 0 BuilderFlag_bit_10
           NetworkDefinitionCreationFlag_bit_10 GetNumProfiles_spec path_append
           keys_in_order (proj1 BuilderFlag_bit_10_distinct)
           (proj2 BuilderFlag_bit_10_distinct) dla_env dla_provider kGPU_FALLBACK).
  reflexivity.
Defined.


(** ** Binding inputs *)

(** X15.  A shape-tensor input whose element type is neither INT32 nor
    INT64 is refused with a failure status that names the input, before
    anything is copied or bound: the world is left as it was.  (The size
    of the shape tensor is read first, from the engine for a scalar and
    else from the first dimension of the tensor.) *)
Theorem shape_tensor_must_be_int32_or_int64 :
  forall NV_TENSORRT_MAJOR env trt_engine input_name input_index w,
    let input_tensor := GetInput env input_index in
    isShapeInferenceIO trt_engine input_name = true ->
    GetElementType input_tensor <> ONNX_TENSOR_ELEMENT_DATA_TYPE_INT32 ->
    GetElementType input_tensor <> ONNX_TENSOR_ELEMENT_DATA_TYPE_INT64 ->
    engine_getTensorShape trt_engine input_name = [] \/ GetShape input_tensor <> [] ->
    BindContextInput NV_TENSORRT_MAJOR env trt_engine input_name input_index w
    = (Returns (CreateStatus ORT_EP_FAIL
                  ("The data type of shape tensor should be INT32 or INT64. Please check the data type of "
                   +:+ input_name)), w).
Proof.
  intros major env eng name idx w t Hshape H32 H64 Hsize.
  unfold BindContextInput. rewrite Hshape. fold t.
  assert (exists n, (if bool_decide (length (engine_getTensorShape eng name) = 0%nat)
                     then mret 1
                     else d ← at_ (GetShape t) 0; mret (to_int32 d)) w
                    = (Returns n, w)) as [n Hn].
  { case_bool_decide as Hlen; [by eexists|].
    destruct Hsize as [Hscalar|Hdims]; [by rewrite Hscalar in Hlen|].
    destruct (GetShape t) as [|d ds]; [done|]. by eexists. }
  erewrite bind_Returns by exact Hn.
  by rewrite !bool_decide_eq_false_2 by done.
Qed.

(** X15, on a float32 tensor offered as the shape tensor [x]. *)
Lemma shape_tensor_must_be_int32_or_int64_witness :
  BindContextInput 10 (run_env_of float_tensor [2; 3] false false)
    {| getIOTensorNames := ["x"; "y"];
       getTensorIOMode := fun name => if bool_decide (name = "x") then kINPUT else kOUTPUT;
       isShapeInferenceIO := fun _ => true;
       engine_getTensorShape := fun _ => [2];
       getDeviceMemorySize := 0 |} "x" 0 empty_world
  = (Returns (CreateStatus ORT_EP_FAIL
                ("The data type of shape tensor should be INT32 or INT64. Please check the data type of "
                 +:+ "x")), empty_world).
Proof.
  apply (shape_tensor_must_be_int32_or_int64 10 (run_env_of float_tensor [2; 3] false false)
           {| getIOTensorNames := ["x"; "y"];
              getTensorIOMode := fun name => if bool_decide (name = "x") then kINPUT else kOUTPUT;
              isShapeInferenceIO := fun _ => true;
              engine_getTensorShape := fun _ => [2];
              getDeviceMemorySize := 0 |} "x" 0 empty_world).
  - reflexivity.
  - discriminate.
  - discriminate.
  - right. discriminate.
Defined.

(** X16.  An execution-tensor input of a bound type that is empty (its
    element count is 0) or has no data is not bound to its own data: one
    byte is allocated, kept in the scratch buffers, and bound in its
    place, so the calls are the shape, the allocation and the
    binding. *)
Theorem empty_input_is_bound_to_a_dummy_byte :
  forall NV_TENSORRT_MAJOR env trt_engine input_name input_index w,
    let input_tensor := GetInput env input_index in
    let dims := input_dims env input_name input_index in
    let p := Alloc_result env (allocations w) 1 in
    isShapeInferenceIO trt_engine input_name = false ->
    (length (context_getTensorShape env input_name) <= length (GetShape input_tensor))%nat ->
    setInputShape_result env input_name dims = true ->
    has_input_case NV_TENSORRT_MAJOR (GetElementType input_tensor) = true ->
    GetTensorData input_tensor = null \/ GetElementCount (GetShape input_tensor) <= 0 ->
    exists w',
      BindContextInput NV_TENSORRT_MAJOR env trt_engine input_name input_index w
      = (Returns nullptr, w')
      /\ made w' = made w ++ [setInputShape input_name dims; Alloc 1;
                              setTensorAddress input_name (DeviceAddress p)]
      /\ scratch_buffers w' = scratch_buffers w ++ [p]
      /\ allocations w' = S (allocations w).
Proof.
  intros major env eng name idx w t dims p Hexec Hlen Hshape Hcase Hempty.
  rewrite BindContextInput_execution_tensor by done. fold t. rewrite Hcase.
  unfold CASE_GET_INPUT_TENSOR. fold t.
  assert (bool_decide (GetTensorData t <> null)
          && bool_decide (GetElementCount (GetShape t) > 0) = false) as ->.
  { destruct Hempty as [Hnull|Hcount].
    - by rewrite (bool_decide_eq_false_2 (GetTensorData t <> null)) by naive_solver.
    - rewrite (bool_decide_eq_false_2 (GetElementCount (GetShape t) > 0)) by lia.
      apply andb_false_r. }
  eexists. split; [reflexivity|]. cbn. by rewrite <- !app_assoc.
Qed.

(** X16, on a float32 tensor of shape [0, 3]. *)
Lemma empty_input_is_bound_to_a_dummy_byte_witness :
  let env := run_env_of {| GetElementType := ONNX_TENSOR_ELEMENT_DATA_TYPE_FLOAT;
                           GetShape := [0; 3]; GetTensorData := 1024 |}
               [-1; 3] false false in
  exists w',
    BindContextInput 10 env x_to_y_engine "x" 0 empty_world = (Returns nullptr, w')
    /\ made w' = made empty_world
                 ++ [setInputShape "x" (input_dims env "x" 0); Alloc 1;
                     setTensorAddress "x"
                       (DeviceAddress (Alloc_result env (allocations empty_world) 1))]
    /\ scratch_buffers w'
       = scratch_buffers empty_world ++ [Alloc_result env (allocations empty_world) 1]
    /\ allocations w' = S (allocations empty_world).
Proof.
  apply (empty_input_is_bound_to_a_dummy_byte 10
           (run_env_of {| GetElementType := ONNX_TENSOR_ELEMENT_DATA_TYPE_FLOAT;
                          GetShape := [0; 3]; GetTensorData := 1024 |}
              [-1; 3] false false) x_to_y_engine "x" 0 empty_world).
  - reflexivity.
  - simpl. lia.
  - reflexivity.
  - reflexivity.
  - right. vm_compute. discriminate.
Defined.

(** X17.  The values of an INT32 shape tensor are fetched from the
    device when the run has none for the name yet: one asynchronous
    device-to-host copy of 4 bytes per value on the compute stream, a
    synchronize, and the binding of the host vector, which then holds
    one value per element.  A second binding of the same name in the
    same run finds the values and only binds. *)
Theorem shape_tensor_values_are_fetched_once :
  forall NV_TENSORRT_MAJOR env trt_engine input_name input_index w n,
    let input_tensor := GetInput env input_index in
    let copy := cudaMemcpyAsync (make_unique_result env n) (GetTensorData input_tensor)
                  (n * 4) cudaMemcpyDeviceToHost (stream env) in
    let bind := setTensorAddress input_name (ShapeValues32 input_name) in
    isShapeInferenceIO trt_engine input_name = true ->
    GetElementType input_tensor = ONNX_TENSOR_ELEMENT_DATA_TYPE_INT32 ->
    shape_size_of trt_engine env input_name input_index = Some n ->
    0 < n ->
    shape_tensor_values w !! input_name = None ->
    cuda_succeeds env copy = true ->
    cuda_succeeds env (cudaStreamSynchronize (stream env)) = true ->
    setTensorAddress_result env input_name (ShapeValues32 input_name) = true ->
    exists w1 v,
      BindContextInput NV_TENSORRT_MAJOR env trt_engine input_name input_index w
      = (Returns nullptr, w1)
      /\ made w1 = made w ++ [copy; cudaStreamSynchronize (stream env); bind]
      /\ shape_tensor_values w1 !! input_name = Some v
      /\ length v = Z.to_nat n
      /\ BindContextInput NV_TENSORRT_MAJOR env trt_engine input_name input_index w1
         = (Returns nullptr, after_call bind w1).
Proof.
  intros major env eng name idx w n t copy bind Hshape Hty Hsize Hn Hnone Hcopy Hsync Hbind.
  assert (forall w0 : RunWorld,
            (if bool_decide (length (engine_getTensorShape eng name) = 0%nat)
             then mret 1
             else d ← at_ (GetShape t) 0; mret (to_int32 d)) w0
            = (Returns n, w0)) as Hss.
  { intros w0. unfold shape_size_of in Hsize. fold t in Hsize.
    case_bool_decide; [by simplify_eq|].
    destruct (GetShape t) as [|d ds]; [done|]. cbn in Hsize. by simplify_eq. }
  set (v := resize (Z.to_nat n) 0 (device_read env (GetTensorData t) (Z.to_nat n))).
  assert (v <> []) as Hv.
  { intros E. apply (f_equal length) in E. unfold v in E. rewrite length_resize in E.
    cbn in E. lia. }
  unfold BindContextInput. rewrite Hshape. fold t.
  erewrite bind_Returns by apply Hss. rewrite Hty.
  rewrite bool_decide_eq_true_2 by done.
  eexists _, v. split_and!.
  - unfold bind_shape_tensor. unfold mbind at 1, M_bind at 1. cbn [gets]. rewrite Hnone.
    rewrite bool_decide_eq_false_2 by lia.
    unfold GetShapeOfShapeTensor, CUDA_RETURN_IF_ERROR. fold t. fold copy.
    rewrite Hcopy, Hsync. fold v.
    unfold mbind, M_bind, mret, M_ret, call, modify, set_shape_tensor_values. cbn.
    rewrite (bool_decide_eq_false_2 (v = [])) by done. unfold undefined. cbn.
    rewrite Hbind. reflexivity.
  - cbn. by rewrite <- !app_assoc.
  - cbn. apply lookup_insert_eq.
  - unfold v. apply length_resize.
  - erewrite bind_Returns by apply Hss.
    unfold bind_shape_tensor. unfold mbind at 1, M_bind at 1. cbn.
    rewrite lookup_insert_eq.
    unfold mbind, M_bind, mret, M_ret, call, modify. cbn.
    rewrite (bool_decide_eq_false_2 (v = [])) by done. cbn.
    rewrite Hbind. reflexivity.
Qed.

(** X17, on an int32 shape tensor of two values. *)
Lemma shape_tensor_values_are_fetched_once_witness :
  let env := run_env_of int32_pair_tensor [2] false false in
  let copy := cudaMemcpyAsync (make_unique_result env 2) (GetTensorData (GetInput env 0))
                (2 * 4) cudaMemcpyDeviceToHost (stream env) in
  let bind := setTensorAddress "x" (ShapeValues32 "x") in
  exists w1 v,
    BindContextInput 10 env shape_input_engine "x" 0 empty_world = (Returns nullptr, w1)
    /\ made w1 = made empty_world ++ [copy; cudaStreamSynchronize (stream env); bind]
    /\ shape_tensor_values w1 !! "x" = Some v
    /\ length v = Z.to_nat 2
    /\ BindContextInput 10 env shape_input_engine "x" 0 w1
       = (Returns nullptr, after_call bind w1).
Proof.
  apply (shape_tensor_values_are_fetched_once 10
           (run_env_of int32_pair_tensor [2] false false) shape_input_engine "x" 0
           empty_world 2); try reflexivity.
Defined.

(** ** Binding outputs *)

Lemma output_shapes_of_static (dims : list Z) :
  -1 ∉ dims -> output_shapes_of dims = (false, dims).
Proof.
  induction dims as [|d dims IH]; intros Hstatic; [done|]. cbn [output_shapes_of].
  rewrite bool_decide_eq_false_2 by (intros ->; apply Hstatic; by left).
  rewrite IH; [done|]. intros H. apply Hstatic. by right.
Qed.

Lemma output_shapes_of_dynamic (dims : list Z) :
  -1 ∈ dims -> fst (output_shapes_of dims) = true.
Proof.
  induction dims as [|d dims IH]; intros Hdyn; [by apply elem_of_nil in Hdyn|].
  cbn [output_shapes_of]. case_bool_decide as Hd; [done|].
  apply elem_of_cons in Hdyn as [?|Hdyn]; [done|].
  specialize (IH Hdyn). by destruct (output_shapes_of dims).
Qed.

(** X18.  An output one of whose dimensions the context reports as -1
    is given an output allocator instead of a buffer, whatever its
    element type: the first binding registers the allocator and makes no
    other call (no output tensor is requested and no address bound), and
    a binding of the same output once the allocator is known changes
    nothing at all. *)
Theorem data_dependent_output_gets_its_allocator_once :
  forall NV_TENSORRT_MAJOR env output_name output_index output_type i w,
    -1 ∈ context_getTensorShape env output_name ->
    dds_output_allocator_map w !! output_name = None ->
    exists w1,
      BindContextOutput NV_TENSORRT_MAJOR env output_name output_index output_type i w
      = (Returns nullptr, w1)
      /\ made w1 = made w ++ [setOutputAllocator output_name]
      /\ dds_output_allocator_map w1
         = <[output_name := {| getBuffer := null; getOutputShape := [] |}]>
             (dds_output_allocator_map w)
      /\ buffers w1 = buffers w
      /\ output_tensors w1 = output_tensors w
      /\ scratch_buffers w1 = scratch_buffers w
      /\ BindContextOutput NV_TENSORRT_MAJOR env output_name output_index output_type i w1
         = (Returns nullptr, w1).
Proof.
  intros major env name idx ty i w Hdyn Hnew.
  pose proof (output_shapes_of_dynamic _ Hdyn) as Hdds.
  unfold BindContextOutput.
  destruct (output_shapes_of (context_getTensorShape env name)) as [is_DDS shapes].
  cbn in Hdds. subst is_DDS.
  unfold mbind at 1, M_bind at 1. cbn [gets]. rewrite Hnew.
  rewrite (bool_decide_eq_false_2 (is_Some None)) by (by intros [? ?]).
  eexists. split; [reflexivity|]. cbn. split_and!; try done.
  unfold mbind at 1, M_bind at 1. cbn. rewrite lookup_insert_eq.
  by rewrite bool_decide_eq_true_2 by (by eexists).
Qed.

(** X18, on the output [y] of shape [-1, 2] with a string element
    type. *)
Lemma data_dependent_output_gets_its_allocator_once_witness :
  exists w1,
    BindContextOutput 10 dds_env "y" 0 ONNX_TENSOR_ELEMENT_DATA_TYPE_STRING 0 empty_world
    = (Returns nullptr, w1)
    /\ made w1 = made empty_world ++ [setOutputAllocator "y"]
    /\ dds_output_allocator_map w1
       = <["y" := {| getBuffer := null; getOutputShape := [] |}]>
           (dds_output_allocator_map empty_world)
    /\ buffers w1 = buffers empty_world
    /\ output_tensors w1 = output_tensors empty_world
    /\ scratch_buffers w1 = scratch_buffers empty_world
    /\ BindContextOutput 10 dds_env "y" 0 ONNX_TENSOR_ELEMENT_DATA_TYPE_STRING 0 w1
       = (Returns nullptr, w1).
Proof.
  apply (data_dependent_output_gets_its_allocator_once 10 dds_env "y" 0
           ONNX_TENSOR_ELEMENT_DATA_TYPE_STRING 0%nat empty_world).
  - simpl. by left.
  - reflexivity.
Defined.

(** X19.  A float64 output of known, non-empty shape is bound to a
    scratch buffer and not to the output tensor the kernel context
    hands out.  The size asked for the buffer is the element count times
    [sizeof(float)], a product of two [size_t] that wraps at 64 bits: it
    is 4 bytes per element only while that fits.  The step that
    assigns outputs after the enqueue makes no call for the output, so
    nothing is ever written to the output tensor's own data.  The
    element count is taken to be a [size_t], as its type in the source
    says. *)
Theorem double_output_stays_in_the_scratch_buffer :
  forall NV_TENSORRT_MAJOR env output_name output_index i w output_indexes output_types,
    let dims := context_getTensorShape env output_name in
    let elem_cnt := GetElementCount dims in
    let bytes := to_size_t (elem_cnt * 4) in
    let scratch := Alloc_result env (allocations w) bytes in
    -1 ∉ dims ->
    dds_output_allocator_map w !! output_name = None ->
    GetOutput_data env output_index dims <> null ->
    0 < elem_cnt <= SIZE_MAX ->
    output_types !! output_name = Some ONNX_TENSOR_ELEMENT_DATA_TYPE_DOUBLE ->
    exists w1,
      BindContextOutput NV_TENSORRT_MAJOR env output_name output_index
        ONNX_TENSOR_ELEMENT_DATA_TYPE_DOUBLE i w
      = (Returns nullptr, w1)
      /\ made w1 = made w ++ [KernelContext_GetOutput output_index dims;
                              Alloc bytes;
                              setTensorAddress output_name (DeviceAddress scratch)]
      /\ (elem_cnt * 4 <= SIZE_MAX -> bytes = elem_cnt * 4)
      /\ (elem_cnt * 4 > SIZE_MAX -> bytes < elem_cnt * 4)
      /\ GetTensorData <$> output_tensors w1 !! i = Some (GetOutput_data env output_index dims)
      /\ scratch_buffers w1 = scratch_buffers w ++ [scratch]
      /\ assign_output NV_TENSORRT_MAJOR env output_indexes output_types (i, output_name) w1
         = (Returns nullptr, w1).
Proof.
  intros major env name idx i w idxs types dims cnt bytes scratch Hstatic Hnew Hdata Hcnt Hty.
  unfold BindContextOutput. fold dims. rewrite (output_shapes_of_static dims Hstatic).
  unfold mbind at 1, M_bind at 1. cbn [gets]. rewrite Hnew.
  rewrite (bool_decide_eq_false_2 (is_Some None)) by (by intros [? ?]).
  cbn [orb].
  assert (has_output_case major ONNX_TENSOR_ELEMENT_DATA_TYPE_DOUBLE = false) as ->.
  { unfold has_output_case, has_input_case.
    repeat (rewrite bool_decide_eq_false_2 by discriminate). cbn.
    by rewrite andb_false_r. }
  assert (has_cast_output_case major ONNX_TENSOR_ELEMENT_DATA_TYPE_DOUBLE = true) as ->.
  { unfold has_cast_output_case.
    rewrite (bool_decide_eq_true_2
               (ONNX_TENSOR_ELEMENT_DATA_TYPE_DOUBLE = ONNX_TENSOR_ELEMENT_DATA_TYPE_DOUBLE))
      by done.
    apply orb_true_r. }
  cbn [GetTensorData]. fold cnt.
  rewrite (bool_decide_eq_true_2 (GetOutput_data env idx dims <> null)) by done.
  rewrite (bool_decide_eq_true_2 (cnt > 0)) by lia.
  eexists. split; [reflexivity|]. cbn.
  split_and!.
  - by rewrite lookup_insert_eq, <- !app_assoc.
  - intros Hfits. unfold bytes, to_size_t, SIZE_MAX in *. rewrite Z.mod_small; lia.
  - intros Hwraps. unfold bytes, to_size_t, SIZE_MAX in *.
    pose proof (Z.mod_pos_bound (cnt * 4) 18446744073709551616 eq_refl). lia.
  - by rewrite lookup_insert_eq.
  - done.
  - unfold assign_output. unfold mbind at 1, M_bind at 1. cbn. rewrite Hnew, Hty.
    rewrite (bool_decide_eq_false_2 (is_Some None)) by (by intros [? ?]).
    rewrite (bool_decide_eq_false_2
               (ONNX_TENSOR_ELEMENT_DATA_TYPE_DOUBLE = ONNX_TENSOR_ELEMENT_DATA_TYPE_INT64))
      by discriminate.
    by rewrite andb_false_r.
Qed.

(** X19, on a float64 output [y] of shape [2147483647, 2147483647, 2]:
    the element count is 9223372028264841218, and the size asked for is
    not four times that but 18446744039349813256. *)
Lemma double_output_stays_in_the_scratch_buffer_witness :
  let env := run_env_of float_tensor [2147483647; 2147483647; 2] false false in
  exists w1,
    BindContextOutput 10 env "y" 0 ONNX_TENSOR_ELEMENT_DATA_TYPE_DOUBLE 0 empty_world
    = (Returns nullptr, w1)
    /\ made w1 = made empty_world
                 ++ [KernelContext_GetOutput 0 [2147483647; 2147483647; 2];
                     Alloc 18446744039349813256;
                     setTensorAddress "y"
                       (DeviceAddress
                          (Alloc_result env (allocations empty_world)
                             18446744039349813256))]
    /\ (9223372028264841218 * 4 <= SIZE_MAX
        -> 18446744039349813256 = 9223372028264841218 * 4)
    /\ (9223372028264841218 * 4 > SIZE_MAX
        -> 18446744039349813256 < 9223372028264841218 * 4)
    /\ GetTensorData <$> output_tensors w1 !! 0%nat
       = Some (GetOutput_data env 0 [2147483647; 2147483647; 2])
    /\ scratch_buffers w1
       = scratch_buffers empty_world
         ++ [Alloc_result env (allocations empty_world) 18446744039349813256]
    /\ assign_output 10 env {[ "y" := 0 ]} {[ "y" := ONNX_TENSOR_ELEMENT_DATA_TYPE_DOUBLE ]}
         (0%nat, "y") w1
       = (Returns nullptr, w1).
Proof.
  apply (double_output_stays_in_the_scratch_buffer 10
           (run_env_of float_tensor [2147483647; 2147483647; 2] false false) "y" 0 0%nat
           empty_world {[ "y" := 0 ]} {[ "y" := ONNX_TENSOR_ELEMENT_DATA_TYPE_DOUBLE ]}).
  - simpl. rewrite !elem_of_cons, elem_of_nil.
    intros [H|[H|[H|H]]]; [discriminate H|discriminate H|discriminate H|exact H].
  - reflexivity.
  - discriminate.
  - vm_compute. split; [reflexivity|discriminate].
  - reflexivity.
Defined.

(** ** The compute function: traces and results *)

Lemma keeps_ret {A} J (a : A) : keeps J (mret a).
Proof. by intros w Hw. Qed.

Lemma keeps_bind {A B} J (m : M RunWorld A) (k : A -> M RunWorld B) :
  keeps J m -> (forall a, keeps J (k a)) -> keeps J (m ≫= k).
Proof.
  intros Hm Hk w Hw. unfold mbind, M_bind. specialize (Hm w Hw).
  destruct (m w) as [[a| | |] w']; simpl in *; try done. by apply Hk.
Qed.

Lemma keeps_call J c : (forall cs, J cs -> J (cs ++ [c])) -> keeps J (call c).
Proof. intros Hc w Hw. simpl. by apply Hc. Qed.

Lemma keeps_modify J (f : RunWorld -> RunWorld) :
  (forall w, made (f w) = made w) -> keeps J (modify f).
Proof. intros Hf w Hw. simpl. by rewrite Hf. Qed.

Lemma keeps_gets {A} J (f : RunWorld -> A) : keeps J (gets f).
Proof. by intros w Hw. Qed.

Lemma keeps_undefined {A} J : keeps J (@undefined RunWorld A).
Proof. by intros w Hw. Qed.

Lemma keeps_abort {A} J : keeps J (@abort RunWorld A).
Proof. by intros w Hw. Qed.

Lemma keeps_throw {A} J what : keeps J (@throw RunWorld A what).
Proof. by intros w Hw. Qed.

Lemma keeps_for_each {A B} J (xs : list A) (body : A -> M RunWorld B) :
  (forall x, keeps J (body x)) -> keeps J (for_each xs body).
Proof.
  intros Hbody. induction xs as [|x xs IH]; simpl; [apply keeps_ret|].
  apply keeps_bind; [done|]. intros y.
  apply keeps_bind; [done|]. intros ys. apply keeps_ret.
Qed.

Lemma keeps_for_each_or_return {A} J (xs : list A) (body : A -> M RunWorld OrtStatusPtr) :
  (forall x, keeps J (body x)) -> keeps J (for_each_or_return xs body).
Proof.
  intros Hbody. induction xs as [|x xs IH]; simpl; [apply keeps_ret|].
  apply keeps_bind; [done|]. intros st.
  destruct (is_failure st); [apply keeps_ret|done].
Qed.

(** Decompose a computation into its primitives; [side] proves that the
    property survives one more call. *)
Ltac keeps_steps side :=
  repeat first
    [ apply keeps_ret
    | apply keeps_gets
    | apply keeps_undefined
    | apply keeps_abort
    | apply keeps_throw
    | apply keeps_call; side
    | apply keeps_modify; intros ?; reflexivity
    | apply keeps_bind; [|intros ?]
    | apply keeps_for_each; intros ?
    | apply keeps_for_each_or_return; intros ?
    | progress unfold CUDA_RETURN_IF_ERROR, MakeUniquePtrFromOrtAllocator, push_scratch,
        set_shape_tensor_values, set_shape_tensor_values_int64, set_buffer,
        set_output_tensor, set_output_dim_size, set_dds_output_allocator_map,
        set_max_context_mem_size, set_allocator, at_, ThrowOnError,
        CASE_GET_INPUT_TENSOR, GetShapeOfShapeTensor
    | match goal with
      | |- keeps _ (if ?b then _ else _) => destruct b
      | |- keeps _ (match ?x with _ => _ end) => destruct x
      | |- keeps _ (let '(_, _) := ?x in _) => destruct x
      end ].

Lemma yields_ret {W A} (G : A -> Prop) (a : A) : G a -> yields G (mret a : M W A).
Proof. intros Ha w a' E. cbn in E. by simplify_eq. Qed.

Lemma yields_bind {W A B} (G : B -> Prop) (m : M W A) (k : A -> M W B) :
  (forall a, yields G (k a)) -> yields G (m ≫= k).
Proof.
  intros Hk w b. unfold mbind, M_bind.
  destruct (m w) as [[a| | |] w']; simpl; try done. apply Hk.
Qed.

Lemma yields_bind_with {W A B} (G1 : A -> Prop) (G : B -> Prop) (m : M W A) (k : A -> M W B) :
  yields G1 m -> (forall a, G1 a -> yields G (k a)) -> yields G (m ≫= k).
Proof.
  intros Hm Hk w b. unfold mbind, M_bind. specialize (Hm w).
  destruct (m w) as [[a| | |] w']; simpl in *; try done. apply Hk. by apply Hm.
Qed.

Lemma yields_for_each_or_return {W A} (G : OrtStatusPtr -> Prop) (xs : list A)
    (body : A -> M W OrtStatusPtr) :
  G nullptr -> (forall x, yields G (body x)) -> yields G (for_each_or_return xs body).
Proof.
  intros Hok Hbody. induction xs as [|x xs IH]; simpl; [by apply yields_ret|].
  eapply yields_bind_with; [apply Hbody|]. intros st Hst.
  destruct (is_failure st); [by apply yields_ret|done].
Qed.

Lemma ok_or_rewrap code st : ok_or code (rewrap code st).
Proof. unfold rewrap, ok_or. destruct (is_failure st); eauto. Qed.

(** One step of a proof about how a computation ends: the first part
    keeps [J], what it returns satisfies [G], and the claim holds when
    the first part ends abnormally. *)
Lemma bind_post {A B} (J : list Call -> Prop) (G : A -> Prop)
    (Post : Outcome B -> RunWorld -> Prop) (m : M RunWorld A) (k : A -> M RunWorld B) w :
  J (made w) ->
  keeps J m -> yields G m ->
  (forall w' s, J (made w') -> Post (Throws s) w') ->
  (forall w', J (made w') -> Post Aborts w') ->
  (forall w', J (made w') -> Post Undefined w') ->
  (forall a w', G a -> J (made w') -> Post (fst (k a w')) (snd (k a w'))) ->
  Post (fst ((m ≫= k) w)) (snd ((m ≫= k) w)).
Proof.
  intros Hw Hkeeps Hyields Hthrows Haborts Hundefined Hk.
  unfold mbind, M_bind. specialize (Hkeeps w Hw). specialize (Hyields w).
  destruct (m w) as [[a|s| |] w'] eqn:E; simpl in *; auto.
Qed.

Lemma not_enqueued_closed : closed_under_other_calls not_enqueued.
Proof. intros c cs Hc Hcs. apply Forall_app. split; [done|]. by repeat constructor. Qed.

(** Discharge "the property survives this call". *)
Ltac other_call H := intros ? ?; apply H; [reflexivity|assumption].

Section ComputeTraces.
Variable NV_TENSORRT_MAJOR : Z.
Variable env : RunEnv.
Variable J : list Call -> Prop.
Hypothesis J_closed : closed_under_other_calls J.

Lemma BindContextInput_keeps trt_engine input_name input_index :
  keeps J (BindContextInput NV_TENSORRT_MAJOR env trt_engine input_name input_index).
Proof. unfold BindContextInput, bind_shape_tensor. keeps_steps ltac:(other_call J_closed). Qed.

Lemma BindContextOutput_keeps output_name output_index output_type i :
  keeps J (BindContextOutput NV_TENSORRT_MAJOR env output_name output_index output_type i).
Proof. unfold BindContextOutput. keeps_steps ltac:(other_call J_closed). Qed.

Lemma assign_output_keeps output_indexes output_types io :
  keeps J (assign_output NV_TENSORRT_MAJOR env output_indexes output_types io).
Proof.
  unfold assign_output, BindKernelOutput. keeps_steps ltac:(other_call J_closed).
Qed.
End ComputeTraces.

Section ComputeResults.
Variable NV_TENSORRT_MAJOR : Z.
Variable env : RunEnv.
Variable this_ : TensorrtExecutionProvider.
Variable trt_state : TensorrtShortFuncState.

Lemma assign_output_yields output_indexes output_types io :
  yields (ok_or ORT_FAIL)
    (assign_output NV_TENSORRT_MAJOR env output_indexes output_types io).
Proof.
  unfold assign_output. destruct io as [i name].
  apply yields_bind. intros dds. case_bool_decide.
  - apply yields_bind. intros st. apply yields_ret, ok_or_rewrap.
  - apply yields_bind. intros t. apply yields_bind. intros _. apply yields_ret. by left.
Qed.

(** The part of the compute function after the bindings: it hands over
    the context memory and enqueues once; a status it returns is
    success or [ORT_FAIL]. *)
Lemma launch_run trt_engine output_binding_names output_indexes output_types w :
  let r := launch NV_TENSORRT_MAJOR env this_ trt_state trt_engine output_binding_names
             output_indexes output_types w in
  exists n p post,
    made (snd r)
    = made w ++ context_memory_calls (context_memory_sharing_enable trt_state) n p
      ++ [enqueueV3 (stream env)] ++ post
    /\ not_enqueued post
    /\ match fst r with
       | Returns st => ok_or ORT_FAIL st
       | _ => True
       end.
Proof.
  intros r. subst r. unfold launch.
  (* Set execution context memory *)
  match goal with |- context [mbind ?k ?m w] =>
    assert (exists n p w1, m w = (Returns tt, w1)
              /\ made w1 = made w
                           ++ context_memory_calls (context_memory_sharing_enable trt_state) n p)
      as (n & p & w1 & Hm & Hw1)
  end.
  { unfold context_memory_calls. destruct (context_memory_sharing_enable trt_state).
    - unfold mbind, M_bind, MakeUniquePtrFromOrtAllocator, set_max_context_mem_size, call,
        modify, gets, mret, M_ret.
      case_bool_decide; cbn; eexists _, _, _; (split; [reflexivity|]); cbn;
        by rewrite <- !app_assoc.
    - exists 0, null, w. by rewrite app_nil_r. }
  erewrite bind_Returns by exact Hm.
  (* Start CUDA graph capture *)
  erewrite (bind_Returns _ _ w1 w1 tt) by (by destruct (_ && _ && _)).
  (* Run TRT inference *)
  erewrite bind_Returns by reflexivity.
  set (w2 := after_call (enqueueV3 (stream env)) w1).
  set (base := made w ++ context_memory_calls (context_memory_sharing_enable trt_state) n p
               ++ [enqueueV3 (stream env)]).
  set (Jpost := fun cs => exists post, cs = base ++ post /\ not_enqueued post).
  assert (closed_under_other_calls Jpost) as Hclosed.
  { intros c cs Hc (post & -> & Hpost). exists (post ++ [c]).
    split; [by rewrite app_assoc|]. by apply not_enqueued_closed. }
  assert (Jpost (made w2)) as Hw2.
  { exists []. split; [|constructor]. unfold w2, base. cbn. rewrite Hw1.
    by rewrite app_nil_r, <- !app_assoc. }
  match goal with |- context [fst (?tail w2)] =>
    assert (keeps Jpost tail) as Hkeeps;
    [|assert (yields (ok_or ORT_FAIL) tail) as Hyields]
  end.
  - keeps_steps ltac:(other_call Hclosed). by apply assign_output_keeps.
  - apply yields_bind. intros dds. apply yields_bind. intros _.
    destruct (negb (enqueueV3_result env)); [apply yields_ret; right; by eexists|].
    apply yields_bind. intros _.
    apply (yields_bind_with (ok_or ORT_FAIL)).
    { apply yields_for_each_or_return; [by left|]. intros io. apply assign_output_yields. }
    intros st Hst. destruct (is_failure st); [by apply yields_ret|].
    apply yields_bind. intros _. apply yields_ret. by left.
  - destruct (Hkeeps w2 Hw2) as (post & Hpost & Hnot).
    exists n, p, post. split; [by rewrite Hpost; unfold base; rewrite <- !app_assoc|].
    split; [done|].
    match goal with |- context [fst (?tail w2)] =>
      specialize (Hyields w2);
      destruct (tail w2) as [[st|s| |] w3]
    end; cbn in *; [by apply Hyields|done..].
Qed.

(** How a call of the compute function goes, from any world in which no
    inference has been launched. *)
Lemma ComputeFunc_run w :
  not_enqueued (made w) ->
  let r := ComputeFunc NV_TENSORRT_MAJOR env this_ trt_state w in
  compute_run (context_memory_sharing_enable trt_state) (stream env) (fst r) (made (snd r)).
Proof.
  intros Hw r. subst r. unfold ComputeFunc.
  set (Post := fun (o : Outcome OrtStatusPtr) (w' : RunWorld) =>
                 compute_run (context_memory_sharing_enable trt_state) (stream env) o (made w')).
  assert (forall w' s, not_enqueued (made w') -> Post (Throws s) w') as Hthrows
    by (intros; by left).
  assert (forall w', not_enqueued (made w') -> Post Aborts w') as Haborts
    by (intros; by left).
  assert (forall w', not_enqueued (made w') -> Post Undefined w') as Hundefined
    by (intros; by left).
  change (Post (fst ((ComputeFunc NV_TENSORRT_MAJOR env this_ trt_state) w))
               (snd ((ComputeFunc NV_TENSORRT_MAJOR env this_ trt_state) w))).
  unfold ComputeFunc.
  repeat (apply (bind_post not_enqueued (fun _ => True)); auto;
          [keeps_steps ltac:(other_call not_enqueued_closed)|done|];
          clear w Hw; intros ? w _ Hw).
  destruct (engine trt_state) as [trt_engine|]; [|by apply Hundefined].
  (* Set input shapes and bind input buffers *)
  apply (bind_post not_enqueued (ok_or ORT_EP_FAIL)); auto.
  { keeps_steps ltac:(other_call not_enqueued_closed).
    by apply BindContextInput_keeps, not_enqueued_closed. }
  { apply yields_for_each_or_return; [by left|]. intros input_name.
    apply yields_bind. intros st. apply yields_ret, ok_or_rewrap. }
  clear w Hw. intros st w Hst Hw.
  destruct st as [|code msg]; cbn [is_failure].
  2: { left. split; [done|]. cbn. destruct Hst as [?|[msg' ?]]; [done|]. by eexists. }
  (* Set output shapes and bind output buffers *)
  apply (bind_post not_enqueued (ok_or ORT_EP_FAIL)); auto.
  { keeps_steps ltac:(other_call not_enqueued_closed).
    by apply BindContextOutput_keeps, not_enqueued_closed. }
  { apply yields_for_each_or_return; [by left|]. intros [i output_name].
    apply yields_bind. intros st. apply yields_ret, ok_or_rewrap. }
  clear w Hw Hst. intros st w Hst Hw.
  destruct st as [|code msg]; cbn [is_failure].
  2: { left. split; [done|]. cbn. destruct Hst as [?|[msg' ?]]; [done|]. by eexists. }
  right.
  match goal with |- context [launch ?a ?b ?c ?d ?e ?f ?g ?h w] =>
    destruct (launch_run e f g h w) as (n & p & post & Hmade & Hpost & Hout)
  end.
  exists (made w), n, p, post. by split_and!.
Qed.
End ComputeResults.

(** X20.  The status a call of the compute function returns tells
    whether the inference was launched: success and [ORT_FAIL] are only
    returned after [enqueueV3] was called on the compute stream, and
    [ORT_EP_FAIL] is only returned when no enqueue was made (the call
    ended while binding an input or an output).  A call that ends in an
    exception is left out: the wrappers of the kernel context report a
    failure by throwing, before the enqueue as well as after it. *)
Theorem status_code_tells_whether_inference_ran :
  forall NV_TENSORRT_MAJOR env this_ trt_state st,
    let r := ComputeFunc NV_TENSORRT_MAJOR env this_ trt_state
               (initial_world this_ trt_state) in
    fst r = Returns st ->
    status_matches_trace (stream env) st (made (snd r)).
Proof.
  intros major env this_ trt_state st r Hst. subst r.
  destruct (ComputeFunc_run major env this_ trt_state (initial_world this_ trt_state))
    as [[Hnot Hout]|(pre & n & p & post & Hmade & _ & _ & Hout)]; [constructor|..].
  - rewrite Hst in Hout. destruct Hout as [msg ->]. exact Hnot.
  - assert (enqueueV3 (stream env) ∈ made (snd (ComputeFunc major env this_ trt_state
                                                  (initial_world this_ trt_state)))) as Hin.
    { rewrite Hmade. set_solver. }
    rewrite Hst in Hout. by destruct Hout as [->|[msg ->]].
Qed.

(** X20, on a float64 input, which no label of the input switch binds:
    the call returns [ORT_EP_FAIL], and no inference was launched. *)
Lemma status_code_tells_whether_inference_ran_witness :
  not_enqueued
    (made (snd (ComputeFunc 10 (run_env_of double_tensor [2; 3] false false)
                  (provider_with plain_settings false) x_to_y_state
                  (initial_world (provider_with plain_settings false) x_to_y_state)))).
Proof.
  apply (status_code_tells_whether_inference_ran 10
           (run_env_of double_tensor [2; 3] false false)
           (provider_with plain_settings false) x_to_y_state
           (CreateStatus ORT_EP_FAIL
              "TensorRT EP input onnx tensor data type: 11 not supported.")).
  vm_compute. reflexivity.
Defined.



(** ** Nodes with a precompiled engine *)

Lemma index_tensor_lookup trt_engine input_map output_map maps tensor name :
  let maps' := index_tensor trt_engine input_map output_map maps tensor in
  fst maps' !! name
  = (if bool_decide (tensor = name /\ getTensorIOMode trt_engine name = kINPUT
                     /\ is_Some (input_map !! name))
     then input_map !! name else fst maps !! name)
  /\ snd maps' !! name
     = (if bool_decide (tensor = name /\ getTensorIOMode trt_engine name <> kINPUT
                        /\ is_Some (output_map !! name))
        then output_map !! name else snd maps !! name).
Proof.
  destruct maps as [ins outs]. unfold index_tensor. cbn [fst snd].
  destruct (decide (tensor = name)) as [->|Hne].
  - case_bool_decide as Hmode.
    + rewrite (bool_decide_eq_false_2 (_ /\ _ <> _ /\ _)) by naive_solver.
      destruct (input_map !! name) as [k|] eqn:Hk; cbn [fst snd].
      * rewrite lookup_insert_eq. by rewrite bool_decide_eq_true_2 by eauto.
      * by rewrite bool_decide_eq_false_2 by (intros (_ & _ & [? ?]); done).
    + rewrite (bool_decide_eq_false_2 (_ /\ _ = _ /\ _)) by naive_solver.
      destruct (output_map !! name) as [k|] eqn:Hk; cbn [fst snd].
      * rewrite lookup_insert_eq. by rewrite bool_decide_eq_true_2 by eauto.
      * by rewrite bool_decide_eq_false_2 by (intros (_ & _ & [? ?]); done).
  - rewrite !(bool_decide_eq_false_2 (tensor = name /\ _)) by naive_solver.
    case_bool_decide; case_match; cbn [fst snd]; by rewrite ?lookup_insert_ne by done.
Qed.

Lemma index_maps_lookup trt_engine input_map output_map names maps name :
  let maps' := foldl (index_tensor trt_engine input_map output_map) maps names in
  fst maps' !! name
  = (if bool_decide (name ∈ names /\ getTensorIOMode trt_engine name = kINPUT
                     /\ is_Some (input_map !! name))
     then input_map !! name else fst maps !! name)
  /\ snd maps' !! name
     = (if bool_decide (name ∈ names /\ getTensorIOMode trt_engine name <> kINPUT
                        /\ is_Some (output_map !! name))
        then output_map !! name else snd maps !! name).
Proof.
  revert maps. induction names as [|tensor names IH]; intros maps; cbn [foldl].
  - rewrite !bool_decide_eq_false_2; [done| |]; intros [H _]; by apply elem_of_nil in H.
  - destruct (IH (index_tensor trt_engine input_map output_map maps tensor)) as [-> ->].
    destruct (index_tensor_lookup trt_engine input_map output_map maps tensor name)
      as [-> ->].
    split; repeat case_bool_decide; try done; set_solver.
Qed.

(** X22.  The index maps of a node with a precompiled engine are the
    maps of the fused node cut down to the tensors of the engine: an
    engine tensor in input mode gets the index the node gives the name
    among its inputs, every other engine tensor the index among the
    node's outputs, and a name that is no tensor of the engine, or that
    the node does not list, gets no index. *)
Theorem index_maps_follow_the_engine :
  forall trt_engine input_map output_map name,
    let maps := index_maps trt_engine input_map output_map in
    fst maps !! name
    = (if bool_decide (name ∈ getIOTensorNames trt_engine
                       /\ getTensorIOMode trt_engine name = kINPUT)
       then input_map !! name else None)
    /\ snd maps !! name
       = (if bool_decide (name ∈ getIOTensorNames trt_engine
                          /\ getTensorIOMode trt_engine name <> kINPUT)
          then output_map !! name else None).
Proof.
  intros trt_engine input_map output_map name maps. subst maps. unfold index_maps.
  destruct (index_maps_lookup trt_engine input_map output_map
              (getIOTensorNames trt_engine) (∅, ∅) name) as [-> ->].
  cbn [fst snd]. rewrite !lookup_empty.
  split.
  - case_bool_decide as H1; case_bool_decide as H2; try done; [naive_solver|].
    destruct (input_map !! name) eqn:E; [|done]. exfalso. apply H1. naive_solver.
  - case_bool_decide as H1; case_bool_decide as H2; try done; [naive_solver|].
    destruct (output_map !! name) eqn:E; [|done]. exfalso. apply H1. naive_solver.
Qed.

(** What a successful compile of a node with a precompiled engine
    leaves in the provider. *)
Lemma precompiled_success NV_TENSORRT_MAJOR env input_map output_map this_ tables trt_engine :
  loads NV_TENSORRT_MAJOR env this_ trt_engine ->
  let name := OrtNode_GetName_result env in
  let maps := index_maps trt_engine input_map output_map in
  exists this1 tables1,
    CreateNodeComputeInfoFromPrecompiledEngine NV_TENSORRT_MAJOR env input_map output_map
      (this_, tables)
    = (Returns nullptr, (this1, tables1))
    /\ settings this1 = settings this_
    /\ engines_ this1
       = (if bool_decide (name ∈ empty_engine_slots tables) then engines_ this_
          else emplace name trt_engine (engines_ this_))
    /\ max_ctx_mem_size_ this1
       = (if context_memory_sharing_enable_ (settings this_)
          then Z.max (getDeviceMemorySize trt_engine) (max_ctx_mem_size_ this_)
          else max_ctx_mem_size_ this_)
    /\ empty_engine_slots tables1 = empty_engine_slots tables
    /\ contexts_ tables1
       = emplace name (Some (context_memory_of NV_TENSORRT_MAJOR this_)) (contexts_ tables)
    /\ input_info_ tables1 = push_back_at name (fst maps) (input_info_ tables)
    /\ output_info_ tables1
       = push_back_at name (output_types_of (graph_outputs env))
           (push_back_at name (snd maps) (output_info_ tables)).
Proof.
  intros (Hstatus & Hengine & Hcontext) name maps. subst maps.
  unfold CreateNodeComputeInfoFromPrecompiledEngine. rewrite Hstatus, Hengine.
  cbn [is_failure]. fold (context_memory_of NV_TENSORRT_MAJOR this_). rewrite Hcontext.
  cbn [negb]. destruct (index_maps trt_engine input_map output_map) as [ins outs].
  eexists _, _. split; [reflexivity|]. fold name.
  destruct (context_memory_sharing_enable_ (settings this_)); cbn [andb];
    repeat case_bool_decide; cbn; split_and!; try done; lia.
Qed.

Lemma loads_settings NV_TENSORRT_MAJOR env this_ this1 trt_engine :
  settings this1 = settings this_ ->
  loads NV_TENSORRT_MAJOR env this_ trt_engine -> loads NV_TENSORRT_MAJOR env this1 trt_engine.
Proof. unfold loads, context_memory_of. by intros ->. Qed.

(** X23.  Compiling a node with a precompiled engine and then creating
    its function state gives back what was compiled: for a node name the
    provider holds nothing under, the state has the loaded engine, one
    map of input indexes, and the maps of output indexes and of output
    types in this order, which are the three entries the compute
    function reads; the context slot holds the context that was made,
    and creating the state adds no slot. *)
Theorem compiled_node_state_round_trip :
  forall NV_TENSORRT_MAJOR env input_map output_map this_ tables trt_engine,
    let name := OrtNode_GetName_result env in
    let maps := index_maps trt_engine input_map output_map in
    loads NV_TENSORRT_MAJOR env this_ trt_engine ->
    unknown_node name (this_, tables) ->
    exists nodes state,
      CreateNodeComputeInfoFromPrecompiledEngine NV_TENSORRT_MAJOR env input_map output_map
        (this_, tables)
      = (Returns nullptr, nodes)
      /\ CreateFunctionStateFunc name nodes = (Returns state, nodes)
      /\ fused_node_name state = name
      /\ engine state = Some trt_engine
      /\ input_info state = [fst maps]
      /\ output_info state = [snd maps; output_types_of (graph_outputs env)]
      /\ context_memory_sharing_enable state
         = context_memory_sharing_enable_ (settings this_)
      /\ contexts_ (snd nodes) !! name = Some (Some (context_memory_of NV_TENSORRT_MAJOR this_)).
Proof.
  intros major env im om this_ tables e name maps Hloads
    (Hengine & Hslot & Hcontext & Hin & Hout).
  cbn [fst snd] in *.
  destruct (precompiled_success major env im om this_ tables e Hloads)
    as (this1 & tables1 & Hrun & Hsettings & Hengines & _ & Hslots & Hcontexts & Hins & Houts).
  fold name in Hengines, Hcontexts, Hins, Houts. fold maps in Hins, Houts.
  rewrite bool_decide_eq_false_2 in Hengines by done.
  unfold emplace in Hengines, Hcontexts. rewrite Hengine in Hengines.
  rewrite Hcontext in Hcontexts.
  unfold push_back_at in Hins, Houts. rewrite Hin in Hins.
  rewrite lookup_insert_eq, Hout, insert_insert_eq in Houts. cbn in Hins, Houts.
  exists (this1, tables1). eexists. split; [exact Hrun|].
  unfold CreateFunctionStateFunc.
  rewrite Hengines, Hins, Houts, Hcontexts, Hsettings, !lookup_insert_eq.
  rewrite bool_decide_eq_true_2 by (by eexists). cbn [default fst snd].
  split.
  { do 2 f_equal. destruct tables1 as [slots contexts ins outs]. cbn in *. by subst. }
  split_and!; try reflexivity.
  cbn. by rewrite Hcontexts, lookup_insert_eq.
Qed.

(** X23, on the node that maps [x] to [y], compiled on a fresh
    provider. *)
Lemma compiled_node_state_round_trip_witness :
  let name := OrtNode_GetName_result x_to_y_node in
  let maps := index_maps x_to_y_engine {[ "x" := 0 ]} {[ "y" := 0 ]} in
  exists nodes state,
    CreateNodeComputeInfoFromPrecompiledEngine 10 x_to_y_node {[ "x" := 0 ]} {[ "y" := 0 ]}
      (provider_with plain_settings false, no_nodes)
    = (Returns nullptr, nodes)
    /\ CreateFunctionStateFunc name nodes = (Returns state, nodes)
    /\ fused_node_name state = name
    /\ engine state = Some x_to_y_engine
    /\ input_info state = [fst maps]
    /\ output_info state = [snd maps; output_types_of (graph_outputs x_to_y_node)]
    /\ context_memory_sharing_enable state
       = context_memory_sharing_enable_ (settings (provider_with plain_settings false))
    /\ contexts_ (snd nodes) !! name
       = Some (Some (context_memory_of 10 (provider_with plain_settings false))).
Proof.
  apply (compiled_node_state_round_trip 10 x_to_y_node {[ "x" := 0 ]} {[ "y" := 0 ]}
           (provider_with plain_settings false) no_nodes x_to_y_engine).
  - repeat split.
  - repeat split. cbn. apply not_elem_of_empty.
Defined.

(** X24.  Compiling a second node under a name that is already compiled
    succeeds without replacing anything the compute function reads:
    [emplace] keeps the first engine, and the index maps of the second
    compile are appended behind those of the first, while the compute
    function reads entry 0 of the input maps and entries 0 and 1 of the
    output maps. *)
Theorem recompiled_node_keeps_its_first_engine :
  forall NV_TENSORRT_MAJOR env1 env2 input_map1 output_map1 input_map2 output_map2
         this_ tables engine1 engine2,
    let name := OrtNode_GetName_result env1 in
    let maps1 := index_maps engine1 input_map1 output_map1 in
    let maps2 := index_maps engine2 input_map2 output_map2 in
    OrtNode_GetName_result env2 = name ->
    loads NV_TENSORRT_MAJOR env1 this_ engine1 ->
    loads NV_TENSORRT_MAJOR env2 this_ engine2 ->
    unknown_node name (this_, tables) ->
    exists nodes1 nodes2 state,
      CreateNodeComputeInfoFromPrecompiledEngine NV_TENSORRT_MAJOR env1 input_map1
        output_map1 (this_, tables)
      = (Returns nullptr, nodes1)
      /\ CreateNodeComputeInfoFromPrecompiledEngine NV_TENSORRT_MAJOR env2 input_map2
           output_map2 nodes1
         = (Returns nullptr, nodes2)
      /\ fst (CreateFunctionStateFunc name nodes2) = Returns state
      /\ engine state = Some engine1
      /\ input_info state = [fst maps1; fst maps2]
      /\ output_info state
         = [snd maps1; output_types_of (graph_outputs env1);
            snd maps2; output_types_of (graph_outputs env2)].
Proof.
  intros major env1 env2 im1 om1 im2 om2 this_ tables e1 e2 name maps1 maps2 Hname
    Hloads1 Hloads2 (Hengine & Hslot & Hcontext & Hin & Hout).
  cbn [fst snd] in *.
  destruct (precompiled_success major env1 im1 om1 this_ tables e1 Hloads1)
    as (this1 & tables1 & Hrun1 & Hsettings1 & Hengines1 & _ & Hslots1 & _ & Hins1 & Houts1).
  destruct (precompiled_success major env2 im2 om2 this1 tables1 e2
              (loads_settings _ _ _ _ _ Hsettings1 Hloads2))
    as (this2 & tables2 & Hrun2 & _ & Hengines2 & _ & _ & _ & Hins2 & Houts2).
  rewrite Hname in Hengines2, Hins2, Houts2.
  fold name in Hengines1, Hins1, Houts1, Hengines2, Hins2, Houts2.
  fold maps1 in Hins1, Houts1. fold maps2 in Hins2, Houts2.
  rewrite Hslots1, bool_decide_eq_false_2 in Hengines2 by done.
  rewrite bool_decide_eq_false_2 in Hengines1 by done.
  unfold emplace in Hengines1, Hengines2. rewrite Hengine in Hengines1.
  rewrite Hengines1, lookup_insert_eq in Hengines2.
  unfold push_back_at in Hins1, Houts1, Hins2, Houts2.
  rewrite Hin in Hins1. rewrite lookup_insert_eq, Hout in Houts1.
  rewrite Hins1, lookup_insert_eq in Hins2.
  rewrite Houts1, !lookup_insert_eq in Houts2. cbn in Hins2, Houts2.
  exists (this1, tables1), (this2, tables2). eexists.
  split; [exact Hrun1|]. split; [exact Hrun2|].
  unfold CreateFunctionStateFunc. cbn [fst snd engine input_info output_info].
  rewrite Hengines2, Hins2, Houts2, !lookup_insert_eq. by split_and!.
Qed.

(** X24, on two nodes of the same name with different engines. *)
Lemma recompiled_node_keeps_its_first_engine_witness :
  let name := OrtNode_GetName_result x_to_y_node in
  let maps1 := index_maps x_to_y_engine {[ "x" := 0 ]} {[ "y" := 0 ]} in
  let maps2 := index_maps shape_input_engine {[ "x" := 1 ]} {[ "y" := 1 ]} in
  exists nodes1 nodes2 state,
    CreateNodeComputeInfoFromPrecompiledEngine 10 x_to_y_node {[ "x" := 0 ]} {[ "y" := 0 ]}
      (provider_with plain_settings false, no_nodes)
    = (Returns nullptr, nodes1)
    /\ CreateNodeComputeInfoFromPrecompiledEngine 10 shape_input_node {[ "x" := 1 ]}
         {[ "y" := 1 ]} nodes1
       = (Returns nullptr, nodes2)
    /\ fst (CreateFunctionStateFunc name nodes2) = Returns state
    /\ engine state = Some x_to_y_engine
    /\ input_info state = [fst maps1; fst maps2]
    /\ output_info state
       = [snd maps1; output_types_of (graph_outputs x_to_y_node);
          snd maps2; output_types_of (graph_outputs shape_input_node)].
Proof.
  apply (recompiled_node_keeps_its_first_engine 10 x_to_y_node shape_input_node
           {[ "x" := 0 ]} {[ "y" := 0 ]} {[ "x" := 1 ]} {[ "y" := 1 ]}
           (provider_with plain_settings false) no_nodes x_to_y_engine shape_input_engine).
  - reflexivity.
  - repeat split.
  - repeat split.
  - repeat split. cbn. apply not_elem_of_empty.
Defined.

(** X25.  A compile of a node with a precompiled engine that does not
    succeed stores nothing: the engines and the node tables are as
    before.  Its failures carry the code [ORT_EP_FAIL]; when loading the
    engine fails, the message of the loader's status is kept, its code
    is not, and the provider is untouched. *)
Theorem failed_precompiled_compile_stores_nothing :
  forall NV_TENSORRT_MAJOR env input_map output_map this_ tables,
    let r := CreateNodeComputeInfoFromPrecompiledEngine NV_TENSORRT_MAJOR env input_map
               output_map (this_, tables) in
    fst r <> Returns nullptr ->
    snd (snd r) = tables
    /\ engines_ (fst (snd r)) = engines_ this_
    /\ (fst r = Undefined \/ exists msg, fst r = Returns (CreateStatus ORT_EP_FAIL msg))
    /\ (is_failure (GetEpContextFromGraph_status env) = true ->
        r = (Returns (CreateStatus ORT_EP_FAIL
                        (GetErrorMessage (GetEpContextFromGraph_status env))),
             (this_, tables))).
Proof.
  intros major env im om this_ tables r. subst r.
  unfold CreateNodeComputeInfoFromPrecompiledEngine.
  destruct (is_failure (GetEpContextFromGraph_status env)).
  { cbn. intros _. split_and!; [done|done|right; by eexists|done]. }
  destruct (loaded_engine env) as [e|].
  2: { cbn. intros _. split_and!; [done|done|by left|done]. }
  cbv zeta. destruct (negb (createExecutionContext_result env _)).
  - intros _. cbn [fst snd]. split_and!; [done| |right; by eexists|done].
    by destruct (_ && _).
  - destruct (index_maps e im om). cbn [fst snd]. done.
Qed.

(** X25, on a node whose engine cannot be deserialized. *)
Lemma failed_precompiled_compile_stores_nothing_witness :
  let r := CreateNodeComputeInfoFromPrecompiledEngine 10 unloadable_node {[ "x" := 0 ]}
             {[ "y" := 0 ]} (provider_with plain_settings false, no_nodes) in
  snd (snd r) = no_nodes
  /\ engines_ (fst (snd r)) = engines_ (provider_with plain_settings false)
  /\ (fst r = Undefined \/ exists msg, fst r = Returns (CreateStatus ORT_EP_FAIL msg))
  /\ (is_failure (GetEpContextFromGraph_status unloadable_node) = true ->
      r = (Returns (CreateStatus ORT_EP_FAIL
                      (GetErrorMessage (GetEpContextFromGraph_status unloadable_node))),
           (provider_with plain_settings false, no_nodes))).
Proof.
  apply (failed_precompiled_compile_stores_nothing 10 unloadable_node {[ "x" := 0 ]}
           {[ "y" := 0 ]} (provider_with plain_settings false) no_nodes).
  discriminate.
Defined.

(** ** [Compile] *)


Section CompileTheorem.
Variables NV_TENSORRT_MAJOR NV_TENSORRT_MINOR : Z.
Variable BuilderFlag_bit : BuilderFlag -> Z.
Variable NetworkDefinitionCreationFlag_bit : NetworkDefinitionCreationFlag -> Z.
Variable GetNumProfiles : ProfileShapes -> Z.
Variable GetCachePath : string -> string -> string.
Variable iteration_order : ShapeRangesMap -> list string.

End CompileTheorem.


(** ** Outputs whose type has no copy label *)

(** X27.  A data-dependent output whose element type has no copy label
    in [BindKernelOutput] (float64, int64 below TensorRT 10, and every
    type TensorRT does not know) is accepted when the outputs are bound,
    and fails only when the outputs are assigned after the enqueue: the
    output tensor is requested from the kernel context, nothing is
    copied, and the status is [ORT_FAIL] with the message that names the
    type. *)
Theorem data_dependent_output_of_uncopied_type_fails_late :
  forall NV_TENSORRT_MAJOR env output_indexes output_types i output_name output_type
         allocator w,
    dds_output_allocator_map w !! output_name = Some allocator ->
    output_types !! output_name = Some output_type ->
    copy_case_size NV_TENSORRT_MAJOR output_type = None ->
    assign_output NV_TENSORRT_MAJOR env output_indexes output_types (i, output_name) w
    = (Returns (CreateStatus ORT_FAIL
                  ("TensorRT EP output tensor data type: " +:+ pretty output_type
                   +:+ " not supported.")),
       after_call (KernelContext_GetOutput (default 0 (output_indexes !! output_name))
                     (getOutputShape allocator)) w).
Proof.
  intros major env idxs types i name ty allocator w Hknown Hty Hcase.
  unfold assign_output. unfold mbind at 1, M_bind at 1. cbn [gets]. rewrite Hknown, Hty.
  rewrite bool_decide_eq_true_2 by (by eexists). cbn [default].
  unfold BindKernelOutput. rewrite Hknown.
  unfold mbind, M_bind, call, modify. unfold id. rewrite Hcase. reflexivity.
Qed.

(** X27, on a float64 output [y] whose allocator holds the shape
    [3, 2]. *)
Lemma data_dependent_output_of_uncopied_type_fails_late_witness :
  let w := after_call (enqueueV3 7)
             (snd (set_dds_output_allocator_map
                     {[ "y" := {| getBuffer := 12288; getOutputShape := [3; 2] |} ]}
                     empty_world)) in
  assign_output 10 dds_env {[ "y" := 0 ]} {[ "y" := ONNX_TENSOR_ELEMENT_DATA_TYPE_DOUBLE ]}
    (0%nat, "y") w
  = (Returns (CreateStatus ORT_FAIL
                ("TensorRT EP output tensor data type: "
                 +:+ pretty ONNX_TENSOR_ELEMENT_DATA_TYPE_DOUBLE +:+ " not supported.")),
     after_call (KernelContext_GetOutput (default 0 (({[ "y" := 0 ]} : gmap string Z) !! "y"))
                   (getOutputShape {| getBuffer := 12288; getOutputShape := [3; 2] |})) w).
Proof.
  apply (data_dependent_output_of_uncopied_type_fails_late 10 dds_env {[ "y" := 0 ]}
           {[ "y" := ONNX_TENSOR_ELEMENT_DATA_TYPE_DOUBLE ]} 0%nat "y"
           ONNX_TENSOR_ELEMENT_DATA_TYPE_DOUBLE
           {| getBuffer := 12288; getOutputShape := [3; 2] |}); reflexivity.
Defined.

(** ** Profiles made by the compile step *)

Section DefaultProfile.
Variables NV_TENSORRT_MAJOR NV_TENSORRT_MINOR : Z.
Variable BuilderFlag_bit : BuilderFlag -> Z.
Variable NetworkDefinitionCreationFlag_bit : NetworkDefinitionCreationFlag -> Z.
Variable GetNumProfiles : ProfileShapes -> Z.
Variable GetCachePath : string -> string -> string.
Variable iteration_order : ShapeRangesMap -> list string.

Lemma finish_profiles env this_ cs net cfg sc :
  let r := set_precision_and_device NV_TENSORRT_MAJOR NV_TENSORRT_MINOR BuilderFlag_bit
             GetCachePath env this_ cs net cfg sc in
  calls (snd r) = cs /\ scan (snd r) = sc
  /\ optimization_profiles (trt_config (snd r)) = optimization_profiles cfg.
Proof.
  unfold set_precision_and_device. repeat case_match; simplify_eq; cbn; done.
Qed.

(** X28.  Without explicit profiles the compile step makes one default
    optimization profile exactly when the network has an input of
    dynamic shape (a shape tensor, or a dimension that is -1): this is
    then the only profile in its list and the only profile call, nothing
    is set on it, and it is not added to the builder configuration. *)
Theorem default_profile_is_made_for_dynamic_inputs :
  forall env this_,
    let r := CreateNodeComputeInfoFromGraph NV_TENSORRT_MAJOR NV_TENSORRT_MINOR
               BuilderFlag_bit NetworkDefinitionCreationFlag_bit GetNumProfiles
               GetCachePath iteration_order env this_ in
    let dynamic := has_dynamic_input (parsed_network env) in
    has_explicit_profile (settings this_) = false ->
    has_dynamic_shape (scan (snd r)) = dynamic
    /\ trt_profiles (scan_profiles (scan (snd r))) = (if dynamic then [[]] else [])
    /\ filter (fun c => is_profile_call c = true) (calls (snd r))
       = (if dynamic then [createOptimizationProfile] else [])
    /\ optimization_profiles (trt_config (snd r))
       = optimization_profiles (createBuilderConfig_result env).
Proof.
  intros env this_ r dynamic Hexplicit. subst r dynamic.
  unfold CreateNodeComputeInfoFromGraph. cbv zeta.
  rewrite inputs_force_layer_norm_fp32.
  unfold num_profiles. rewrite Hexplicit. cbn [replicate].
  set (mn := profile_min_shapes_ (settings this_)).
  set (sc0 := {| scan_profiles := _ |}).
  destruct (scan_Returns false 0 mn (profile_max_shapes_ (settings this_))
              (profile_opt_shapes_ (settings this_)) (inputs (parsed_network env)) sc0
              (initial_scan_inv false 0 mn (inputs (parsed_network env))))
    as (us & sc & -> & ([Hlen _] & _ & _ & _ & Horigin) & Hseeded); [done|].
  apply length_zero_iff_nil in Hlen.
  assert (has_dynamic_shape sc = has_dynamic_input (parsed_network env)) as Hdyn.
  { unfold has_dynamic_input. destruct (has_dynamic_shape sc) eqn:Hhas; symmetry.
    - apply bool_decide_eq_true_2, Exists_exists.
      destruct (Horigin eq_refl) as (input & Hin & Hd & _). eauto.
    - apply bool_decide_eq_false_2. rewrite Exists_exists. intros (input & Hin & Hd).
      destruct (Hseeded input Hin eq_refl Hd) as (Hhas' & _). congruence. }
  rewrite <- Hdyn.
  assert (forall this_ : TensorrtExecutionProvider,
            filter (fun c => is_profile_call c = true)
              (([GetTensorrtLogger (detailed_build_log_ (settings this_))]
                ++ (if builder_ this_ then [] else [createInferBuilder])
                ++ [createNetworkV2
                      (network_flags_of NV_TENSORRT_MAJOR NetworkDefinitionCreationFlag_bit
                         this_);
                    createBuilderConfig; createParser; parse (model_path_ (settings this_))])
               ++ []) = []) as Hopening.
  { intros t. by destruct (builder_ t). }
  unfold network_flags_of in Hopening.
  destruct (has_dynamic_shape sc) eqn:Hhas.
  - match goal with |- context [set_precision_and_device ?a ?b ?c ?d env this_ ?cs ?net ?cfg ?sc'] =>
      destruct (finish_profiles env this_ cs net cfg sc') as (-> & -> & ->)
    end.
    cbn [has_dynamic_shape push_back_profile scan_profiles trt_profiles].
    rewrite Hlen, filter_app, Hopening. by split_and!.
  - match goal with |- context [set_precision_and_device ?a ?b ?c ?d env this_ ?cs ?net ?cfg ?sc'] =>
      destruct (finish_profiles env this_ cs net cfg sc') as (-> & -> & ->)
    end.
    rewrite Hlen, Hopening. by split_and!.
Qed.
End DefaultProfile.

(** X28, on the network with the dynamic inputs [x] and [y]. *)
Lemma default_profile_is_made_for_dynamic_inputs_witness :
  let r := CreateNodeComputeInfoFromGraph 10 0 BuilderFlag_bit_10
             NetworkDefinitionCreationFlag_bit_10 GetNumProfiles_spec path_append
             keys_in_order (build_env_of two_input_network)
             (provider_with plain_settings false) in
  let dynamic := has_dynamic_input (parsed_network (build_env_of two_input_network)) in
  has_dynamic_shape (scan (snd r)) = dynamic
  /\ trt_profiles (scan_profiles (scan (snd r))) = (if dynamic then [[]] else [])
  /\ filter (fun c => is_profile_call c = true) (calls (snd r))
     = (if dynamic then [createOptimizationProfile] else [])
  /\ optimization_profiles (trt_config (snd r))
     = optimization_profiles (createBuilderConfig_result (build_env_of two_input_network)).
Proof.
  apply (default_profile_is_made_for_dynamic_inputs 10 0 BuilderFlag_bit_10
           NetworkDefinitionCreationFlag_bit_10 GetNumProfiles_spec path_append
           keys_in_order (build_env_of two_input_network)
           (provider_with plain_settings false)).
  reflexivity.
Defined.

(** ** [ApplyProfileShapesFromProviderOptions]: the dimensions it sets *)

Section ApplyDimensions.
Variable input : ITensor.
Variables profile_min_shapes profile_max_shapes profile_opt_shapes : ProfileShapes.
Variable N : nat.

Lemma read_triple_value i j p a b c :
  ranges_inv N p -> (i < N)%nat ->
  shape_lookup profile_min_shapes (getName input) i j = Some a ->
  shape_lookup profile_max_shapes (getName input) i j = Some b ->
  shape_lookup profile_opt_shapes (getName input) i j = Some c ->
  exists p',
    read_triple input profile_min_shapes profile_max_shapes profile_opt_shapes i j p
    = (Returns (to_int32 a, to_int32 b, to_int32 c), p')
    /\ ranges_inv N p' /\ trt_profiles p' = trt_profiles p.
Proof.
  intros Hinv Hi Ha Hb Hc. unfold read_triple.
  destruct (record_triple_Returns N (getName input) j i a b c p Hinv Hi) as (p' & Hp' & Hinv').
  exists p'. split_and!; [|done|].
  - erewrite bind_Returns by (by apply shape_value_Returns).
    erewrite bind_Returns by (by apply shape_value_Returns).
    erewrite bind_Returns by (by apply shape_value_Returns).
    erewrite bind_Returns by exact Hp'. reflexivity.
  - unfold record_triple in Hp'. cbv zeta in Hp'.
    destruct (_ !! i) in Hp'; by simplify_eq.
Qed.

Lemma dimension_loop i :
  (i < N)%nat ->
  (forall j, getDimensions input !! j = Some (-1) ->
     has_triple profile_min_shapes profile_max_shapes profile_opt_shapes (getName input) i j) ->
  forall n k w, ranges_inv N w -> (k + n <= length (getDimensions input))%nat ->
    exists w',
      for_each (seq k n)
        (fun j => d ← at_ (getDimensions input) j;
                  if bool_decide (d = -1)
                  then read_triple input profile_min_shapes profile_max_shapes
                         profile_opt_shapes i j
                  else mret (d, d, d)) w
      = (Returns ((fun j => profile_triple profile_min_shapes profile_max_shapes
                              profile_opt_shapes input i j
                              (default 0 (getDimensions input !! j))) <$> seq k n), w')
      /\ ranges_inv N w' /\ trt_profiles w' = trt_profiles w.
Proof.
  intros Hi Hdef. induction n as [|n IH]; intros k w Hw Hlen; simpl.
  { by exists w. }
  destruct (lookup_lt_is_Some_2 (getDimensions input) k) as [d Hd]; [lia|].
  assert (exists w1,
            (d' ← at_ (getDimensions input) k;
             if bool_decide (d' = -1)
             then read_triple input profile_min_shapes profile_max_shapes
                    profile_opt_shapes i k
             else mret (d', d', d')) w
            = (Returns (profile_triple profile_min_shapes profile_max_shapes
                          profile_opt_shapes input i k d), w1)
            /\ ranges_inv N w1 /\ trt_profiles w1 = trt_profiles w) as (w1 & Hw1 & Hinv1 & Hp1).
  { unfold profile_triple. case (decide (d = -1)) as [->|Hne].
    - destruct (Hdef k Hd) as ([a Ha] & [b Hb] & [c Hc]).
      destruct (read_triple_value i k w a b c Hw Hi Ha Hb Hc) as (w1 & Hw1 & ? & ?).
      exists w1. split; [|done].
      erewrite bind_Returns; [|unfold at_; by rewrite Hd].
      rewrite !bool_decide_eq_true_2 by done. by rewrite Ha, Hb, Hc.
    - exists w. split; [|done].
      erewrite bind_Returns; [|unfold at_; by rewrite Hd].
      by rewrite !bool_decide_eq_false_2. }
  destruct (IH (S k) w1 Hinv1) as (w2 & Hw2 & Hinv2 & Hp2); [lia|].
  exists w2. split_and!; [|done|congruence].
  erewrite bind_Returns by exact Hw1. erewrite bind_Returns by exact Hw2.
  by rewrite Hd.
Qed.

Lemma profile_triple_components i :
  let ts := (fun j => profile_triple profile_min_shapes profile_max_shapes profile_opt_shapes
                        input i j (default 0 (getDimensions input !! j)))
            <$> seq 0 (length (getDimensions input)) in
  [setDimensions (getName input) kMIN (ts.*1.*1);
   setDimensions (getName input) kMAX (ts.*1.*2);
   setDimensions (getName input) kOPT (ts.*2)]
  = profile_settings profile_min_shapes profile_max_shapes profile_opt_shapes input i.
Proof.
  cbv zeta. unfold profile_settings, profile_dims.
  rewrite <- !list_fmap_compose.
  assert (forall (shapes : ProfileShapes) (g : nat -> Z),
            (forall j d, getDimensions input !! j = Some d ->
               g j = if bool_decide (d = -1)
                     then to_int32 (default 0 (shape_lookup shapes (getName input) i j))
                     else d) ->
            g <$> seq 0 (length (getDimensions input))
            = imap (fun j d => if bool_decide (d = -1)
                               then to_int32 (default 0 (shape_lookup shapes (getName input) i j))
                               else d) (getDimensions input)) as Heq.
  { intros shapes g Hg. rewrite <- imap_seq_0. apply imap_ext. intros j d Hd.
    by apply Hg. }
  rewrite (Heq profile_min_shapes), (Heq profile_max_shapes), (Heq profile_opt_shapes);
    [done|..];
    intros j d Hd; cbn; rewrite Hd; cbn; unfold profile_triple; by case_bool_decide.
Qed.

Lemma apply_profile_sets i w q :
  isShapeTensor input = false ->
  ranges_inv N w ->
  trt_profiles w !! i = Some q ->
  profile_defined_at profile_min_shapes profile_max_shapes profile_opt_shapes input i ->
  exists w',
    apply_profile input profile_min_shapes profile_max_shapes profile_opt_shapes i w
    = (Returns tt, w')
    /\ ranges_inv N w'
    /\ trt_profiles w'
       = <[i := q ++ profile_settings profile_min_shapes profile_max_shapes
                      profile_opt_shapes input i]> (trt_profiles w).
Proof.
  intros Hexec Hw Hq Hdef.
  assert (i < N)%nat as Hi.
  { destruct Hw as [<- _]. by eapply lookup_lt_Some. }
  unfold apply_profile, profile_defined_at in *. rewrite Hexec in *.
  destruct (dimension_loop i Hi Hdef (length (getDimensions input)) 0%nat w Hw)
    as (w1 & Hw1 & [Hlen1 Hslots1] & Hp1); [lia|].
  erewrite bind_Returns by exact Hw1.
  rewrite (profile_triple_components i).
  unfold configure_profile. rewrite Hp1, Hq.
  eexists. split; [reflexivity|]. cbn. split; [|done].
  split; cbn; [|done]. rewrite length_insert. destruct Hw as [Hlen _]. congruence.
Qed.
End ApplyDimensions.

Lemma for_each_append_settings_at (J : Profiles -> Prop) (body : nat -> M Profiles unit)
    (s : nat -> list ProfileSetting) :
  forall n k w,
    (forall i w q, J w -> (k <= i < k + n)%nat -> trt_profiles w !! i = Some q ->
       exists w', body i w = (Returns tt, w') /\ J w'
                  /\ trt_profiles w' = <[i := q ++ s i]> (trt_profiles w)) ->
    J w -> (k + n)%nat = length (trt_profiles w) ->
    exists w',
      for_each (seq k n) body w = (Returns (replicate n tt), w')
      /\ trt_profiles w'
         = take k (trt_profiles w)
           ++ imap (fun i q => q ++ s (k + i)%nat) (drop k (trt_profiles w)).
Proof.
  induction n as [|n IH]; intros k w Hbody Hw Hlen; simpl.
  - exists w. split; [done|].
    rewrite drop_ge by lia. rewrite take_ge by lia. by rewrite app_nil_r.
  - destruct (lookup_lt_is_Some_2 (trt_profiles w) k) as [q Hq]; [lia|].
    destruct (Hbody k w q Hw) as (w1 & Hw1 & HJ1 & Hp1); [lia|done|].
    destruct (IH (S k) w1) as (w2 & Hw2 & Hp2); [|done|rewrite Hp1, length_insert; lia|].
    { intros i w' q' HJ' Hi. apply Hbody; [done|lia]. }
    exists w2. split.
    { erewrite bind_Returns by exact Hw1. erewrite bind_Returns by exact Hw2. reflexivity. }
    rewrite Hp2, Hp1. rewrite (drop_S _ _ _ Hq). cbn.
    rewrite drop_insert_lt by lia.
    rewrite (take_S_r _ _ (q ++ s k)).
    2: { apply list_lookup_insert_eq. by eapply lookup_lt_Some. }
    rewrite take_insert_ge by lia. rewrite <- app_assoc. cbn.
    rewrite Nat.add_0_r. do 2 f_equal.
    apply imap_ext. intros i x _. cbn. do 2 f_equal. lia.
Qed.

(** X29.  For an execution-tensor input that the profile maps cover,
    [ApplyProfileShapesFromProviderOptions] answers true and adds to
    every profile [i] exactly three settings, the minimum, maximum and
    optimum dimensions of the input: a dimension that is -1 takes the
    value the matching map holds for profile [i], narrowed to 32 bits, and
    every other dimension keeps the value of the network, whatever the
    maps say for it. *)
Theorem explicit_profile_sets_dimensions :
  forall input profile_min_shapes profile_max_shapes profile_opt_shapes p,
    isShapeTensor input = false ->
    ranges_inv (length (trt_profiles p)) p ->
    trt_profiles p <> [] ->
    is_Some (profile_min_shapes !! getName input) ->
    (forall i, (i < length (trt_profiles p))%nat ->
       profile_defined_at profile_min_shapes profile_max_shapes profile_opt_shapes input i) ->
    let r := ApplyProfileShapesFromProviderOptions input profile_min_shapes
               profile_max_shapes profile_opt_shapes p in
    fst r = Returns true
    /\ trt_profiles (snd r)
       = imap (fun i q => q ++ profile_settings profile_min_shapes profile_max_shapes
                                 profile_opt_shapes input i) (trt_profiles p).
Proof.
  intros input mn mx op p Hexec Hinv Hne [v Hv] Hdef r. subst r.
  unfold ApplyProfileShapesFromProviderOptions.
  rewrite bool_decide_eq_false_2 by (by intros ?%length_zero_iff_nil).
  rewrite bool_decide_eq_false_2 by (by rewrite Hv).
  set (p1 := {| trt_profiles := trt_profiles p; input_explicit_shape_ranges := _ |}).
  assert (ranges_inv (length (trt_profiles p)) p1) as Hinv1.
  { destruct Hinv as [_ Hslots]. split; [done|]. unfold p1. cbn. intros name inner j u Hn Hj.
    destruct (input_explicit_shape_ranges p !! getName input) eqn:Hm; [by eauto|].
    destruct (decide (getName input = name)) as [<-|Hname].
    - rewrite lookup_insert_eq in Hn. simplify_eq; try by rewrite lookup_empty in Hj.
    - rewrite lookup_insert_ne in Hn by done. eauto. }
  destruct (for_each_append_settings_at (ranges_inv (length (trt_profiles p)))
              (apply_profile input mn mx op) (profile_settings mn mx op input)
              (length (trt_profiles p)) 0%nat p1) as (p2 & Hp2 & Hprofiles); [|done|done|].
  { intros i w q Hw Hi Hq. apply apply_profile_sets; [done..|]. apply Hdef. lia. }
  erewrite bind_Returns by exact Hp2. cbn. split; [done|].
  by rewrite Hprofiles.
Qed.

Lemma wide_profiles_covered :
  ranges_inv (length (trt_profiles wide_profiles)) wide_profiles
  /\ forall i, (i < length (trt_profiles wide_profiles))%nat ->
       profile_defined_at wide_min_shapes wide_max_shapes wide_opt_shapes batch_input i.
Proof.
  split.
  - split; [done|]. intros name inner j v Hn. cbn in Hn. by rewrite lookup_empty in Hn.
  - intros i Hi. cbn in Hi. unfold profile_defined_at. cbn.
    intros j Hj. destruct j as [|[|j]]; cbn in Hj; simplify_eq.
    destruct i as [|[|i]]; [| |lia]; split_and!; by eexists.
Qed.

(** X29, on two profiles whose batch sizes for [x] exceed 32 bits in the
    second profile: that profile is given the batch sizes 1, 8 and 4. *)
Lemma explicit_profile_sets_dimensions_witness :
  let r := ApplyProfileShapesFromProviderOptions batch_input wide_min_shapes
             wide_max_shapes wide_opt_shapes wide_profiles in
  fst r = Returns true
  /\ trt_profiles (snd r)
     = imap (fun i q => q ++ profile_settings wide_min_shapes wide_max_shapes
                               wide_opt_shapes batch_input i) (trt_profiles wide_profiles).
Proof.
  apply (explicit_profile_sets_dimensions batch_input wide_min_shapes wide_max_shapes
           wide_opt_shapes wide_profiles).
  - reflexivity.
  - exact (proj1 wide_profiles_covered).
  - discriminate.
  - by eexists.
  - exact (proj2 wide_profiles_covered).
Defined.
